(** * CryptoPunks subgraph: the state-aggregation engine

    A shallow embedding of the mapping code of the subgraph
    ([src/utils/helpers.ts] and [src/crypto-punks-market.ts]) together with
    the properties of its floor-price engine, snapshot carry-forward,
    top-rank tracker, ownership ledger and event handlers.

    The Graph's entity store is modelled as one finite map per entity type,
    keyed by the entity id; [X.load(id)] is a lookup, [x.save()] an insert
    under the entity's id and [store.remove('X', id)] a delete.  Handlers
    thread the store explicitly.  [BigInt] values are unbounded integers
    ([Z]); addresses, hashes and ids are the strings the code obtains with
    [toHexString()] / [toString()]. *)

From stdpp Require Import gmap strings list fin_maps pretty.
From Stdlib Require Import ZArith Lia Ascii.

Local Open Scope string_scope.
Local Open Scope Z_scope.
Local Open Scope list_scope.

(** ** Entities ([schema.graphql]) *)

Record Account := mkAccount {
  account_id : string;
  punks : list string;
}.

Record Punk := mkPunk {
  punk_id : string;
  owner : string;
  wrapped : bool;
}.

Record Listing := mkListing {
  listing_id : string;
  listing_punk : string;
  listing_value : Z;
  listing_usd : option Z;
  listing_fromAccount : string;
  listing_toAccount : string;
  isPrivate : bool;
  listing_blockNumber : Z;
  listing_blockTimestamp : Z;
  listing_transactionHash : string;
}.

Record Bid := mkBid {
  bid_id : string;
  bid_punk : string;
  bid_value : Z;
  bid_usd : option Z;
  bid_fromAccount : string;
  bid_blockNumber : Z;
  bid_blockTimestamp : Z;
  bid_transactionHash : string;
}.

Record Event := mkEvent {
  event_id : string;
  event_transactionHash : string;
  event_type : string;
  tokenId : Z;
  event_fromAccount : option string;
  event_toAccount : option string;
  event_value : Z;
  event_usd : option Z;
  event_blockNumber : Z;
  event_blockTimestamp : Z;
}.

Record State := mkState {
  state_id : string;
  timestamp : Z;
  floor : Z;
  volume : Z;
  topBid : option string;
  bids : Z;
  topSale : option string;
  sales : Z;
  owners : Z;
  activeListings : list string;
  listings : Z;
  delistings : Z;
  usd : option Z;
}.

Record Transfer := mkTransfer {
  transfer_id : string;
  transfer_from : string;
  transfer_to : string;
  transfer_transactionHash : string;
  transfer_tokenId : option string;
}.

(** ** The entity store *)

Record Store := mkStore {
  accountStore : gmap string Account;
  punkStore : gmap string Punk;
  listingStore : gmap string Listing;
  bidStore : gmap string Bid;
  eventStore : gmap string Event;
  stateStore : gmap string State;
  transferStore : gmap string Transfer;
}.

Definition emptyStore : Store := mkStore ∅ ∅ ∅ ∅ ∅ ∅ ∅.

Definition Account_load (s : Store) (id : string) : option Account := accountStore s !! id.
Definition Punk_load (s : Store) (id : string) : option Punk := punkStore s !! id.
Definition Listing_load (s : Store) (id : string) : option Listing := listingStore s !! id.
Definition Bid_load (s : Store) (id : string) : option Bid := bidStore s !! id.
Definition Event_load (s : Store) (id : string) : option Event := eventStore s !! id.
Definition State_load (s : Store) (id : string) : option State := stateStore s !! id.
Definition Transfer_load (s : Store) (id : string) : option Transfer := transferStore s !! id.

Definition Account_save (a : Account) (s : Store) : Store :=
  mkStore (<[account_id a := a]> (accountStore s)) (punkStore s) (listingStore s)
          (bidStore s) (eventStore s) (stateStore s) (transferStore s).
Definition Punk_save (p : Punk) (s : Store) : Store :=
  mkStore (accountStore s) (<[punk_id p := p]> (punkStore s)) (listingStore s)
          (bidStore s) (eventStore s) (stateStore s) (transferStore s).
Definition Listing_save (l : Listing) (s : Store) : Store :=
  mkStore (accountStore s) (punkStore s) (<[listing_id l := l]> (listingStore s))
          (bidStore s) (eventStore s) (stateStore s) (transferStore s).
Definition Bid_save (b : Bid) (s : Store) : Store :=
  mkStore (accountStore s) (punkStore s) (listingStore s)
          (<[bid_id b := b]> (bidStore s)) (eventStore s) (stateStore s) (transferStore s).
Definition Event_save (e : Event) (s : Store) : Store :=
  mkStore (accountStore s) (punkStore s) (listingStore s)
          (bidStore s) (<[event_id e := e]> (eventStore s)) (stateStore s) (transferStore s).
Definition State_save (st : State) (s : Store) : Store :=
  mkStore (accountStore s) (punkStore s) (listingStore s)
          (bidStore s) (eventStore s) (<[state_id st := st]> (stateStore s)) (transferStore s).
Definition Transfer_save (t : Transfer) (s : Store) : Store :=
  mkStore (accountStore s) (punkStore s) (listingStore s)
          (bidStore s) (eventStore s) (stateStore s) (<[transfer_id t := t]> (transferStore s)).

(** [store.remove('Listing', id)] and [store.remove('Bid', id)]. *)
Definition Listing_remove (id : string) (s : Store) : Store :=
  mkStore (accountStore s) (punkStore s) (delete id (listingStore s))
          (bidStore s) (eventStore s) (stateStore s) (transferStore s).
Definition Bid_remove (id : string) (s : Store) : Store :=
  mkStore (accountStore s) (punkStore s) (listingStore s)
          (delete id (bidStore s)) (eventStore s) (stateStore s) (transferStore s).

(** Field assignments on a loaded [State] (the generated setters). *)
Definition set_floor (v : Z) (st : State) : State :=
  mkState (state_id st) (timestamp st) v (volume st) (topBid st) (bids st) (topSale st)
          (sales st) (owners st) (activeListings st) (listings st) (delistings st) (usd st).
Definition set_volume (v : Z) (st : State) : State :=
  mkState (state_id st) (timestamp st) (floor st) v (topBid st) (bids st) (topSale st)
          (sales st) (owners st) (activeListings st) (listings st) (delistings st) (usd st).
Definition set_topBid (v : option string) (st : State) : State :=
  mkState (state_id st) (timestamp st) (floor st) (volume st) v (bids st) (topSale st)
          (sales st) (owners st) (activeListings st) (listings st) (delistings st) (usd st).
Definition set_bids (v : Z) (st : State) : State :=
  mkState (state_id st) (timestamp st) (floor st) (volume st) (topBid st) v (topSale st)
          (sales st) (owners st) (activeListings st) (listings st) (delistings st) (usd st).
Definition set_topSale (v : option string) (st : State) : State :=
  mkState (state_id st) (timestamp st) (floor st) (volume st) (topBid st) (bids st) v
          (sales st) (owners st) (activeListings st) (listings st) (delistings st) (usd st).
Definition set_sales (v : Z) (st : State) : State :=
  mkState (state_id st) (timestamp st) (floor st) (volume st) (topBid st) (bids st) (topSale st)
          v (owners st) (activeListings st) (listings st) (delistings st) (usd st).
Definition set_owners (v : Z) (st : State) : State :=
  mkState (state_id st) (timestamp st) (floor st) (volume st) (topBid st) (bids st) (topSale st)
          (sales st) v (activeListings st) (listings st) (delistings st) (usd st).
Definition set_activeListings (v : list string) (st : State) : State :=
  mkState (state_id st) (timestamp st) (floor st) (volume st) (topBid st) (bids st) (topSale st)
          (sales st) (owners st) v (listings st) (delistings st) (usd st).
Definition set_listings (v : Z) (st : State) : State :=
  mkState (state_id st) (timestamp st) (floor st) (volume st) (topBid st) (bids st) (topSale st)
          (sales st) (owners st) (activeListings st) v (delistings st) (usd st).
Definition set_delistings (v : Z) (st : State) : State :=
  mkState (state_id st) (timestamp st) (floor st) (volume st) (topBid st) (bids st) (topSale st)
          (sales st) (owners st) (activeListings st) (listings st) v (usd st).
Definition set_usd (v : option Z) (st : State) : State :=
  mkState (state_id st) (timestamp st) (floor st) (volume st) (topBid st) (bids st) (topSale st)
          (sales st) (owners st) (activeListings st) (listings st) (delistings st) v.

(** Modelled from the spec: [utils/constants.ts] is not among the sources;
    [BIGINT_ZERO] and [BIGINT_ONE] are the integers zero and one. *)
Definition BIGINT_ZERO : Z := 0.
Definition BIGINT_ONE : Z := 1.

(** An [Array<string>.filter(id => id != x)]. *)
Definition removeId (x : string) (l : list string) : list string :=
  filter (λ n, n ≠ x) l.

(** ASCII lower-casing, as [String#toLowerCase] acts on hexadecimal addresses. *)
Definition lowerAscii (c : ascii) : ascii :=
  let n := nat_of_ascii c in
  if ((65 <=? n) && (n <=? 90))%nat then ascii_of_nat (n + 32) else c.

Fixpoint toLowerCase (s : string) : string :=
  match s with
  | EmptyString => EmptyString
  | String c r => String (lowerAscii c) (toLowerCase r)
  end.

(** The part of an [ethereum.Event] the mappings read: transaction hash and
    sender (already as hex strings), log index, block number and timestamp. *)
Record EthEvent := mkEthEvent {
  tx_hash : string;
  tx_from : string;
  logIndex : Z;
  block_number : Z;
  block_timestamp : Z;
}.

(** [getGlobalId]: transaction hash, a dash, the log index in decimal. *)
Definition getGlobalId (ev : EthEvent) : string :=
  tx_hash ev +:+ "-" +:+ pretty (logIndex ev).

(** ** External collaborators

    Code the mappings import but which is not part of the aggregation core:
    the bucket-id function of [utils/date-utils.ts], [BigInt#toI32] of the
    host library, the USD oracle of [utils/conversions.ts] and the address
    constants and wash-trade table of [utils/constants.ts].
    [timestampToId ts lookback] is the id of the bucket [lookback] buckets
    before the one of [ts]; the one-argument call [timestampToId(ts)] is
    [timestampToId ts 0]. *)

Class Host := mkHost {
  timestampToId : Z → Z → string;
  toI32 : Z → Z;
  USDValue : Z → Z → Z;
  ZERO_ADDRESS : string;
  WRAPPER_ADDRESS : string;
  washTrades : list string;
}.

(** ** [utils/helpers.ts] *)

Section Helpers.
Context `{Host}.

(** [getOrCreateAccount(id)]; every call site uses the default flags
    [createIfNotFound = true] and [save = true]. *)
Definition getOrCreateAccount (id : string) (s : Store) : Store * Account :=
  match Account_load s id with
  | Some account => (s, account)
  | None =>
      let account := mkAccount id [] in
      (Account_save account s, account)
  end.

(** [getOrCreatePunk(id)], default flags as above. *)
Definition getOrCreatePunk (id : string) (s : Store) : Store * Punk :=
  match Punk_load s id with
  | Some punk => (s, punk)
  | None =>
      let punk := mkPunk id ZERO_ADDRESS false in
      (Punk_save punk s, punk)
  end.

(** One pass of the loop body of [getFloorFromActiveListings]: [newFloor] is
    [BigInt | null]. *)
Definition floorStep (s : Store) (newFloor : option Z) (id : string) : option Z :=
  match Listing_load s id with
  | Some listing =>
      if listing_value listing >? BIGINT_ZERO then
        match newFloor with
        | None => Some (listing_value listing)
        | Some f => if listing_value listing <? f then Some (listing_value listing) else newFloor
        end
      else newFloor
  | None => newFloor
  end.

Definition getFloorFromActiveListings (s : Store) (state : State) : Z :=
  let prevId := timestampToId (toI32 (timestamp state)) 1 in
  let prevState := State_load s prevId in
  let prevFloor := match prevState with Some p => floor p | None => BIGINT_ZERO end in
  let listings := activeListings state in
  if (length listings <? 5)%nat then prevFloor
  else
    let newFloor := fold_left (floorStep s) listings None in
    match newFloor with Some f => f | None => BIGINT_ZERO end.

(** The [do { ... } while (!prevState && i <= 30)] loop of [getOrCreateState],
    entered with [i]; [fuel] bounds the number of passes. *)
Fixpoint prevStateLoop (s : Store) (ts : Z) (fuel : nat) (i : Z) : option State :=
  match fuel with
  | O => None
  | S fuel' =>
      let prevId := timestampToId ts i in
      let prevState := State_load s prevId in
      let i' := i + 1 in
      match prevState with
      | None => if i' <=? 30 then prevStateLoop s ts fuel' i' else prevState
      | Some _ => prevState
      end
  end.

Definition getOrCreateState (s : Store) (timestamp : Z) : State :=
  let ts := toI32 timestamp in
  let id := timestampToId ts 0 in
  let prevState := prevStateLoop s ts 30 1 in
  let prevListings := match prevState with Some p => activeListings p | None => [] end in
  let prevOwners := match prevState with Some p => owners p | None => BIGINT_ZERO end in
  match State_load s id with
  | Some state => state
  | None =>
      let state :=
        mkState id timestamp BIGINT_ZERO BIGINT_ZERO None BIGINT_ZERO None BIGINT_ZERO
                prevOwners prevListings BIGINT_ZERO BIGINT_ZERO None in
      if (0 <? length prevListings)%nat
      then set_floor (getFloorFromActiveListings s state) state
      else state
  end.

Definition updateOwnership (transactionHash : string) (blockTimestamp : Z)
    (punkId toAddress fromAddress : string) (s : Store) : Store :=
  let '(s, toAccount) := getOrCreateAccount toAddress s in
  let '(s, fromAccount) := getOrCreateAccount fromAddress s in
  let toHolderPunks := punks toAccount in
  let fromHolderPunks := punks fromAccount in
  let state := getOrCreateState s blockTimestamp in
  let prevOwners := owners state in
  let prevOwners :=
    if (length fromHolderPunks =? 1)%nat then prevOwners - BIGINT_ONE else prevOwners in
  let prevOwners :=
    if (length toHolderPunks =? 0)%nat then prevOwners + BIGINT_ONE else prevOwners in
  let s := State_save (set_owners prevOwners state) s in
  let newFromHolderPunks := removeId punkId fromHolderPunks in
  let fromAccount := mkAccount (account_id fromAccount) newFromHolderPunks in
  let toHolderPunks := toHolderPunks ++ [punkId] in
  let toAccount := mkAccount (account_id toAccount) toHolderPunks in
  let s := Account_save fromAccount s in
  let s := Account_save toAccount s in
  let '(s, punk) := getOrCreatePunk punkId s in
  Punk_save (mkPunk (punk_id punk) (account_id toAccount) (wrapped punk)) s.

Definition loadPrevBidEvent (s : Store) (topBid : option string) : option Event :=
  match topBid with
  | None => None
  | Some id => Event_load s id
  end.

Definition loadPrevSaleEvent (s : Store) (topSale : option string) : option Event :=
  match topSale with
  | None => None
  | Some id => Event_load s id
  end.

Definition setPunkNoLongerForSale (punkId : string) (removeBid : bool) (s : Store) : Store :=
  let s := match Listing_load s punkId with
           | Some _ => Listing_remove punkId s
           | None => s
           end in
  if removeBid then
    match Bid_load s punkId with
    | Some _ => Bid_remove punkId s
    | None => s
    end
  else s.

End Helpers.

(** ** Decoded contract events ([generated/CryptoPunksMarket]) *)

Record AssignEvent := mkAssignEvent {
  as_event : EthEvent;
  as_to : string;
  as_punkIndex : Z;
}.

Record TransferEvent := mkTransferEvent {
  tr_event : EthEvent;
  tr_from : string;
  tr_to : string;
}.

Record PunkTransferEvent := mkPunkTransferEvent {
  pt_event : EthEvent;
  pt_from : string;
  pt_to : string;
  pt_punkIndex : Z;
}.

Record PunkOfferedEvent := mkPunkOfferedEvent {
  po_event : EthEvent;
  po_punkIndex : Z;
  po_minValue : Z;
  po_toAddress : string;
}.

Record PunkBidEnteredEvent := mkPunkBidEnteredEvent {
  be_event : EthEvent;
  be_punkIndex : Z;
  be_value : Z;
  be_fromAddress : string;
}.

Record PunkBidWithdrawnEvent := mkPunkBidWithdrawnEvent {
  bw_event : EthEvent;
  bw_punkIndex : Z;
  bw_value : Z;
  bw_fromAddress : string;
}.

Record PunkBoughtEvent := mkPunkBoughtEvent {
  pb_event : EthEvent;
  pb_punkIndex : Z;
  pb_value : Z;
  pb_fromAddress : string;
  pb_toAddress : string;
}.

Record PunkNoLongerForSaleEvent := mkPunkNoLongerForSaleEvent {
  nl_event : EthEvent;
  nl_punkIndex : Z;
}.

(** ** [crypto-punks-market.ts] *)

Section Handlers.
Context `{Host}.

(** The [Event] record a handler fills in: id, type, token, accounts, value. *)
Definition newEvent (ev : EthEvent) (type : string) (token : Z)
    (fromAccount toAccount : string) (value : Z) : Event :=
  mkEvent (getGlobalId ev) (tx_hash ev) type token (Some fromAccount) (Some toAccount) value
          (Some (USDValue (block_timestamp ev) (block_number ev)))
          (block_number ev) (block_timestamp ev).

Definition handleAssign (event : AssignEvent) (s : Store) : Store :=
  let ev := as_event event in
  let '(s, fromAccount) := getOrCreateAccount ZERO_ADDRESS s in
  let '(s, toAccount) := getOrCreateAccount (as_to event) s in
  let evnt := newEvent ev "Claimed" (as_punkIndex event) ZERO_ADDRESS (account_id toAccount)
                       BIGINT_ZERO in
  let s := Event_save evnt s in
  updateOwnership (tx_hash ev) (block_timestamp ev) (pretty (as_punkIndex event))
                  (account_id toAccount) (account_id fromAccount) s.

Definition handleTransfer (event : TransferEvent) (s : Store) : Store :=
  let ev := tr_event event in
  let transfer := mkTransfer (tx_hash ev) (tr_from event) (tr_to event) (tx_hash ev) None in
  Transfer_save transfer s.

Definition handlePunkTransfer (event : PunkTransferEvent) (s : Store) : Store :=
  let ev := pt_event event in
  let punkTransferTokenId := pretty (pt_punkIndex event) in
  let from := pt_from event in
  let to := pt_to event in
  let '(s, fromAccount) := getOrCreateAccount from s in
  let '(s, toAccount) := getOrCreateAccount to s in
  let '(s, punk) := getOrCreatePunk punkTransferTokenId s in
  let isWrapped := bool_decide (to = WRAPPER_ADDRESS) in
  let isUnwrapped := bool_decide (from = WRAPPER_ADDRESS) in
  let s := Punk_save (mkPunk (punk_id punk) (owner punk) isWrapped) s in
  let '(s, newOwnerIsBidder) :=
    match Bid_load s punkTransferTokenId with
    | Some bid =>
        let '(s, bidderAccount) := getOrCreateAccount (bid_fromAccount bid) s in
        (s, bool_decide (toLowerCase (account_id bidderAccount)
                         = toLowerCase (account_id toAccount)))
    | None => (s, false)
    end in
  let s := setPunkNoLongerForSale punkTransferTokenId newOwnerIsBidder s in
  let eventType :=
    if isWrapped then "Wrapped" else if isUnwrapped then "Unwrapped" else "Transferred" in
  let evnt := newEvent ev eventType (pt_punkIndex event) (account_id fromAccount)
                       (account_id toAccount) BIGINT_ZERO in
  let state := getOrCreateState s (block_timestamp ev) in
  let newActiveListings :=
    if bool_decide (punkTransferTokenId ∈ activeListings state)
    then removeId punkTransferTokenId (activeListings state)
    else activeListings state in
  let state := set_activeListings newActiveListings state in
  let newFloor := getFloorFromActiveListings s state in
  let state := set_floor newFloor state in
  let state := set_usd (Some (USDValue (block_timestamp ev) (block_number ev))) state in
  let s := State_save state s in
  let s := Event_save evnt s in
  updateOwnership (tx_hash ev) (block_timestamp ev) punkTransferTokenId
                  (account_id toAccount) (account_id fromAccount) s.

(** The buyer and value [handlePunkBought] settles on, with the store after
    the listing (and bid) has been closed: lines 170-181. *)
Definition resolveBuyer (punkBoughtTokenId : string) (toAccount : Account) (value : Z)
    (bid : option Bid) (s : Store) : Store * Account * Z :=
  if bool_decide (account_id toAccount = ZERO_ADDRESS) then
    match bid with
    | Some b =>
        let '(s, toAccount) := getOrCreateAccount (bid_fromAccount b) s in
        (setPunkNoLongerForSale punkBoughtTokenId true s, toAccount, bid_value b)
    | None => (setPunkNoLongerForSale punkBoughtTokenId true s, toAccount, value)
    end
  else if match bid with
          | Some b => bool_decide (toLowerCase (bid_fromAccount b)
                                   = toLowerCase (account_id toAccount))
          | None => false
          end
  then (setPunkNoLongerForSale punkBoughtTokenId true s, toAccount, value)
  else (setPunkNoLongerForSale punkBoughtTokenId false s, toAccount, value).

(** [isWash] (membership of the transaction in [washTrades]) is computed by
    the source and never read; it has no counterpart below. *)
Definition handlePunkBought (event : PunkBoughtEvent) (s : Store) : Store :=
  let ev := pb_event event in
  let punkBoughtTokenId := pretty (pb_punkIndex event) in
  let '(s, fromAccount) := getOrCreateAccount (pb_fromAddress event) s in
  let '(s, toAccount) := getOrCreateAccount (pb_toAddress event) s in
  let bid := Bid_load s punkBoughtTokenId in
  let '(s, toAccount, value) :=
    resolveBuyer punkBoughtTokenId toAccount (pb_value event) bid s in
  let s := updateOwnership (tx_hash ev) (block_timestamp ev) punkBoughtTokenId
                           (account_id toAccount) (account_id fromAccount) s in
  if negb (bool_decide (is_Some bid)) && (value =? BIGINT_ZERO) then s
  else
    let evntId := getGlobalId ev in
    let evnt := newEvent ev "Sale" (pb_punkIndex event) (account_id fromAccount)
                         (account_id toAccount) value in
    let s := Event_save evnt s in
    let state := getOrCreateState s (block_timestamp ev) in
    let prevSaleEvent := loadPrevSaleEvent s (topSale state) in
    let state :=
      match prevSaleEvent with
      | Some prev =>
          if event_value prev >? BIGINT_ZERO then
            if value >? event_value prev then set_topSale (Some evntId) state else state
          else set_topSale (Some evntId) state
      | None => set_topSale (Some evntId) state
      end in
    let newActiveListings :=
      if bool_decide (punkBoughtTokenId ∈ activeListings state)
      then removeId punkBoughtTokenId (activeListings state)
      else activeListings state in
    let state := set_activeListings newActiveListings state in
    let newFloor := getFloorFromActiveListings s state in
    let state := set_floor newFloor state in
    let state := set_sales (sales state + BIGINT_ONE) state in
    let state := set_volume (volume state + value) state in
    let state := set_usd (Some (USDValue (block_timestamp ev) (block_number ev))) state in
    State_save state s.

Definition handlePunkOffered (event : PunkOfferedEvent) (s : Store) : Store :=
  let ev := po_event event in
  let punkOfferedTokenId := pretty (po_punkIndex event) in
  let '(s, fromAccount) := getOrCreateAccount (tx_from ev) s in
  let '(s, toAccount) := getOrCreateAccount (po_toAddress event) s in
  (* [punk] is loaded, or built unsaved; only its id is read *)
  let punkId := match Punk_load s punkOfferedTokenId with
                | Some punk => punk_id punk
                | None => punkOfferedTokenId
                end in
  let isPrivate := negb (bool_decide (account_id toAccount = ZERO_ADDRESS)) in
  (* a loaded [Listing] has every field overwritten, as a new one has *)
  let listing :=
    mkListing punkOfferedTokenId punkId (po_minValue event)
              (Some (USDValue (block_timestamp ev) (block_number ev)))
              (account_id fromAccount) (account_id toAccount) isPrivate
              (block_number ev) (block_timestamp ev) (tx_hash ev) in
  let s := Listing_save listing s in
  let evnt := newEvent ev "Offered" (po_punkIndex event) (account_id fromAccount)
                       (account_id toAccount) (po_minValue event) in
  let s := Event_save evnt s in
  let state := getOrCreateState s (block_timestamp ev) in
  let newListingState := listings state + BIGINT_ONE in
  let state := set_listings newListingState state in
  let activeListings' := activeListings state ++ [punkOfferedTokenId] in
  let state := set_activeListings activeListings' state in
  let listingVal := po_minValue event in
  let state :=
    if negb (bool_decide (account_id toAccount = ZERO_ADDRESS))
       && negb (listingVal =? BIGINT_ZERO)
       && (listingVal <? floor state)
    then set_floor listingVal state
    else state in
  let state := set_usd (Some (USDValue (block_timestamp ev) (block_number ev))) state in
  State_save state s.

Definition handlePunkBidEntered (event : PunkBidEnteredEvent) (s : Store) : Store :=
  let ev := be_event event in
  let punkBidEnteredTokenId := pretty (be_punkIndex event) in
  let '(s, fromAccount) := getOrCreateAccount (be_fromAddress event) s in
  let punkId := match Punk_load s punkBidEnteredTokenId with
                | Some punk => punk_id punk
                | None => punkBidEnteredTokenId
                end in
  let bid :=
    mkBid punkBidEnteredTokenId punkId (be_value event)
          (Some (USDValue (block_timestamp ev) (block_number ev)))
          (account_id fromAccount) (block_number ev) (block_timestamp ev) (tx_hash ev) in
  let s := Bid_save bid s in
  let evntId := getGlobalId ev in
  let evnt := newEvent ev "BidEntered" (be_punkIndex event) (account_id fromAccount)
                       ZERO_ADDRESS (be_value event) in
  let s := Event_save evnt s in
  let state := getOrCreateState s (block_timestamp ev) in
  let prevBidEvent := loadPrevBidEvent s (topBid state) in
  let state :=
    match prevBidEvent with
    | Some prev =>
        if event_value prev >? BIGINT_ZERO then
          if be_value event >? event_value prev then set_topBid (Some evntId) state else state
        else set_topBid (Some evntId) state
    | None => set_topBid (Some evntId) state
    end in
  let state := set_usd (Some (USDValue (block_timestamp ev) (block_number ev))) state in
  let state := set_bids (bids state + BIGINT_ONE) state in
  State_save state s.

Definition handlePunkBidWithdrawn (event : PunkBidWithdrawnEvent) (s : Store) : Store :=
  let ev := bw_event event in
  let punkBidWithdrawnTokenId := pretty (bw_punkIndex event) in
  let '(s, fromAccount) := getOrCreateAccount (bw_fromAddress event) s in
  let s := match Bid_load s punkBidWithdrawnTokenId with
           | Some _ => Bid_remove punkBidWithdrawnTokenId s
           | None => s
           end in
  let evnt := newEvent ev "BidWithdrawn" (bw_punkIndex event) (account_id fromAccount)
                       ZERO_ADDRESS (bw_value event) in
  Event_save evnt s.

Definition handlePunkNoLongerForSale (event : PunkNoLongerForSaleEvent) (s : Store) : Store :=
  let ev := nl_event event in
  let punkNoLongerForSaleTokenId := pretty (nl_punkIndex event) in
  let s := setPunkNoLongerForSale punkNoLongerForSaleTokenId false s in
  (* [transfer.tokenId] is assigned on the loaded object, which is not saved *)
  let isBuy := bool_decide (is_Some (Transfer_load s (tx_hash ev))) in
  let state := getOrCreateState s (block_timestamp ev) in
  let '(s, state) :=
    if negb isBuy then
      let evnt := newEvent ev "OfferWithdrawn" (nl_punkIndex event) ZERO_ADDRESS ZERO_ADDRESS
                           BIGINT_ZERO in
      let s := Event_save evnt s in
      (s, set_delistings (delistings state + BIGINT_ONE) state)
    else (s, state) in
  let newActiveListings :=
    if bool_decide (punkNoLongerForSaleTokenId ∈ activeListings state)
    then removeId punkNoLongerForSaleTokenId (activeListings state)
    else activeListings state in
  let state := set_activeListings newActiveListings state in
  let newFloor := getFloorFromActiveListings s state in
  let state := set_floor newFloor state in
  let state := set_usd (Some (USDValue (block_timestamp ev) (block_number ev))) state in
  State_save state s.

End Handlers.

(** ** The event stream ([subgraph.yaml], [eventHandlers]) *)

Inductive ContractEvent :=
  | Assign (e : AssignEvent)
  | RawTransfer (e : TransferEvent)
  | PunkTransfer (e : PunkTransferEvent)
  | PunkOffered (e : PunkOfferedEvent)
  | PunkBidEntered (e : PunkBidEnteredEvent)
  | PunkBidWithdrawn (e : PunkBidWithdrawnEvent)
  | PunkBought (e : PunkBoughtEvent)
  | PunkNoLongerForSale (e : PunkNoLongerForSaleEvent).

(** The manifest routes each event to its handler. *)
Definition dispatch `{Host} (event : ContractEvent) (s : Store) : Store :=
  match event with
  | Assign e => handleAssign e s
  | RawTransfer e => handleTransfer e s
  | PunkTransfer e => handlePunkTransfer e s
  | PunkOffered e => handlePunkOffered e s
  | PunkBidEntered e => handlePunkBidEntered e s
  | PunkBidWithdrawn e => handlePunkBidWithdrawn e s
  | PunkBought e => handlePunkBought e s
  | PunkNoLongerForSale e => handlePunkNoLongerForSale e s
  end.

(** The store after the events of a stream, first event first. *)
Definition replay `{Host} (events : list ContractEvent) (s : Store) : Store :=
  foldl (λ s event, dispatch event s) s events.

(** The handlers are reasoned about through the lemmas on their helpers;
    simplification leaves the helpers folded. *)
#[global] Arguments getOrCreateState : simpl never.
#[global] Arguments getFloorFromActiveListings : simpl never.
#[global] Arguments getOrCreateAccount : simpl never.
#[global] Arguments updateOwnership : simpl never.
#[global] Arguments setPunkNoLongerForSale : simpl never.
#[global] Arguments getGlobalId : simpl never.

(** ** Store well-formedness

    [save()] files an entity under its own [id], so in every store the
    mappings can produce a loaded entity carries the id it was loaded by. *)

Definition wfStore (s : Store) : Prop :=
  map_Forall (λ k a, account_id a = k) (accountStore s)
  ∧ map_Forall (λ k p, punk_id p = k) (punkStore s)
  ∧ map_Forall (λ k l, listing_id l = k) (listingStore s)
  ∧ map_Forall (λ k b, bid_id b = k) (bidStore s)
  ∧ map_Forall (λ k e, event_id e = k) (eventStore s)
  ∧ map_Forall (λ k st, state_id st = k) (stateStore s)
  ∧ map_Forall (λ k t, transfer_id t = k) (transferStore s).

(** ** Reference definitions, following the specification's wording *)

(** The values of the listings referenced by [ids] that still exist and have
    a strictly positive value. *)
Definition positiveListingValues (s : Store) (ids : list string) : list Z :=
  omap (λ id, match Listing_load s id with
              | Some l => if 0 <? listing_value l then Some (listing_value l) else None
              | None => None
              end) ids.

(** The minimum of a list of integers; zero for the empty list. *)
Definition minimumOrZero (vs : list Z) : Z :=
  match vs with
  | [] => 0
  | v :: vs' => foldl Z.min v vs'
  end.

(** The floor of the immediately preceding bucket, zero if it has no snapshot. *)
Definition predecessorFloor `{Host} (s : Store) (state : State) : Z :=
  match State_load s (timestampToId (toI32 (timestamp state)) 1) with
  | Some p => floor p
  | None => 0
  end.

(** Section 4.3, [recomputeFloor]. *)
Definition recomputeFloor `{Host} (s : Store) (state : State) : Z :=
  if decide (length (activeListings state) < 5)%nat
  then predecessorFloor s state
  else minimumOrZero (positiveListingValues s (activeListings state)).

(** The nearest existing earlier snapshot: the one at the first lookback of
    [lookbacks] whose bucket has a snapshot. *)
Fixpoint nearestSnapshot `{Host} (s : Store) (ts : Z) (lookbacks : list Z) : option State :=
  match lookbacks with
  | [] => None
  | i :: rest =>
      match State_load s (timestampToId ts i) with
      | Some p => Some p
      | None => nearestSnapshot s ts rest
      end
  end.

(** Section 4.4, [considerBid] / [considerSale]: the top reference after a
    candidate with value [candidateValue] has been considered. *)
Definition considerTop (s : Store) (top : option string) (candidateEventId : string)
    (candidateValue : Z) : option string :=
  match top ≫= Event_load s with
  | None => Some candidateEventId
  | Some existing =>
      if decide (0 < event_value existing)
      then if decide (event_value existing < candidateValue)
           then Some candidateEventId else top
      else Some candidateEventId
  end.

(** The asset ids an address holds: the [punks] of its account, none when
    the account does not exist. *)
Definition heldBy (s : Store) (address : string) : list string :=
  match Account_load s address with
  | Some a => punks a
  | None => []
  end.

(** How many times [x] occurs in a list of ids. *)
Definition occurrences (x : string) (l : list string) : nat :=
  length (filter (λ n, n = x) l).

(** Section 4.5, sale: the buyer and the value of a sale, taken from the
    asset's bid when the event reports the zero address as the buyer. *)
Definition resolvedBuyer `{Host} (event : PunkBoughtEvent) (s : Store) : string :=
  if decide (pb_toAddress event = ZERO_ADDRESS)
  then match Bid_load s (pretty (pb_punkIndex event)) with
       | Some b => bid_fromAccount b
       | None => pb_toAddress event
       end
  else pb_toAddress event.

Definition resolvedValue `{Host} (event : PunkBoughtEvent) (s : Store) : Z :=
  if decide (pb_toAddress event = ZERO_ADDRESS)
  then match Bid_load s (pretty (pb_punkIndex event)) with
       | Some b => bid_value b
       | None => pb_value event
       end
  else pb_value event.

(** ** A concrete host and concrete stores for the examples *)

(** Day-sized buckets, an oracle that answers zero, the all-zero address and
    the address of the wrapper contract. *)
Definition dayHost : Host :=
  mkHost (λ ts lookback, pretty (ts / 86400 - lookback)) (λ z, z) (λ _ _, 0)
         "0x0000000000000000000000000000000000000000"
         "0xb7f7f6c52f2e2fdb1963eab30438024864c313f6" [].

Definition exEvent (tx : string) (log : Z) (ts : Z) : EthEvent :=
  mkEthEvent tx "0xaa" log 100 ts.

Definition exListing (id : string) (v : Z) : Listing :=
  mkListing id id v None "0xaa" "0x0000000000000000000000000000000000000000" false 1 1 "0x01".

Definition exState (id : string) (ts fl : Z) (ls : list string) : State :=
  mkState id ts fl 0 None 0 None 0 0 ls 0 0 None.

Definition exStore5 : Store :=
  foldr Listing_save
        (State_save (exState "1" 86400 7 []) emptyStore)
        [exListing "1" 100; exListing "2" 0; exListing "3" 50; exListing "4" 200;
         exListing "5" 80].

Definition exState5 : State := exState "2" 172800 0 ["1"; "2"; "3"; "4"; "5"].

(** Three holders: [0xaa] holds punk 5, [0xbb] holds punk 7, [0xcc] holds
    punks 1 and 2; the snapshot of day 2 counts three owners. *)
Definition exStoreOwners : Store :=
  Account_save (mkAccount "0xaa" ["5"])
    (Account_save (mkAccount "0xbb" ["7"])
       (Account_save (mkAccount "0xcc" ["1"; "2"])
          (State_save (mkState "2" 172800 0 0 None 0 None 0 3 [] 0 0 None) emptyStore))).

(** A snapshot of day 2 with floor 100, and an offer of punk 7 at 50: to
    anyone (the zero address), and to [0xbb] only. *)
Definition exStoreFloor : Store :=
  State_save (mkState "2" 172800 100 0 None 0 None 0 0 [] 0 0 None) emptyStore.

Definition exPublicOffer : PunkOfferedEvent :=
  mkPunkOfferedEvent (exEvent "0x01" 0 172800) 7 50
                     "0x0000000000000000000000000000000000000000".

Definition exPrivateOffer : PunkOfferedEvent :=
  mkPunkOfferedEvent (exEvent "0x01" 0 172800) 7 50 "0xbb".

(** Punk 3 is listed at 80 and has a bid of 50 by [0xbb]; the snapshot of
    day 2 has counted two sales with volume 30. *)
Definition exStoreBid : Store :=
  Bid_save (mkBid "3" "3" 50 None "0xbb" 1 1 "0x02")
    (Listing_save (exListing "3" 80)
       (State_save (mkState "2" 172800 0 30 None 0 None 2 0 ["3"] 0 0 None) emptyStore)).

Definition exBoughtZeroBuyer : PunkBoughtEvent :=
  mkPunkBoughtEvent (exEvent "0x03" 4 172800) 3 0 "0xaa"
                    "0x0000000000000000000000000000000000000000".

Definition exBoughtZeroValue : PunkBoughtEvent :=
  mkPunkBoughtEvent (exEvent "0x04" 1 172800) 9 0 "0xaa" "0xcc".

(** The snapshot of day 2 refers to a bid event and a sale event of value
    100 as the tops. *)
Definition exStoreTop : Store :=
  Event_save (mkEvent "0x0a-0" "0x0a" "BidEntered" 1 (Some "0xaa") (Some "0xbb") 100 None 1 1)
    (Event_save (mkEvent "0x0b-0" "0x0b" "Sale" 2 (Some "0xaa") (Some "0xbb") 100 None 1 1)
       (State_save (mkState "2" 172800 0 100 (Some "0x0a-0") 1 (Some "0x0b-0") 1 0 [] 0 0 None)
                   emptyStore)).

Definition exBid (v : Z) : PunkBidEnteredEvent :=
  mkPunkBidEnteredEvent (exEvent "0x0c" 2 172800) 5 v "0xcc".

Definition exSale (v : Z) : PunkBoughtEvent :=
  mkPunkBoughtEvent (exEvent "0x0d" 3 172800) 5 v "0xaa" "0xcc".

(** Punk 7 is listed at 100 and is the one active listing of day 2; day 1
    closed with floor 7. *)
Definition exStoreListed : Store :=
  Listing_save (exListing "7" 100)
    (State_save (exState "1" 86400 7 [])
       (State_save (exState "2" 172800 7 ["7"]) emptyStore)).

Definition exOffer (log : Z) : PunkOfferedEvent :=
  mkPunkOfferedEvent (exEvent "0x0e" log 172800) 7 100
                     "0x0000000000000000000000000000000000000000".

Definition exNoLongerForSale : PunkNoLongerForSaleEvent :=
  mkPunkNoLongerForSaleEvent (exEvent "0x0f" 0 172800) 7.

Definition exTransfer : TransferEvent :=
  mkTransferEvent (exEvent "0x0f" 0 172800) "0xaa" "0xbb".

(** ** The remaining helpers of [utils/helpers.ts] *)

(** [getOrCreateTransfer]: the Transfer of the transaction, created from the
    event when the transaction has none yet. *)
Definition getOrCreateTransfer (event : TransferEvent) (s : Store) : Store * Transfer :=
  let transferId := tx_hash (tr_event event) in
  match Transfer_load s transferId with
  | Some transfer => (s, transfer)
  | None =>
      let transfer :=
        mkTransfer transferId (tr_from event) (tr_to event) (tx_hash (tr_event event)) None in
      (Transfer_save transfer s, transfer)
  end.

(** [getPunkOwner].  In [owner.id.toString() || ZERO_ADDRESS] the left
    operand is a string reference, which AssemblyScript takes for true
    whenever it is not null: the id of a loaded account is returned as it
    is, the empty string included. *)
Definition getPunkOwner `{Host} (s : Store) (punkId : string) : string :=
  match Punk_load s punkId with
  | Some punk =>
      match Account_load s (owner punk) with
      | Some ownerAccount => account_id ownerAccount
      | None => ZERO_ADDRESS
      end
  | None => ZERO_ADDRESS
  end.

Definition hexDigits : string := "0123456789abcdef".

(** [s.indexOf(c)] for a one-character [c], counting from [i]; -1 when [c]
    does not occur. *)
Fixpoint indexOfChar (c : ascii) (s : string) (i : Z) : Z :=
  match s with
  | EmptyString => -1
  | String d r => if bool_decide (c = d) then i else indexOfChar c r (i + 1)
  end.

(** The characters of a string from position [n] on. *)
Fixpoint dropChars (n : nat) (s : string) : string :=
  match n, s with
  | O, _ => s
  | S n', String _ r => dropChars n' r
  | S _, EmptyString => EmptyString
  end.

(** The [for] loop of [hexToDecimal] over the characters still to read. *)
Fixpoint hexLoop (s : string) (decimal : Z) : Z :=
  match s with
  | EmptyString => decimal
  | String c r => hexLoop r (decimal * 16 + indexOfChar c hexDigits 0)
  end.

Definition hexToDecimal (hexString : string) : Z :=
  let hexString := toLowerCase hexString in
  let start := if String.prefix "0x" hexString then 2%nat else 0%nat in
  hexLoop (dropChars start hexString) 0.

(** The value of a big-endian list of base-16 digits. *)
Fixpoint hexValue (digits : list Z) : Z :=
  match digits with
  | [] => 0
  | d :: rest => d * 16 ^ Z.of_nat (length rest) + hexValue rest
  end.

(** The characters of a string, in order. *)
Fixpoint chars (s : string) : list ascii :=
  match s with
  | EmptyString => []
  | String c r => c :: chars r
  end.

(** A hexadecimal digit in either case. *)
Definition isHexDigit (c : ascii) : Prop := 0 ≤ indexOfChar (lowerAscii c) hexDigits 0.

(** The transaction data of a contract event. *)
Definition eventMeta (event : ContractEvent) : EthEvent :=
  match event with
  | Assign e => as_event e
  | RawTransfer e => tr_event e
  | PunkTransfer e => pt_event e
  | PunkOffered e => po_event e
  | PunkBidEntered e => be_event e
  | PunkBidWithdrawn e => bw_event e
  | PunkBought e => pb_event e
  | PunkNoLongerForSale e => nl_event e
  end.

(** [keeps s s']: every account, punk, event, snapshot and transfer of [s]
    is still there, under the same id, in [s']. *)
Definition keeps (s s' : Store) : Prop :=
  dom (accountStore s) ⊆ dom (accountStore s')
  ∧ dom (punkStore s) ⊆ dom (punkStore s')
  ∧ dom (eventStore s) ⊆ dom (eventStore s')
  ∧ dom (stateStore s) ⊆ dom (stateStore s')
  ∧ dom (transferStore s) ⊆ dom (transferStore s').

(** [onlyBucket id s s']: apart from the snapshot of bucket [id], the
    snapshots of [s'] are those of [s]. *)
Definition onlyBucket (id : string) (s s' : Store) : Prop :=
  ∀ k, k ≠ id → State_load s' k = State_load s k.

(** [heldByOwner s id p]: the owner of punk [p] is an account of [s] whose
    held list contains [id]. *)
Definition heldByOwner (s : Store) (id : string) (p : Punk) : Prop :=
  ∃ a, Account_load s (owner p) = Some a ∧ id ∈ punks a.

(** [ownersHoldExcept moving s]: the store is well formed and every punk in
    it, the one a handler is moving (if any) apart, is held by its owner. *)
Definition ownersHoldExcept (moving : option string) (s : Store) : Prop :=
  wfStore s
  ∧ ∀ id p, Some id ≠ moving → Punk_load s id = Some p → heldByOwner s id p.

Definition ownersHold (s : Store) : Prop := ownersHoldExcept None s.

(** More events and stores for the examples: the claim of punk 42 by
    [0xdd], a withdrawal of the bid on punk 5, a transfer of punk 7 from
    [0xbb] to [0xcc], the ids of [exState5] in another order with one
    repeated, and a store whose snapshot of day 2 lists punk 9. *)
Definition exAssign : AssignEvent := mkAssignEvent (exEvent "0x12" 0 172800) "0xdd" 42.

Definition exWithdraw : PunkBidWithdrawnEvent :=
  mkPunkBidWithdrawnEvent (exEvent "0x13" 1 172800) 5 100 "0xcc".

Definition exPunkTransfer : PunkTransferEvent :=
  mkPunkTransferEvent (exEvent "0x10" 0 172800) "0xbb" "0xcc" 7.

Definition exState5Shuffled : State := exState "2" 172800 0 ["5"; "4"; "3"; "2"; "1"; "1"].

Definition exStoreStale : Store :=
  Listing_save (exListing "9" 10) (State_save (exState "2" 172800 0 ["9"]) emptyStore).

(** Five public offers on day 1, punk 9 the cheapest at 5, replayed from the
    empty store: day 2 has no snapshot yet. *)
Definition exOfferAt (tx : string) (punk value : Z) : ContractEvent :=
  PunkOffered (mkPunkOfferedEvent (exEvent tx 0 86400) punk value
                                  "0x0000000000000000000000000000000000000000").

Definition exStoreDay1 : Store :=
  @replay dayHost [exOfferAt "0x21" 1 60; exOfferAt "0x22" 2 70; exOfferAt "0x23" 3 80;
                   exOfferAt "0x24" 4 90; exOfferAt "0x25" 9 5] emptyStore.

(** The claim of punk 42 by [0xdd], followed by a transfer of the punk from
    [0xdd] to itself. *)
Definition exClaimThenSelfTransfer : list ContractEvent :=
  [Assign exAssign;
   PunkTransfer (mkPunkTransferEvent (exEvent "0x14" 0 172800) "0xdd" "0xdd" 42)].

(** * Properties *)

Create HintDb wf.

Section Properties.
Context `{Host}.

(** ** The floor-price engine *)

Lemma foldl_min_le (vs : list Z) (a : Z) :
  foldl Z.min a vs ≤ a ∧ ∀ v, v ∈ vs → foldl Z.min a vs ≤ v.
Proof.
  revert a. induction vs as [|w vs IH]; intros a; simpl.
  - split; [lia|]. intros v Hv. by apply elem_of_nil in Hv.
  - destruct (IH (Z.min a w)) as [Ha Hvs]. split; [lia|].
    intros v [->|Hv]%elem_of_cons; [lia|by apply Hvs].
Qed.

Lemma foldl_min_elem (vs : list Z) (a : Z) : foldl Z.min a vs ∈ a :: vs.
Proof.
  revert a. induction vs as [|w vs IH]; intros a; simpl.
  - apply list_elem_of_here.
  - specialize (IH (Z.min a w)). apply elem_of_cons in IH as [IH|IH].
    + rewrite IH. destruct (Z.min_spec a w) as [[_ ->]|[_ ->]];
        [apply list_elem_of_here | apply list_elem_of_further, list_elem_of_here].
    + by do 2 apply list_elem_of_further.
Qed.

(** [minimumOrZero] is the least element of a non-empty list. *)
Lemma minimumOrZero_least (vs : list Z) :
  vs ≠ [] → minimumOrZero vs ∈ vs ∧ ∀ v, v ∈ vs → minimumOrZero vs ≤ v.
Proof.
  destruct vs as [|a vs]; [done|]. intros _. simpl.
  destruct (foldl_min_le vs a) as [Ha Hvs]. split.
  - apply foldl_min_elem.
  - intros v [->|Hv]%elem_of_cons; [exact Ha | by apply Hvs].
Qed.

(** What [positiveListingValues] collects. *)
Lemma elem_of_positiveListingValues (s : Store) (ids : list string) (v : Z) :
  v ∈ positiveListingValues s ids
  ↔ ∃ id l, id ∈ ids ∧ Listing_load s id = Some l ∧ listing_value l = v ∧ 0 < v.
Proof.
  unfold positiveListingValues. rewrite list_elem_of_omap. split.
  - intros (id & Hid & Hf). destruct (Listing_load s id) as [l|] eqn:Hl; [|done].
    destruct (0 <? listing_value l) eqn:Hpos; [|done].
    injection Hf as <-. exists id, l. apply Z.ltb_lt in Hpos. done.
  - intros (id & l & Hid & Hl & <- & Hpos). exists id. split; [done|].
    rewrite Hl. apply Z.ltb_lt in Hpos. by rewrite Hpos.
Qed.

(** The scan of [getFloorFromActiveListings] keeps the least positive value
    seen so far. *)
Lemma fold_floorStep (s : Store) (ids : list string) (acc : option Z) :
  fold_left (floorStep s) ids acc
  = match acc with
    | Some f => Some (foldl Z.min f (positiveListingValues s ids))
    | None =>
        match positiveListingValues s ids with
        | [] => None
        | v :: vs => Some (foldl Z.min v vs)
        end
    end.
Proof.
  revert acc. induction ids as [|id ids IH]; intros acc; simpl.
  - by destruct acc.
  - rewrite IH. unfold floorStep, positiveListingValues, BIGINT_ZERO. simpl.
    destruct (Listing_load s id) as [l|]; [|done].
    rewrite Z.gtb_ltb. destruct (0 <? listing_value l); [|done].
    destruct acc as [f|]; simpl; [|done].
    destruct (Z.ltb_spec (listing_value l) f).
    + by rewrite Z.min_r by lia.
    + by rewrite Z.min_l by lia.
Qed.

Lemma getFloorFromActiveListings_recompute (s : Store) (state : State) :
  getFloorFromActiveListings s state = recomputeFloor s state.
Proof.
  unfold getFloorFromActiveListings, recomputeFloor, predecessorFloor, BIGINT_ZERO.
  destruct (Nat.ltb_spec (length (activeListings state)) 5); case_decide; try lia; try done.
  rewrite fold_floorStep. unfold minimumOrZero.
  by destruct (positiveListingValues s (activeListings state)).
Qed.

(** C1. Recomputing the floor of a snapshot gives the floor of the bucket just
    before it (zero when that bucket has no snapshot) when the snapshot has
    fewer than five active listings, and otherwise the least strictly
    positive value among the listings it references that still exist (zero
    when there is none).  With four active listings the result is the
    previous bucket's floor whatever the listings are worth, and with five
    listings worth 100, 0, 50, 200 and 80 it is 50. *)
Theorem getFloorFromActiveListings_correct (s : Store) (state : State) :
  getFloorFromActiveListings s state = recomputeFloor s state
  ∧ ((length (activeListings state) < 5)%nat →
     getFloorFromActiveListings s state = predecessorFloor s state)
  ∧ ((5 ≤ length (activeListings state))%nat →
     positiveListingValues s (activeListings state) = [] →
     getFloorFromActiveListings s state = 0)
  ∧ ((5 ≤ length (activeListings state))%nat →
     positiveListingValues s (activeListings state) ≠ [] →
     getFloorFromActiveListings s state ∈ positiveListingValues s (activeListings state)
     ∧ ∀ v, v ∈ positiveListingValues s (activeListings state) →
            getFloorFromActiveListings s state ≤ v)
  ∧ (length (activeListings state) = 4%nat →
     getFloorFromActiveListings s state = predecessorFloor s state)
  ∧ (listing_value <$> (activeListings exState5 ≫= λ id, option_list (Listing_load exStore5 id))
     = [100; 0; 50; 200; 80]
     ∧ @getFloorFromActiveListings dayHost exStore5 exState5 = 50).
Proof.
  rewrite getFloorFromActiveListings_recompute. unfold recomputeFloor.
  split_and!.
  - done.
  - intros Hlt. by case_decide.
  - intros Hge ->. case_decide; [lia|done].
  - intros Hge Hne. case_decide; [lia|]. by apply minimumOrZero_least.
  - intros Hlen. case_decide; [done|lia].
  - by vm_compute.
  - by vm_compute.
Qed.

(** ** Snapshot creation and carry-forward *)

(** With fuel for every remaining lookback the loop is the search for the
    nearest snapshot, so it never stops for lack of fuel. *)
Lemma prevStateLoop_nearest (s : Store) (ts : Z) (fuel : nat) (i : Z) :
  i ≤ 30 → 31 - i ≤ Z.of_nat fuel →
  prevStateLoop s ts fuel i = nearestSnapshot s ts (seqZ i (31 - i)).
Proof.
  revert i. induction fuel as [|fuel IH]; intros i Hi Hfuel; [lia|].
  rewrite (seqZ_cons i (31 - i)) by lia. simpl.
  destruct (State_load s (timestampToId ts i)) as [p|]; [done|].
  destruct (Z.leb_spec (i + 1) 30) as [Hle|Hgt].
  - rewrite IH by lia. do 2 f_equal; lia.
  - replace (Z.pred (31 - i)) with 0 by lia. done.
Qed.

Lemma prevStateLoop_fuel (s : Store) (ts : Z) (k : nat) :
  prevStateLoop s ts (30 + k) 1 = prevStateLoop s ts 30 1.
Proof. rewrite !prevStateLoop_nearest by lia. done. Qed.

Lemma nearestSnapshot_seqZ (s : Store) (ts : Z) (n : nat) (i : Z) :
  match nearestSnapshot s ts (seqZ i (Z.of_nat n)) with
  | Some p =>
      ∃ k, i ≤ k < i + Z.of_nat n
           ∧ State_load s (timestampToId ts k) = Some p
           ∧ ∀ j, i ≤ j < k → State_load s (timestampToId ts j) = None
  | None => ∀ j, i ≤ j < i + Z.of_nat n → State_load s (timestampToId ts j) = None
  end.
Proof.
  revert i. induction n as [|n IH]; intros i.
  - simpl. intros j Hj. lia.
  - rewrite seqZ_cons by lia. simpl.
    destruct (State_load s (timestampToId ts i)) as [p|] eqn:Hi.
    + exists i. split_and!; [lia|lia|done|]. intros j Hj. lia.
    + replace (Z.pred (Z.of_nat (S n))) with (Z.of_nat n) by lia.
      specialize (IH (Z.succ i)).
      destruct (nearestSnapshot s ts (seqZ (Z.succ i) (Z.of_nat n))) as [p|].
      * destruct IH as (k & Hk & Hload & Hnone). exists k. split_and!; [lia|lia|done|].
        intros j Hj. destruct (decide (j = i)) as [->|Hne]; [done|]. apply Hnone. lia.
      * intros j Hj. destruct (decide (j = i)) as [->|Hne]; [done|]. apply IH. lia.
Qed.

(** [getOrCreateState] reads the snapshots and the listings only. *)
Lemma prevStateLoop_ext (s1 s2 : Store) (ts : Z) (fuel : nat) (i : Z) :
  stateStore s1 = stateStore s2 → prevStateLoop s1 ts fuel i = prevStateLoop s2 ts fuel i.
Proof.
  intros Hst. revert i. induction fuel as [|fuel IH]; intros i; [done|].
  simpl. unfold State_load. rewrite Hst, IH. done.
Qed.

Lemma getFloorFromActiveListings_ext (s1 s2 : Store) (st1 st2 : State) :
  stateStore s1 = stateStore s2 → listingStore s1 = listingStore s2 →
  timestamp st1 = timestamp st2 → activeListings st1 = activeListings st2 →
  getFloorFromActiveListings s1 st1 = getFloorFromActiveListings s2 st2.
Proof.
  intros Hst Hl Hts Hal. unfold getFloorFromActiveListings, floorStep, State_load, Listing_load.
  by rewrite Hst, Hl, Hts, Hal.
Qed.

Lemma getOrCreateState_ext (s1 s2 : Store) (ts : Z) :
  stateStore s1 = stateStore s2 → listingStore s1 = listingStore s2 →
  getOrCreateState s1 ts = getOrCreateState s2 ts.
Proof.
  intros Hst Hl. unfold getOrCreateState.
  rewrite (prevStateLoop_ext s1 s2) by done. unfold State_load. rewrite Hst.
  destruct (stateStore s2 !! _); [done|].
  case_match; [|done]. f_equal. by apply getFloorFromActiveListings_ext.
Qed.

(** Apart from the floor, a snapshot obtained from [getOrCreateState] is
    determined by the stored snapshots. *)
Lemma getOrCreateState_ext_states (s1 s2 : Store) (ts : Z) :
  stateStore s1 = stateStore s2 →
  set_floor 0 (getOrCreateState s1 ts) = set_floor 0 (getOrCreateState s2 ts).
Proof.
  intros Hst. unfold getOrCreateState.
  rewrite (prevStateLoop_ext s1 s2) by done. unfold State_load. rewrite Hst.
  destruct (stateStore s2 !! _); [done|]. by case_match.
Qed.

Lemma getOrCreateState_existing (s : Store) (ts : Z) (st : State) :
  State_load s (timestampToId (toI32 ts) 0) = Some st → getOrCreateState s ts = st.
Proof. intros Hst. unfold getOrCreateState. by rewrite Hst. Qed.

(** The id under which the snapshot of a timestamp is filed. *)
Lemma getOrCreateState_id (s : Store) (ts : Z) :
  wfStore s → state_id (getOrCreateState s ts) = timestampToId (toI32 ts) 0.
Proof.
  intros Hwf. unfold getOrCreateState.
  destruct (State_load s _) as [st|] eqn:Hst.
  - destruct Hwf as (_ & _ & _ & _ & _ & Hstates & _). by apply (Hstates _ _ Hst).
  - by case_match.
Qed.

(** C2. For a timestamp whose bucket has no snapshot yet, the snapshot
    [getOrCreateState] creates has its five period counters at zero and
    takes its owner count and active listings from the nearest earlier
    snapshot among the thirty preceding buckets (zero and empty when none of
    them has one); thirty passes of the search loop are enough whatever the
    store holds.  When the bucket already has a snapshot it is returned as
    it is. *)
Theorem getOrCreateState_carry_forward (s : Store) (ts : Z) :
  (∀ k : nat, prevStateLoop s (toI32 ts) (30 + k) 1 = prevStateLoop s (toI32 ts) 30 1)
  ∧ (∀ st, State_load s (timestampToId (toI32 ts) 0) = Some st →
           getOrCreateState s ts = st)
  ∧ (State_load s (timestampToId (toI32 ts) 0) = None →
     listings (getOrCreateState s ts) = 0
     ∧ delistings (getOrCreateState s ts) = 0
     ∧ bids (getOrCreateState s ts) = 0
     ∧ sales (getOrCreateState s ts) = 0
     ∧ volume (getOrCreateState s ts) = 0
     ∧ ((∃ i p, 1 ≤ i ≤ 30
                ∧ State_load s (timestampToId (toI32 ts) i) = Some p
                ∧ (∀ j, 1 ≤ j < i → State_load s (timestampToId (toI32 ts) j) = None)
                ∧ owners (getOrCreateState s ts) = owners p
                ∧ activeListings (getOrCreateState s ts) = activeListings p)
        ∨ ((∀ j, 1 ≤ j ≤ 30 → State_load s (timestampToId (toI32 ts) j) = None)
           ∧ owners (getOrCreateState s ts) = 0
           ∧ activeListings (getOrCreateState s ts) = []))).
Proof.
  split_and!.
  - apply prevStateLoop_fuel.
  - apply getOrCreateState_existing.
  - intros Hnone. unfold getOrCreateState. rewrite Hnone.
    rewrite prevStateLoop_nearest by lia.
    pose proof (nearestSnapshot_seqZ s (toI32 ts) 30 1) as Hnear.
    change (Z.of_nat 30) with 30 in Hnear. change (31 - 1) with 30.
    destruct (nearestSnapshot s (toI32 ts) (seqZ 1 30)) as [p|].
    + destruct Hnear as (k & Hk & Hload & Hbefore).
      split_and!; try by case_match.
      left. exists k, p. split_and!; try done; try lia; by case_match.
    + split_and!; try done. right. split_and!; try done.
      intros j Hj. apply Hnear. lia.
Qed.

(** ** Well-formed stores *)

Lemma wfStore_empty : wfStore emptyStore.
Proof. repeat split; apply map_Forall_empty. Qed.

Lemma wfStore_Account_save (a : Account) (s : Store) : wfStore s → wfStore (Account_save a s).
Proof. intros (?&?&?&?&?&?&?). split_and!; simpl; try done. by apply map_Forall_insert_2. Qed.

Lemma wfStore_Punk_save (p : Punk) (s : Store) : wfStore s → wfStore (Punk_save p s).
Proof. intros (?&?&?&?&?&?&?). split_and!; simpl; try done. by apply map_Forall_insert_2. Qed.

Lemma wfStore_Listing_save (l : Listing) (s : Store) : wfStore s → wfStore (Listing_save l s).
Proof. intros (?&?&?&?&?&?&?). split_and!; simpl; try done. by apply map_Forall_insert_2. Qed.

Lemma wfStore_Bid_save (b : Bid) (s : Store) : wfStore s → wfStore (Bid_save b s).
Proof. intros (?&?&?&?&?&?&?). split_and!; simpl; try done. by apply map_Forall_insert_2. Qed.

Lemma wfStore_Event_save (e : Event) (s : Store) : wfStore s → wfStore (Event_save e s).
Proof. intros (?&?&?&?&?&?&?). split_and!; simpl; try done. by apply map_Forall_insert_2. Qed.

Lemma wfStore_State_save (st : State) (s : Store) : wfStore s → wfStore (State_save st s).
Proof. intros (?&?&?&?&?&?&?). split_and!; simpl; try done. by apply map_Forall_insert_2. Qed.

Lemma wfStore_Transfer_save (t : Transfer) (s : Store) : wfStore s → wfStore (Transfer_save t s).
Proof. intros (?&?&?&?&?&?&?). split_and!; simpl; try done. by apply map_Forall_insert_2. Qed.

Lemma wfStore_Listing_remove (id : string) (s : Store) : wfStore s → wfStore (Listing_remove id s).
Proof. intros (?&?&?&?&?&?&?). split_and!; simpl; try done. by apply map_Forall_delete. Qed.

Lemma wfStore_Bid_remove (id : string) (s : Store) : wfStore s → wfStore (Bid_remove id s).
Proof. intros (?&?&?&?&?&?&?). split_and!; simpl; try done. by apply map_Forall_delete. Qed.

#[local] Hint Resolve wfStore_empty wfStore_Account_save wfStore_Punk_save wfStore_Listing_save
  wfStore_Bid_save wfStore_Event_save wfStore_State_save wfStore_Transfer_save
  wfStore_Listing_remove wfStore_Bid_remove : wf.

Lemma wfStore_setPunkNoLongerForSale (punkId : string) (removeBid : bool) (s : Store) :
  wfStore s → wfStore (setPunkNoLongerForSale punkId removeBid s).
Proof.
  intros Hwf. unfold setPunkNoLongerForSale.
  destruct (Listing_load s punkId), removeBid; try case_match; auto with wf.
Qed.

(** ** [getOrCreateAccount] and [getOrCreatePunk] *)

Lemma getOrCreateAccount_frame (id : string) (s s' : Store) (a : Account) :
  getOrCreateAccount id s = (s', a) →
  punkStore s' = punkStore s ∧ listingStore s' = listingStore s ∧ bidStore s' = bidStore s
  ∧ eventStore s' = eventStore s ∧ stateStore s' = stateStore s
  ∧ transferStore s' = transferStore s.
Proof.
  unfold getOrCreateAccount. destruct (Account_load s id); intros [= <- <-]; done.
Qed.

Lemma getOrCreateAccount_account (id : string) (s s' : Store) (a : Account) :
  getOrCreateAccount id s = (s', a) →
  Account_load s' id = Some a
  ∧ punks a = heldBy s id
  ∧ heldBy s' id = heldBy s id
  ∧ ∀ k, k ≠ id → Account_load s' k = Account_load s k.
Proof.
  unfold getOrCreateAccount, heldBy. destruct (Account_load s id) as [a0|] eqn:Ha.
  - intros [= <- <-]. by rewrite Ha.
  - intros [= <- <-]. unfold Account_load. simpl. rewrite lookup_insert_eq.
    split_and!; try done. intros k Hk. by rewrite lookup_insert_ne.
Qed.

Lemma getOrCreateAccount_wf (id : string) (s s' : Store) (a : Account) :
  wfStore s → getOrCreateAccount id s = (s', a) → wfStore s' ∧ account_id a = id.
Proof.
  intros Hwf. unfold getOrCreateAccount. destruct (Account_load s id) as [a0|] eqn:Ha.
  - intros [= <- <-]. split; [done|]. destruct Hwf as (Hacc & _). by apply (Hacc _ _ Ha).
  - intros [= <- <-]. split; [auto with wf|done].
Qed.

Lemma getOrCreatePunk_frame (id : string) (s s' : Store) (p : Punk) :
  getOrCreatePunk id s = (s', p) →
  accountStore s' = accountStore s ∧ listingStore s' = listingStore s
  ∧ bidStore s' = bidStore s ∧ eventStore s' = eventStore s ∧ stateStore s' = stateStore s
  ∧ transferStore s' = transferStore s.
Proof.
  unfold getOrCreatePunk. destruct (Punk_load s id); intros [= <- <-]; done.
Qed.

Lemma getOrCreatePunk_wf (id : string) (s s' : Store) (p : Punk) :
  wfStore s → getOrCreatePunk id s = (s', p) → wfStore s'.
Proof.
  intros Hwf. unfold getOrCreatePunk. destruct (Punk_load s id); intros [= <- <-]; auto with wf.
Qed.

(** ** The ownership ledger *)

(** The owner count [updateOwnership] writes: one less when the sender's list
    has exactly one entry, one more when the receiver's list is empty. *)
Lemma updateOwnership_stores (tx : string) (ts : Z) (punkId to from : string) (s : Store) :
  wfStore s →
  stateStore (updateOwnership tx ts punkId to from s)
  = <[timestampToId (toI32 ts) 0 :=
        set_owners ((if (length (heldBy s from) =? 1)%nat
                     then owners (getOrCreateState s ts) - 1
                     else owners (getOrCreateState s ts))
                    + (if (length (heldBy s to) =? 0)%nat then 1 else 0))
                   (getOrCreateState s ts)]> (stateStore s)
  ∧ Account_load (updateOwnership tx ts punkId to from s) to
    = Some (mkAccount to (heldBy s to ++ [punkId]))
  ∧ (from ≠ to →
     Account_load (updateOwnership tx ts punkId to from s) from
     = Some (mkAccount from (removeId punkId (heldBy s from))))
  ∧ listingStore (updateOwnership tx ts punkId to from s) = listingStore s
  ∧ bidStore (updateOwnership tx ts punkId to from s) = bidStore s
  ∧ eventStore (updateOwnership tx ts punkId to from s) = eventStore s
  ∧ transferStore (updateOwnership tx ts punkId to from s) = transferStore s
  ∧ wfStore (updateOwnership tx ts punkId to from s).
Proof.
  intros Hwf. unfold updateOwnership.
  destruct (getOrCreateAccount to s) as [s1 toAccount] eqn:Hto.
  destruct (getOrCreateAccount from s1) as [s2 fromAccount] eqn:Hfrom.
  destruct (getOrCreateAccount_frame _ _ _ _ Hto) as (_ & Hl1 & Hb1 & He1 & Hs1 & Ht1).
  destruct (getOrCreateAccount_frame _ _ _ _ Hfrom) as (_ & Hl2 & Hb2 & He2 & Hs2 & Ht2).
  destruct (getOrCreateAccount_account _ _ _ _ Hto) as (Hload1 & Hp1 & Hheld1 & Hother1).
  destruct (getOrCreateAccount_account _ _ _ _ Hfrom) as (Hload2 & Hp2 & _ & Hother2).
  destruct (getOrCreateAccount_wf _ _ _ _ Hwf Hto) as (Hwf1 & Hid1).
  destruct (getOrCreateAccount_wf _ _ _ _ Hwf1 Hfrom) as (Hwf2 & Hid2).
  assert (heldBy s1 from = heldBy s from) as Hheld2.
  { destruct (decide (from = to)) as [->|Hne]; [done|].
    unfold heldBy. by rewrite Hother1. }
  assert (getOrCreateState s2 ts = getOrCreateState s ts) as Hstate.
  { apply getOrCreateState_ext; congruence. }
  rewrite Hstate, Hp1, Hp2, Hheld2, Hid1, Hid2.
  set (state' := set_owners _ (getOrCreateState s ts)).
  set (sA := Account_save _ (Account_save _ (State_save state' s2))).
  assert (state_id state' = timestampToId (toI32 ts) 0) as Hsid.
  { subst state'. simpl. by apply getOrCreateState_id. }
  assert (wfStore sA) as HwfA by (subst sA; auto with wf).
  destruct (getOrCreatePunk punkId sA) as [s3 punk] eqn:Hpunk.
  destruct (getOrCreatePunk_frame _ _ _ _ Hpunk) as (Ha3 & Hl3 & Hb3 & He3 & Hs3 & Ht3).
  pose proof (getOrCreatePunk_wf _ _ _ _ HwfA Hpunk) as Hwf3.
  unfold Account_load. simpl. rewrite Ha3, Hl3, Hb3, He3, Hs3, Ht3. subst sA. simpl.
  simpl in Hsid. rewrite Hsid, Hs2, Hs1, Hl2, Hl1, Hb2, Hb1, He2, He1, Ht2, Ht1.
  split_and!; try done.
  - f_equal. subst state'. unfold BIGINT_ONE. f_equal.
    destruct (length (heldBy s from) =? 1)%nat, (length (heldBy s to) =? 0)%nat; lia.
  - by rewrite lookup_insert_eq.
  - intros Hne. rewrite lookup_insert_ne by done. by rewrite lookup_insert_eq.
  - auto with wf.
Qed.

Lemma occurrences_app (x : string) (l1 l2 : list string) :
  occurrences x (l1 ++ l2) = (occurrences x l1 + occurrences x l2)%nat.
Proof. unfold occurrences. by rewrite filter_app, length_app. Qed.

Lemma occurrences_zero (x : string) (l : list string) : x ∉ l → occurrences x l = 0%nat.
Proof.
  intros Hnot. unfold occurrences.
  destruct (filter (λ n, n = x) l) as [|y r] eqn:Hf; [done|].
  assert (y ∈ filter (λ n, n = x) l) as Hy by (rewrite Hf; apply list_elem_of_here).
  apply list_elem_of_filter in Hy as [-> Hin]. done.
Qed.

Lemma occurrences_pos (x : string) (l : list string) : x ∈ l → (1 ≤ occurrences x l)%nat.
Proof.
  intros Hin. unfold occurrences.
  assert (x ∈ filter (λ n, n = x) l) as Hx by by apply list_elem_of_filter.
  destruct (filter (λ n, n = x) l); [by apply elem_of_nil in Hx|simpl; lia].
Qed.

(** C5 (as amended). [updateOwnership] appends the asset id to the receiver's
    held list whatever the list holds: the list afterwards is the list before
    followed by the id, so the id occurs once more than before -- exactly
    once when it was absent, and at least twice when it was already there. *)
Theorem updateOwnership_appends (tx : string) (ts : Z) (punkId to from : string) (s : Store) :
  wfStore s →
  heldBy (updateOwnership tx ts punkId to from s) to = heldBy s to ++ [punkId]
  ∧ occurrences punkId (heldBy (updateOwnership tx ts punkId to from s) to)
    = S (occurrences punkId (heldBy s to))
  ∧ (punkId ∉ heldBy s to →
     occurrences punkId (heldBy (updateOwnership tx ts punkId to from s) to) = 1%nat)
  ∧ (punkId ∈ heldBy s to →
     (2 ≤ occurrences punkId (heldBy (updateOwnership tx ts punkId to from s) to))%nat).
Proof.
  intros Hwf.
  destruct (updateOwnership_stores tx ts punkId to from s Hwf) as (_ & Hto & _).
  assert (heldBy (updateOwnership tx ts punkId to from s) to = heldBy s to ++ [punkId]) as Heq.
  { unfold heldBy at 1. by rewrite Hto. }
  rewrite Heq, occurrences_app.
  assert (occurrences punkId [punkId] = 1%nat) as Hone.
  { unfold occurrences. rewrite filter_cons_True by done. done. }
  rewrite Hone. split_and!; [done|lia| |].
  - intros Hnot. rewrite occurrences_zero by done. done.
  - intros Hin. apply occurrences_pos in Hin. lia.
Qed.

Lemma removeId_nil_iff (x : string) (l : list string) :
  removeId x l = [] ↔ ∀ y, y ∈ l → y = x.
Proof.
  unfold removeId. split.
  - intros Hnil y Hy. destruct (decide (y = x)) as [|Hne]; [done|].
    assert (y ∈ filter (λ n, n ≠ x) l) as Hin by by apply list_elem_of_filter.
    rewrite Hnil in Hin. by apply elem_of_nil in Hin.
  - intros Hall. destruct (filter (λ n, n ≠ x) l) as [|y r] eqn:Hf; [done|].
    assert (y ∈ filter (λ n, n ≠ x) l) as Hy by (rewrite Hf; apply list_elem_of_here).
    apply list_elem_of_filter in Hy as [Hne Hin]. by apply Hall in Hin.
Qed.

(** C6 (as amended). [updateOwnership] adds one to the snapshot's owner count
    exactly when the receiver's held list was empty before the addition and
    takes one off exactly when the sender's held list has exactly one entry
    before the removal; when the sender holds the transferred id and holds
    nothing twice, that is exactly when the removal empties the sender's
    list.  So a transfer from an account holding only that asset to an empty
    account leaves the count unchanged, a transfer between two accounts that
    each hold other assets leaves it unchanged, and a transfer to a brand-new
    account by a sender that keeps other assets adds exactly one. *)
Theorem updateOwnership_owners (tx : string) (ts : Z) (punkId to from : string) (s : Store) :
  wfStore s →
  ∃ st', State_load (updateOwnership tx ts punkId to from s) (timestampToId (toI32 ts) 0)
         = Some st'
    ∧ owners st'
      = owners (getOrCreateState s ts)
        - (if decide (length (heldBy s from) = 1%nat) then 1 else 0)
        + (if decide (heldBy s to = []) then 1 else 0)
    ∧ (punkId ∈ heldBy s from → NoDup (heldBy s from) →
       (length (heldBy s from) = 1%nat ↔ removeId punkId (heldBy s from) = []))
    ∧ (heldBy s from = [punkId] → heldBy s to = [] →
       owners st' = owners (getOrCreateState s ts))
    ∧ ((1 < length (heldBy s from))%nat → heldBy s to ≠ [] →
       owners st' = owners (getOrCreateState s ts))
    ∧ ((1 < length (heldBy s from))%nat → heldBy s to = [] →
       owners st' = owners (getOrCreateState s ts) + 1).
Proof.
  intros Hwf.
  destruct (updateOwnership_stores tx ts punkId to from s Hwf) as (Hst & _).
  eexists. split; [unfold State_load; rewrite Hst; apply lookup_insert_eq|]. simpl.
  split_and!.
  - repeat case_decide; destruct (heldBy s from) as [|? [|? ?]], (heldBy s to);
      simpl in *; try done; lia.
  - intros Hin Hnd. rewrite removeId_nil_iff. split.
    + intros Hlen y Hy. destruct (heldBy s from) as [|z [|? ?]]; try done.
      apply list_elem_of_singleton in Hin, Hy. congruence.
    + intros Hall. destruct (heldBy s from) as [|z [|z' r]]; [by apply elem_of_nil in Hin|done|].
      exfalso. apply NoDup_cons in Hnd as [Hz _]. apply Hz.
      rewrite (Hall z) by apply list_elem_of_here.
      rewrite <- (Hall z') at 1 by apply list_elem_of_further, list_elem_of_here.
      apply list_elem_of_here.
  - intros -> ->. simpl. lia.
  - intros Hlen Hne. destruct (heldBy s from) as [|? [|? ?]], (heldBy s to);
      simpl in *; try done; lia.
  - intros Hlen ->. destruct (heldBy s from) as [|? [|? ?]]; simpl in *; lia.
Qed.

(** ** Closing a listing and a bid *)

Lemma setPunkNoLongerForSale_stores (punkId : string) (removeBid : bool) (s : Store) :
  accountStore (setPunkNoLongerForSale punkId removeBid s) = accountStore s
  ∧ listingStore (setPunkNoLongerForSale punkId removeBid s) = delete punkId (listingStore s)
  ∧ bidStore (setPunkNoLongerForSale punkId removeBid s)
    = (if removeBid then delete punkId (bidStore s) else bidStore s)
  ∧ eventStore (setPunkNoLongerForSale punkId removeBid s) = eventStore s
  ∧ stateStore (setPunkNoLongerForSale punkId removeBid s) = stateStore s
  ∧ transferStore (setPunkNoLongerForSale punkId removeBid s) = transferStore s.
Proof.
  unfold setPunkNoLongerForSale, Listing_load, Bid_load.
  destruct (listingStore s !! punkId) eqn:Hl, removeBid; simpl;
    try (destruct (bidStore s !! punkId) eqn:Hb); simpl;
    rewrite ?(delete_id _ _ Hl), ?(delete_id _ _ Hb); done.
Qed.

(** ** The top-rank tracker *)

(** The in-line comparison of the handlers, read on the store in which the
    candidate event has just been saved, is [considerTop] on the store
    before. *)
Lemma considerTop_after_save (s : Store) (top : option string) (e : Event) :
  match loadPrevBidEvent (Event_save e s) top with
  | Some prev =>
      if event_value prev >? BIGINT_ZERO
      then if event_value e >? event_value prev then Some (event_id e) else top
      else Some (event_id e)
  | None => Some (event_id e)
  end = considerTop s top (event_id e) (event_value e).
Proof.
  unfold considerTop, loadPrevBidEvent, Event_load, BIGINT_ZERO. destruct top as [t|]; simpl; [|done].
  destruct (decide (t = event_id e)) as [->|Hne].
  - rewrite lookup_insert_eq. rewrite !Z.gtb_ltb, Z.ltb_irrefl.
    destruct (0 <? event_value e); destruct (eventStore s !! event_id e); simpl;
      repeat case_decide; done.
  - rewrite lookup_insert_ne by done.
    destruct (eventStore s !! t) as [prev|]; simpl; [|done].
    rewrite !Z.gtb_ltb.
    destruct (Z.ltb_spec 0 (event_value prev)); case_decide; try lia; [|done].
    destruct (Z.ltb_spec (event_value prev) (event_value e)); case_decide; try lia; done.
Qed.

Lemma considerTop_ext (s1 s2 : Store) (top : option string) (id : string) (v : Z) :
  eventStore s1 = eventStore s2 → considerTop s1 top id v = considerTop s2 top id v.
Proof. intros He. unfold considerTop, Event_load. by rewrite He. Qed.

Lemma set_topSale_same (st : State) : set_topSale (topSale st) st = st.
Proof. by destruct st. Qed.

Lemma set_topBid_same (st : State) : set_topBid (topBid st) st = st.
Proof. by destruct st. Qed.

Lemma topSale_update (s : Store) (e : Event) (id : string) (v : Z) (st : State) :
  event_id e = id → event_value e = v →
  match loadPrevSaleEvent (Event_save e s) (topSale st) with
  | Some prev =>
      if event_value prev >? BIGINT_ZERO
      then if v >? event_value prev then set_topSale (Some id) st else st
      else set_topSale (Some id) st
  | None => set_topSale (Some id) st
  end = set_topSale (considerTop s (topSale st) id v) st.
Proof.
  intros <- <-. rewrite <- considerTop_after_save.
  change loadPrevSaleEvent with loadPrevBidEvent.
  destruct (loadPrevBidEvent _ _) as [prev|]; [|done].
  destruct (event_value prev >? BIGINT_ZERO); [|done].
  destruct (event_value e >? event_value prev); [done|]. by rewrite set_topSale_same.
Qed.

Lemma topBid_update (s : Store) (e : Event) (id : string) (v : Z) (st : State) :
  event_id e = id → event_value e = v →
  match loadPrevBidEvent (Event_save e s) (topBid st) with
  | Some prev =>
      if event_value prev >? BIGINT_ZERO
      then if v >? event_value prev then set_topBid (Some id) st else st
      else set_topBid (Some id) st
  | None => set_topBid (Some id) st
  end = set_topBid (considerTop s (topBid st) id v) st.
Proof.
  intros <- <-. rewrite <- considerTop_after_save.
  destruct (loadPrevBidEvent _ _) as [prev|]; [|done].
  destruct (event_value prev >? BIGINT_ZERO); [|done].
  destruct (event_value e >? event_value prev); [done|]. by rewrite set_topBid_same.
Qed.

(** ** Sales *)

Lemma resolveBuyer_spec (punkId : string) (toAccount toAccount' : Account) (value value' : Z)
    (bid : option Bid) (s s' : Store) :
  wfStore s →
  resolveBuyer punkId toAccount value bid s = (s', toAccount', value') →
  wfStore s'
  ∧ listingStore s' = delete punkId (listingStore s)
  ∧ eventStore s' = eventStore s
  ∧ stateStore s' = stateStore s
  ∧ transferStore s' = transferStore s
  ∧ (account_id toAccount = ZERO_ADDRESS → bidStore s' = delete punkId (bidStore s))
  ∧ account_id toAccount'
    = (if decide (account_id toAccount = ZERO_ADDRESS)
       then match bid with Some b => bid_fromAccount b | None => account_id toAccount end
       else account_id toAccount)
  ∧ value'
    = (if decide (account_id toAccount = ZERO_ADDRESS)
       then match bid with Some b => bid_value b | None => value end
       else value).
Proof.
  intros Hwf. unfold resolveBuyer.
  destruct (decide (account_id toAccount = ZERO_ADDRESS)) as [Hz|Hnz].
  - rewrite bool_decide_eq_true_2 by done. destruct bid as [b|].
    + destruct (getOrCreateAccount (bid_fromAccount b) s) as [s1 a] eqn:Ha.
      destruct (getOrCreateAccount_frame _ _ _ _ Ha) as (_ & Hl & Hb & He & Hs & Ht).
      destruct (getOrCreateAccount_wf _ _ _ _ Hwf Ha) as (Hwf1 & Hid).
      intros [[<- <-]%pair_equal_spec <-]%pair_equal_spec.
      destruct (setPunkNoLongerForSale_stores punkId true s1) as (_ & Hl' & Hb' & He' & Hs' & Ht').
      rewrite Hl', Hb', He', Hs', Ht', Hl, Hb, He, Hs, Ht.
      split_and!; try done. by apply wfStore_setPunkNoLongerForSale.
    + intros [[<- <-]%pair_equal_spec <-]%pair_equal_spec.
      destruct (setPunkNoLongerForSale_stores punkId true s) as (_ & Hl' & Hb' & He' & Hs' & Ht').
      rewrite Hl', Hb', He', Hs', Ht'.
      split_and!; try done. by apply wfStore_setPunkNoLongerForSale.
  - rewrite bool_decide_eq_false_2 by done.
    destruct (match bid with Some b => _ | None => false end);
      intros [[<- <-]%pair_equal_spec <-]%pair_equal_spec.
    + destruct (setPunkNoLongerForSale_stores punkId true s) as (_ & Hl' & Hb' & He' & Hs' & Ht').
      rewrite Hl', He', Hs', Ht'.
      split_and!; try done. by apply wfStore_setPunkNoLongerForSale.
    + destruct (setPunkNoLongerForSale_stores punkId false s) as (_ & Hl' & Hb' & He' & Hs' & Ht').
      rewrite Hl', He', Hs', Ht'.
      split_and!; try done. by apply wfStore_setPunkNoLongerForSale.
Qed.

Lemma removeId_notin (x : string) (l : list string) : x ∉ l → removeId x l = l.
Proof.
  intros Hnot. unfold removeId. induction l as [|y l IH]; [done|].
  apply not_elem_of_cons in Hnot as [Hne Hnot].
  rewrite filter_cons_True by done. by rewrite IH.
Qed.

Lemma removeId_if_member (x : string) (l : list string) :
  (if bool_decide (x ∈ l) then removeId x l else l) = removeId x l.
Proof. case_bool_decide; [done|]. by rewrite removeId_notin. Qed.

Lemma not_elem_of_removeId (x : string) (l : list string) : x ∉ removeId x l.
Proof. unfold removeId. intros [Hne _]%list_elem_of_filter. done. Qed.

(** What [handlePunkBought] leaves behind when the sale is recorded, that is
    when the asset has a bid or the resolved value is not zero. *)
Lemma handlePunkBought_recorded (event : PunkBoughtEvent) (s : Store) :
  wfStore s →
  is_Some (Bid_load s (pretty (pb_punkIndex event))) ∨ resolvedValue event s ≠ 0 →
  (∃ st', State_load (handlePunkBought event s)
                     (timestampToId (toI32 (block_timestamp (pb_event event))) 0) = Some st'
     ∧ topSale st'
       = considerTop s (topSale (getOrCreateState s (block_timestamp (pb_event event))))
                     (getGlobalId (pb_event event)) (resolvedValue event s)
     ∧ sales st' = sales (getOrCreateState s (block_timestamp (pb_event event))) + 1
     ∧ volume st'
       = volume (getOrCreateState s (block_timestamp (pb_event event)))
         + resolvedValue event s
     ∧ activeListings st'
       = removeId (pretty (pb_punkIndex event))
                  (activeListings (getOrCreateState s (block_timestamp (pb_event event)))))
  ∧ Event_load (handlePunkBought event s) (getGlobalId (pb_event event))
    = Some (newEvent (pb_event event) "Sale" (pb_punkIndex event) (pb_fromAddress event)
                     (resolvedBuyer event s) (resolvedValue event s))
  ∧ Listing_load (handlePunkBought event s) (pretty (pb_punkIndex event)) = None
  ∧ (pb_toAddress event = ZERO_ADDRESS →
     Bid_load (handlePunkBought event s) (pretty (pb_punkIndex event)) = None).
Proof.
  intros Hwf Hrec. unfold handlePunkBought.
  set (ev := pb_event event). set (punkId := pretty (pb_punkIndex event)).
  destruct (getOrCreateAccount (pb_fromAddress event) s) as [s1 fromAccount] eqn:Hfrom.
  destruct (getOrCreateAccount (pb_toAddress event) s1) as [s2 toAccount] eqn:Hto.
  destruct (getOrCreateAccount_frame _ _ _ _ Hfrom) as (_ & Hl1 & Hb1 & He1 & Hs1 & Ht1).
  destruct (getOrCreateAccount_frame _ _ _ _ Hto) as (_ & Hl2 & Hb2 & He2 & Hs2 & Ht2).
  destruct (getOrCreateAccount_wf _ _ _ _ Hwf Hfrom) as (Hwf1 & Hidf).
  destruct (getOrCreateAccount_wf _ _ _ _ Hwf1 Hto) as (Hwf2 & Hidt).
  assert (Bid_load s2 punkId = Bid_load s punkId) as Hbid.
  { unfold Bid_load. by rewrite Hb2, Hb1. }
  rewrite Hbid.
  destruct (resolveBuyer punkId toAccount (pb_value event) (Bid_load s punkId) s2)
    as [[s3 toAccount'] value'] eqn:Hres.
  destruct (resolveBuyer_spec _ _ _ _ _ _ _ _ Hwf2 Hres)
    as (Hwf3 & Hl3 & He3 & Hs3 & Ht3 & Hb3 & Hbuyer & Hvalue).
  rewrite Hidt in Hb3, Hbuyer, Hvalue.
  fold punkId in Hbid, Hrec. 
  assert (account_id toAccount' = resolvedBuyer event s) as Hbuyer' by done.
  assert (value' = resolvedValue event s) as Hvalue' by done.
  clear Hbuyer Hvalue. rewrite Hbuyer', Hidf.
  destruct (updateOwnership_stores (tx_hash ev) (block_timestamp ev) punkId
              (resolvedBuyer event s) (pb_fromAddress event) s3 Hwf3)
    as (Hst4 & _ & _ & Hl4 & Hb4 & He4 & Ht4 & Hwf4).
  set (s4 := updateOwnership _ _ _ _ _ s3) in *.
  assert (negb (bool_decide (is_Some (Bid_load s punkId))) && (value' =? BIGINT_ZERO) = false)
    as ->.
  { destruct Hrec as [Hsome|Hne].
    - by rewrite bool_decide_eq_true_2.
    - rewrite Hvalue'. apply andb_false_iff. right. by apply Z.eqb_neq. }
  set (evnt := newEvent ev "Sale" _ _ _ _).
  set (stX := set_owners _ (getOrCreateState s3 (block_timestamp ev))) in Hst4.
  assert (getOrCreateState (Event_save evnt s4) (block_timestamp ev) = stX) as ->.
  { apply getOrCreateState_existing. unfold State_load. simpl. rewrite Hst4.
    apply lookup_insert_eq. }
  rewrite (topSale_update s4 evnt (getGlobalId ev) value' stX) by done.
  assert (state_id stX = timestampToId (toI32 (block_timestamp ev)) 0) as Hsid.
  { subst stX. simpl. by apply getOrCreateState_id. }
  assert (set_floor 0 (getOrCreateState s3 (block_timestamp ev))
          = set_floor 0 (getOrCreateState s (block_timestamp ev))) as Hsame.
  { apply getOrCreateState_ext_states. congruence. }
  assert (eventStore s4 = eventStore s) as Hev by congruence.
  split_and!.
  - eexists. split.
    { unfold State_load. simpl. simpl in Hsid. rewrite Hsid. apply lookup_insert_eq. }
    simpl. rewrite removeId_if_member, (considerTop_ext s4 s) by done.
    rewrite Hvalue'. unfold BIGINT_ONE.
    split_and!; try done.
    + f_equal. apply (f_equal topSale) in Hsame. done.
    + f_equal. apply (f_equal sales) in Hsame. done.
    + f_equal. apply (f_equal volume) in Hsame. done.
    + f_equal. apply (f_equal activeListings) in Hsame. done.
  - unfold Event_load. simpl. rewrite lookup_insert_eq. subst evnt. by rewrite Hvalue'.
  - unfold Listing_load. simpl. rewrite Hl4, Hl3. apply lookup_delete_eq.
  - intros Hz. unfold Bid_load. simpl. rewrite Hb4, Hb3 by done. apply lookup_delete_eq.
Qed.

(** C7. When a Bought event reports the zero address as the buyer and the
    asset has a bid, the handler takes the bid's bidder as the buyer and the
    bid's value as the value: afterwards the asset has neither bid nor
    listing, the event log holds a Sale event with that buyer and value, and
    the snapshot's sales counter is one higher and its volume higher by the
    bid's value. *)
Theorem handlePunkBought_zero_buyer (event : PunkBoughtEvent) (s : Store) (b : Bid) :
  wfStore s →
  pb_toAddress event = ZERO_ADDRESS →
  Bid_load s (pretty (pb_punkIndex event)) = Some b →
  resolvedBuyer event s = bid_fromAccount b
  ∧ resolvedValue event s = bid_value b
  ∧ Bid_load (handlePunkBought event s) (pretty (pb_punkIndex event)) = None
  ∧ Listing_load (handlePunkBought event s) (pretty (pb_punkIndex event)) = None
  ∧ (∃ e, Event_load (handlePunkBought event s) (getGlobalId (pb_event event)) = Some e
          ∧ event_type e = "Sale"
          ∧ tokenId e = pb_punkIndex event
          ∧ event_toAccount e = Some (bid_fromAccount b)
          ∧ event_value e = bid_value b)
  ∧ (∃ st', State_load (handlePunkBought event s)
                       (timestampToId (toI32 (block_timestamp (pb_event event))) 0) = Some st'
       ∧ sales st' = sales (getOrCreateState s (block_timestamp (pb_event event))) + 1
       ∧ volume st'
         = volume (getOrCreateState s (block_timestamp (pb_event event))) + bid_value b).
Proof.
  intros Hwf Hzero Hbid.
  assert (resolvedBuyer event s = bid_fromAccount b) as Hbuyer.
  { unfold resolvedBuyer. rewrite Hbid. by case_decide. }
  assert (resolvedValue event s = bid_value b) as Hvalue.
  { unfold resolvedValue. rewrite Hbid. by case_decide. }
  destruct (handlePunkBought_recorded event s Hwf) as (Hstate & Hevent & Hlisting & Hnobid).
  { left. by rewrite Hbid. }
  destruct Hstate as (st' & Hload & _ & Hsales & Hvolume & _).
  rewrite Hbuyer, Hvalue in Hevent. rewrite Hvalue in Hvolume.
  split_and!; try done.
  - by apply Hnobid.
  - eexists. split; [exact Hevent|]. done.
  - by exists st'.
Qed.

(** C8. A Bought event with value zero for an asset without a bid records
    nothing: the event log is as before, and the snapshot of the bucket has
    the sales counter, volume, top sale and active listings that
    [getOrCreateState] gives for the bucket before the event.  Its floor is
    the one [getOrCreateState] gives once the asset's Listing is deleted:
    the floor is as before when the bucket's snapshot exists already or the
    asset has no Listing, and otherwise the snapshot is created with the
    floor of the carried listings computed without the deleted Listing. *)
Theorem handlePunkBought_zero_value_no_bid (event : PunkBoughtEvent) (s : Store) :
  wfStore s →
  pb_value event = 0 →
  Bid_load s (pretty (pb_punkIndex event)) = None →
  eventStore (handlePunkBought event s) = eventStore s
  ∧ ∃ st', State_load (handlePunkBought event s)
                      (timestampToId (toI32 (block_timestamp (pb_event event))) 0) = Some st'
      ∧ sales st' = sales (getOrCreateState s (block_timestamp (pb_event event)))
      ∧ volume st' = volume (getOrCreateState s (block_timestamp (pb_event event)))
      ∧ topSale st' = topSale (getOrCreateState s (block_timestamp (pb_event event)))
      ∧ activeListings st'
        = activeListings (getOrCreateState s (block_timestamp (pb_event event)))
      ∧ floor st'
        = floor (getOrCreateState (Listing_remove (pretty (pb_punkIndex event)) s)
                                  (block_timestamp (pb_event event)))
      ∧ (Listing_load s (pretty (pb_punkIndex event)) = None →
         floor st' = floor (getOrCreateState s (block_timestamp (pb_event event))))
      ∧ (∀ st, State_load s (timestampToId (toI32 (block_timestamp (pb_event event))) 0)
               = Some st →
               sales st' = sales st ∧ volume st' = volume st ∧ topSale st' = topSale st
               ∧ activeListings st' = activeListings st ∧ floor st' = floor st).
Proof.
  intros Hwf Hzero Hnobid. unfold handlePunkBought.
  set (ev := pb_event event). set (punkId := pretty (pb_punkIndex event)).
  destruct (getOrCreateAccount (pb_fromAddress event) s) as [s1 fromAccount] eqn:Hfrom.
  destruct (getOrCreateAccount (pb_toAddress event) s1) as [s2 toAccount] eqn:Hto.
  destruct (getOrCreateAccount_frame _ _ _ _ Hfrom) as (_ & Hl1 & Hb1 & He1 & Hs1 & Ht1).
  destruct (getOrCreateAccount_frame _ _ _ _ Hto) as (_ & Hl2 & Hb2 & He2 & Hs2 & Ht2).
  destruct (getOrCreateAccount_wf _ _ _ _ Hwf Hfrom) as (Hwf1 & Hidf).
  destruct (getOrCreateAccount_wf _ _ _ _ Hwf1 Hto) as (Hwf2 & Hidt).
  assert (Bid_load s2 punkId = None) as Hbid.
  { unfold Bid_load. rewrite Hb2, Hb1. exact Hnobid. }
  rewrite Hbid.
  destruct (resolveBuyer punkId toAccount (pb_value event) None s2)
    as [[s3 toAccount'] value'] eqn:Hres.
  destruct (resolveBuyer_spec _ _ _ _ _ _ _ _ Hwf2 Hres)
    as (Hwf3 & Hl3 & He3 & Hs3 & Ht3 & Hb3 & Hbuyer & Hvalue).
  assert (value' = 0) as -> by (rewrite Hvalue, Hzero; by case_decide).
  destruct (updateOwnership_stores (tx_hash ev) (block_timestamp ev) punkId
              (account_id toAccount') (account_id fromAccount) s3 Hwf3)
    as (Hst4 & _ & _ & Hl4 & Hb4 & He4 & Ht4 & Hwf4).
  simpl. split; [congruence|].
  eexists. split; [unfold State_load; rewrite Hst4; apply lookup_insert_eq|]. simpl.
  assert (set_floor 0 (getOrCreateState s3 (block_timestamp ev))
          = set_floor 0 (getOrCreateState s (block_timestamp ev))) as Hsame.
  { apply getOrCreateState_ext_states. congruence. }
  assert (getOrCreateState s3 (block_timestamp ev)
          = getOrCreateState (Listing_remove punkId s) (block_timestamp ev)) as Hremoved.
  { apply getOrCreateState_ext; simpl; congruence. }
  split_and!.
  - by apply (f_equal sales) in Hsame.
  - by apply (f_equal volume) in Hsame.
  - by apply (f_equal topSale) in Hsame.
  - by apply (f_equal activeListings) in Hsame.
  - by rewrite Hremoved.
  - intros Hnolisting. f_equal. apply getOrCreateState_ext; [congruence|].
    rewrite Hl3, Hl2, Hl1. by apply delete_id.
  - intros st Hst.
    assert (getOrCreateState s3 (block_timestamp ev) = st) as ->; [|done].
    apply getOrCreateState_existing. unfold State_load. rewrite Hs3, Hs2, Hs1. exact Hst.
Qed.

(** ** Bids *)

Lemma handlePunkBidEntered_topBid (event : PunkBidEnteredEvent) (s : Store) :
  wfStore s →
  ∃ st', State_load (handlePunkBidEntered event s)
                    (timestampToId (toI32 (block_timestamp (be_event event))) 0) = Some st'
    ∧ topBid st'
      = considerTop s (topBid (getOrCreateState s (block_timestamp (be_event event))))
                    (getGlobalId (be_event event)) (be_value event)
    ∧ bids st' = bids (getOrCreateState s (block_timestamp (be_event event))) + 1.
Proof.
  intros Hwf. unfold handlePunkBidEntered.
  set (ev := be_event event). set (punkId := pretty (be_punkIndex event)).
  destruct (getOrCreateAccount (be_fromAddress event) s) as [s1 fromAccount] eqn:Hfrom.
  destruct (getOrCreateAccount_frame _ _ _ _ Hfrom) as (_ & Hl1 & Hb1 & He1 & Hs1 & Ht1).
  set (bid := mkBid _ _ _ _ _ _ _ _).
  set (evnt := newEvent ev "BidEntered" _ _ _ _).
  assert (getOrCreateState (Event_save evnt (Bid_save bid s1)) (block_timestamp ev)
          = getOrCreateState s (block_timestamp ev)) as ->.
  { by apply getOrCreateState_ext. }
  rewrite (topBid_update (Bid_save bid s1) evnt (getGlobalId ev) (be_value event)) by done.
  rewrite (considerTop_ext (Bid_save bid s1) s) by done.
  eexists. split.
  { unfold State_load. simpl. rewrite (getOrCreateState_id s _ Hwf). apply lookup_insert_eq. }
  done.
Qed.

Lemma considerTop_cases (s : Store) (top : option string) (id : string) (v : Z) :
  (top ≫= Event_load s = None → considerTop s top id v = Some id)
  ∧ (∀ e, top ≫= Event_load s = Some e → event_value e ≤ 0 → considerTop s top id v = Some id)
  ∧ (∀ e, top ≫= Event_load s = Some e → 0 < event_value e → event_value e < v →
          considerTop s top id v = Some id)
  ∧ (∀ e, top ≫= Event_load s = Some e → 0 < event_value e → v ≤ event_value e →
          considerTop s top id v = top).
Proof.
  unfold considerTop. split_and!.
  - by intros ->.
  - intros e -> Hle. case_decide; [lia|done].
  - intros e -> Hpos Hlt. by repeat (case_decide; try lia).
  - intros e -> Hpos Hle. by repeat (case_decide; try lia).
Qed.

(** C4. After a bid-entered event the snapshot's top bid, and after a
    recorded sale its top sale, is the outcome of considering the new event
    against the event referenced so far: the new event becomes the top when
    no event is referenced (or the reference is dangling) or the referenced
    event's value is not strictly positive; otherwise it becomes the top
    when its value is strictly greater than the referenced event's value,
    and the reference stays as it is when the value is equal or smaller. *)
Theorem top_rank_update (bidEvent : PunkBidEnteredEvent) (saleEvent : PunkBoughtEvent)
    (s : Store) :
  wfStore s →
  is_Some (Bid_load s (pretty (pb_punkIndex saleEvent))) ∨ resolvedValue saleEvent s ≠ 0 →
  (∃ st', State_load (handlePunkBidEntered bidEvent s)
                     (timestampToId (toI32 (block_timestamp (be_event bidEvent))) 0)
          = Some st'
     ∧ topBid st'
       = considerTop s (topBid (getOrCreateState s (block_timestamp (be_event bidEvent))))
                     (getGlobalId (be_event bidEvent)) (be_value bidEvent))
  ∧ (∃ st', State_load (handlePunkBought saleEvent s)
                       (timestampToId (toI32 (block_timestamp (pb_event saleEvent))) 0)
            = Some st'
       ∧ topSale st'
         = considerTop s (topSale (getOrCreateState s (block_timestamp (pb_event saleEvent))))
                       (getGlobalId (pb_event saleEvent)) (resolvedValue saleEvent s))
  ∧ (∀ top id v,
       (top ≫= Event_load s = None → considerTop s top id v = Some id)
       ∧ (∀ e, top ≫= Event_load s = Some e → event_value e ≤ 0 →
               considerTop s top id v = Some id)
       ∧ (∀ e, top ≫= Event_load s = Some e → 0 < event_value e → event_value e < v →
               considerTop s top id v = Some id)
       ∧ (∀ e, top ≫= Event_load s = Some e → 0 < event_value e → v = event_value e →
               considerTop s top id v = top)
       ∧ (∀ e, top ≫= Event_load s = Some e → 0 < event_value e → v < event_value e →
               considerTop s top id v = top)).
Proof.
  intros Hwf Hrec. split_and!.
  - destruct (handlePunkBidEntered_topBid bidEvent s Hwf) as (st' & Hload & Htop & _).
    by exists st'.
  - destruct (handlePunkBought_recorded saleEvent s Hwf Hrec)
      as ((st' & Hload & Htop & _) & _).
    by exists st'.
  - intros top id v. destruct (considerTop_cases s top id v) as (H1 & H2 & H3 & H4).
    split_and!; try done.
    + intros e He Hpos ->. by apply (H4 e).
    + intros e He Hpos Hlt. apply (H4 e); [done|done|lia].
Qed.

(** ** Offers *)

(** What [handlePunkOffered] leaves behind: the listing, and the snapshot
    with one more listing counted, the asset id appended to the active
    listings, and the floor lowered to the offered value exactly when the
    guard of lines 299-303 holds. *)
Lemma handlePunkOffered_state (event : PunkOfferedEvent) (s : Store) :
  wfStore s →
  ∃ l st',
    Listing_load (handlePunkOffered event s) (pretty (po_punkIndex event)) = Some l
    ∧ listing_value l = po_minValue event
    ∧ isPrivate l = negb (bool_decide (po_toAddress event = ZERO_ADDRESS))
    ∧ State_load (handlePunkOffered event s)
                 (timestampToId (toI32 (block_timestamp (po_event event))) 0) = Some st'
    ∧ listings st' = listings (getOrCreateState s (block_timestamp (po_event event))) + 1
    ∧ activeListings st'
      = activeListings (getOrCreateState s (block_timestamp (po_event event)))
        ++ [pretty (po_punkIndex event)]
    ∧ floor st'
      = (if negb (bool_decide (po_toAddress event = ZERO_ADDRESS))
            && negb (po_minValue event =? 0)
            && (po_minValue event
                <? floor (getOrCreateState (Listing_save l s)
                                           (block_timestamp (po_event event))))
         then po_minValue event
         else floor (getOrCreateState (Listing_save l s) (block_timestamp (po_event event)))).
Proof.
  intros Hwf. unfold handlePunkOffered.
  set (ev := po_event event). set (punkId := pretty (po_punkIndex event)).
  destruct (getOrCreateAccount (tx_from ev) s) as [s1 fromAccount] eqn:Hfrom.
  destruct (getOrCreateAccount (po_toAddress event) s1) as [s2 toAccount] eqn:Hto.
  destruct (getOrCreateAccount_frame _ _ _ _ Hfrom) as (_ & Hl1 & Hb1 & He1 & Hs1 & Ht1).
  destruct (getOrCreateAccount_frame _ _ _ _ Hto) as (_ & Hl2 & Hb2 & He2 & Hs2 & Ht2).
  destruct (getOrCreateAccount_wf _ _ _ _ Hwf Hfrom) as (Hwf1 & Hidf).
  destruct (getOrCreateAccount_wf _ _ _ _ Hwf1 Hto) as (Hwf2 & Hidt).
  rewrite Hidt.
  set (listing := mkListing punkId _ _ _ _ _ _ _ _ _).
  set (evnt := newEvent ev "Offered" _ _ _ _).
  assert (getOrCreateState (Event_save evnt (Listing_save listing s2)) (block_timestamp ev)
          = getOrCreateState (Listing_save listing s) (block_timestamp ev)) as ->.
  { apply getOrCreateState_ext; simpl; congruence. }
  assert (set_floor 0 (getOrCreateState (Listing_save listing s) (block_timestamp ev))
          = set_floor 0 (getOrCreateState s (block_timestamp ev))) as Hsame.
  { by apply getOrCreateState_ext_states. }
  assert (state_id (getOrCreateState (Listing_save listing s) (block_timestamp ev))
          = timestampToId (toI32 (block_timestamp ev)) 0) as Hsid.
  { apply getOrCreateState_id. auto with wf. }
  exists listing.
  remember (getOrCreateState (Listing_save listing s) (block_timestamp ev)) as stM eqn:HstM.
  remember (getOrCreateState s (block_timestamp ev)) as st0 eqn:Hst0.
  clear HstM Hst0.
  apply (f_equal listings) in Hsame as Hlistings.
  apply (f_equal activeListings) in Hsame as Hactive.
  simpl in Hlistings, Hactive.
  assert (∀ (c : bool) v (st : State), state_id (if c then set_floor v st else st) = state_id st)
    as Hif by (by intros []).
  eexists.
  split; [unfold Listing_load; simpl; apply lookup_insert_eq|].
  split; [reflexivity|]. split; [reflexivity|].
  split.
  { unfold State_load. simpl. rewrite Hif. simpl. rewrite Hsid. apply lookup_insert_eq. }
  simpl. unfold BIGINT_ONE, BIGINT_ZERO. rewrite <- Hlistings, <- Hactive.
  by case_match.
Qed.

(** C10. An Offer for an asset whose id is already among the snapshot's
    active listings appends the id once more, so the collection holds it at
    least twice; and the floor engine compares the length of the collection,
    duplicates included, with five: a collection of five or more entries is
    scanned however few distinct assets it names. *)
Theorem handlePunkOffered_duplicates (event : PunkOfferedEvent) (s : Store) :
  wfStore s →
  pretty (po_punkIndex event)
  ∈ activeListings (getOrCreateState s (block_timestamp (po_event event))) →
  (∃ st', State_load (handlePunkOffered event s)
                     (timestampToId (toI32 (block_timestamp (po_event event))) 0) = Some st'
     ∧ activeListings st'
       = activeListings (getOrCreateState s (block_timestamp (po_event event)))
         ++ [pretty (po_punkIndex event)]
     ∧ (2 ≤ occurrences (pretty (po_punkIndex event)) (activeListings st'))%nat
     ∧ ¬ NoDup (activeListings st')
     ∧ length (activeListings st')
       = S (length (activeListings (getOrCreateState s (block_timestamp (po_event event))))))
  ∧ (∀ sx stx, (5 ≤ length (activeListings stx))%nat →
               getFloorFromActiveListings sx stx
               = minimumOrZero (positiveListingValues sx (activeListings stx)))
  ∧ (∀ sx stx, (length (activeListings stx) < 5)%nat →
               getFloorFromActiveListings sx stx = predecessorFloor sx stx).
Proof.
  intros Hwf Hin.
  destruct (handlePunkOffered_state event s Hwf)
    as (l & st' & _ & _ & _ & Hload & _ & Hactive & _).
  split_and!.
  - exists st'. rewrite Hactive. split_and!; try done.
    + rewrite occurrences_app. apply occurrences_pos in Hin.
      assert (occurrences (pretty (po_punkIndex event)) [pretty (po_punkIndex event)] = 1%nat)
        as ->; [|lia].
      unfold occurrences. by rewrite filter_cons_True by done.
    + intros Hnd. apply NoDup_app in Hnd as (_ & Hdisj & _).
      apply (Hdisj _ Hin), list_elem_of_here.
    + rewrite length_app. simpl. lia.
  - intros sx stx Hlen. rewrite getFloorFromActiveListings_recompute.
    unfold recomputeFloor. case_decide; [lia|done].
  - intros sx stx Hlen. rewrite getFloorFromActiveListings_recompute.
    unfold recomputeFloor. case_decide; [done|lia].
Qed.

(** ** Delisting *)


(** The guard of the fast path reads [toAccount.id != ZERO_ADDRESS]: an
    offer to anyone never moves the floor in [handlePunkOffered], an offer
    to a named buyer lowers it. *)
Lemma handlePunkOffered_floor (event : PunkOfferedEvent) (s : Store) (st : State) :
  wfStore s →
  State_load s (timestampToId (toI32 (block_timestamp (po_event event))) 0) = Some st →
  ∃ st', State_load (handlePunkOffered event s)
                    (timestampToId (toI32 (block_timestamp (po_event event))) 0) = Some st'
    ∧ (po_toAddress event = ZERO_ADDRESS → floor st' = floor st)
    ∧ (po_toAddress event ≠ ZERO_ADDRESS → po_minValue event ≠ 0 →
       po_minValue event < floor st → floor st' = po_minValue event).
Proof.
  intros Hwf Hst.
  destruct (handlePunkOffered_state event s Hwf)
    as (l & st' & _ & _ & _ & Hload & _ & _ & Hfloor).
  assert (getOrCreateState (Listing_save l s) (block_timestamp (po_event event)) = st) as Heq.
  { by apply getOrCreateState_existing. }
  rewrite Heq in Hfloor. exists st'. split_and!; [done| |].
  - intros Hz. rewrite Hfloor. by rewrite bool_decide_eq_true_2.
  - intros Hnz Hv Hlt. rewrite Hfloor. rewrite bool_decide_eq_false_2 by done.
    destruct (Z.eqb_spec (po_minValue event) 0); [done|].
    destruct (Z.ltb_spec (po_minValue event) (floor st)); [done|lia].
Qed.

(** ** Every store the mappings produce is well formed *)

Lemma wfStore_getOrCreateAccount (id : string) (s : Store) :
  wfStore s → wfStore (getOrCreateAccount id s).1.
Proof.
  intros Hwf. destruct (getOrCreateAccount id s) as [s' a] eqn:Ha.
  by destruct (getOrCreateAccount_wf _ _ _ _ Hwf Ha).
Qed.

Lemma wfStore_updateOwnership (tx : string) (ts : Z) (punkId to from : string) (s : Store) :
  wfStore s → wfStore (updateOwnership tx ts punkId to from s).
Proof. intros Hwf. by destruct (updateOwnership_stores tx ts punkId to from s Hwf) as (_&_&_&_&_&_&_&?). Qed.

Lemma wfStore_resolveBuyer (punkId : string) (a : Account) (v : Z) (bid : option Bid)
    (s : Store) :
  wfStore s → wfStore (resolveBuyer punkId a v bid s).1.1.
Proof.
  intros Hwf. destruct (resolveBuyer punkId a v bid s) as [[s' a'] v'] eqn:Hres.
  by destruct (resolveBuyer_spec _ _ _ _ _ _ _ _ Hwf Hres).
Qed.

#[local] Hint Resolve wfStore_getOrCreateAccount wfStore_updateOwnership wfStore_resolveBuyer
  wfStore_setPunkNoLongerForSale : wf.

Lemma wfStore_dispatch (event : ContractEvent) (s : Store) :
  wfStore s → wfStore (dispatch event s).
Proof.
  intros Hwf. destruct event as [e|e|e|e|e|e|e|e]; simpl.
  - unfold handleAssign.
    pose proof (wfStore_getOrCreateAccount ZERO_ADDRESS s Hwf) as Hwf1.
    destruct (getOrCreateAccount ZERO_ADDRESS s) as [s1 a1]; simpl in Hwf1.
    pose proof (wfStore_getOrCreateAccount (as_to e) s1 Hwf1) as Hwf2.
    destruct (getOrCreateAccount (as_to e) s1) as [s2 a2]; simpl in Hwf2.
    auto with wf.
  - unfold handleTransfer. auto with wf.
  - unfold handlePunkTransfer.
    pose proof (wfStore_getOrCreateAccount (pt_from e) s Hwf) as Hwf1.
    destruct (getOrCreateAccount (pt_from e) s) as [s1 a1]; simpl in Hwf1.
    pose proof (wfStore_getOrCreateAccount (pt_to e) s1 Hwf1) as Hwf2.
    destruct (getOrCreateAccount (pt_to e) s1) as [s2 a2]; simpl in Hwf2.
    destruct (getOrCreatePunk (pretty (pt_punkIndex e)) s2) as [s3 p] eqn:Hp.
    pose proof (getOrCreatePunk_wf _ _ _ _ Hwf2 Hp) as Hwf3.
    set (s4 := Punk_save _ s3). assert (wfStore s4) as Hwf4 by (subst s4; auto with wf).
    clearbody s4.
    destruct (Bid_load s4 (pretty (pt_punkIndex e))) as [b|].
    + pose proof (wfStore_getOrCreateAccount (bid_fromAccount b) s4 Hwf4) as Hwf5.
      destruct (getOrCreateAccount (bid_fromAccount b) s4) as [s5 a5]; simpl in Hwf5.
      auto 10 with wf.
    + auto 10 with wf.
  - unfold handlePunkOffered.
    pose proof (wfStore_getOrCreateAccount (tx_from (po_event e)) s Hwf) as Hwf1.
    destruct (getOrCreateAccount (tx_from (po_event e)) s) as [s1 a1]; simpl in Hwf1.
    pose proof (wfStore_getOrCreateAccount (po_toAddress e) s1 Hwf1) as Hwf2.
    destruct (getOrCreateAccount (po_toAddress e) s1) as [s2 a2]; simpl in Hwf2.
    auto with wf.
  - unfold handlePunkBidEntered.
    pose proof (wfStore_getOrCreateAccount (be_fromAddress e) s Hwf) as Hwf1.
    destruct (getOrCreateAccount (be_fromAddress e) s) as [s1 a1]; simpl in Hwf1.
    auto with wf.
  - unfold handlePunkBidWithdrawn.
    pose proof (wfStore_getOrCreateAccount (bw_fromAddress e) s Hwf) as Hwf1.
    destruct (getOrCreateAccount (bw_fromAddress e) s) as [s1 a1]; simpl in Hwf1.
    destruct (Bid_load s1 _); auto with wf.
  - unfold handlePunkBought.
    pose proof (wfStore_getOrCreateAccount (pb_fromAddress e) s Hwf) as Hwf1.
    destruct (getOrCreateAccount (pb_fromAddress e) s) as [s1 a1]; simpl in Hwf1.
    pose proof (wfStore_getOrCreateAccount (pb_toAddress e) s1 Hwf1) as Hwf2.
    destruct (getOrCreateAccount (pb_toAddress e) s1) as [s2 a2]; simpl in Hwf2.
    pose proof (wfStore_resolveBuyer (pretty (pb_punkIndex e)) a2 (pb_value e)
                  (Bid_load s2 (pretty (pb_punkIndex e))) s2 Hwf2) as Hwf3.
    destruct (resolveBuyer _ a2 _ _ s2) as [[s3 a3] v3]; simpl in Hwf3.
    case_match; auto with wf.
  - unfold handlePunkNoLongerForSale.
    pose proof (wfStore_setPunkNoLongerForSale (pretty (nl_punkIndex e)) false s Hwf) as Hwf1.
    destruct (negb _); auto with wf.
Qed.

(** Replaying any stream of events from the empty store gives a well-formed
    store, so the hypothesis [wfStore] of the theorems above holds wherever
    the handlers run. *)
Lemma wfStore_replay (events : list ContractEvent) (s : Store) :
  wfStore s → wfStore (replay events s).
Proof.
  revert s. induction events as [|event events IH]; intros s Hwf; [done|].
  simpl. apply IH. by apply wfStore_dispatch.
Qed.

End Properties.

(** * The properties at work on concrete stores *)

#[local] Hint Resolve wfStore_empty wfStore_Account_save wfStore_Punk_save wfStore_Listing_save
  wfStore_Bid_save wfStore_Event_save wfStore_State_save wfStore_Transfer_save
  wfStore_Listing_remove wfStore_Bid_remove : wf.

Lemma exStoreOwners_wf : wfStore exStoreOwners.
Proof. unfold exStoreOwners. auto 10 with wf. Qed.

Lemma exStoreFloor_wf : wfStore exStoreFloor.
Proof. unfold exStoreFloor. auto 10 with wf. Qed.

Lemma exStoreBid_wf : wfStore exStoreBid.
Proof. unfold exStoreBid. auto 10 with wf. Qed.

Lemma exStoreTop_wf : wfStore exStoreTop.
Proof. unfold exStoreTop. auto 10 with wf. Qed.

Lemma exStoreListed_wf : wfStore exStoreListed.
Proof. unfold exStoreListed. auto 10 with wf. Qed.

(** C3. The offer of punk 7 at 50 to anyone, on a snapshot whose floor is
    100, meets every condition of the fast path -- public, nonzero, below
    the floor -- and [handlePunkOffered] leaves the floor at 100; the same
    offer restricted to one buyer lowers it to 50. *)
Theorem handlePunkOffered_public_offer_keeps_floor :
  po_toAddress exPublicOffer = @ZERO_ADDRESS dayHost
  ∧ po_minValue exPublicOffer ≠ 0
  ∧ floor <$> State_load exStoreFloor "2" = Some 100
  ∧ po_minValue exPublicOffer < 100
  ∧ floor <$> State_load (@handlePunkOffered dayHost exPublicOffer exStoreFloor) "2" = Some 100
  ∧ isPrivate <$> Listing_load (@handlePunkOffered dayHost exPublicOffer exStoreFloor) "7"
    = Some false
  ∧ po_toAddress exPrivateOffer ≠ @ZERO_ADDRESS dayHost
  ∧ floor <$> State_load (@handlePunkOffered dayHost exPrivateOffer exStoreFloor) "2" = Some 50
  ∧ isPrivate <$> Listing_load (@handlePunkOffered dayHost exPrivateOffer exStoreFloor) "7"
    = Some true.
Proof. split_and!; by vm_compute. Qed.

(** A transfer of punk 9 from [0xaa] to [0xcc], who holds punks 1 and 2. *)
Lemma updateOwnership_appends_witness :
  wfStore exStoreOwners
  ∧ heldBy (@updateOwnership dayHost "0x01" 172800 "9" "0xcc" "0xaa" exStoreOwners) "0xcc"
    = ["1"; "2"; "9"].
Proof.
  split; [exact exStoreOwners_wf|].
  destruct (@updateOwnership_appends dayHost "0x01" 172800 "9" "0xcc" "0xaa" exStoreOwners
              exStoreOwners_wf) as (Happ & _).
  rewrite Happ. reflexivity.
Defined.

(** C5, counterexample. [0xbb] holds punk 7; a transfer of punk 7 to [0xbb]
    (from [0xbb] itself, which the market contract allows, or from [0xaa])
    leaves [0xbb] with the id twice in its list. *)
Lemma updateOwnership_duplicates :
  "7" ∈ heldBy exStoreOwners "0xbb"
  ∧ heldBy (@updateOwnership dayHost "0x01" 172800 "7" "0xbb" "0xbb" exStoreOwners) "0xbb"
    = ["7"; "7"]
  ∧ occurrences "7"
      (heldBy (@updateOwnership dayHost "0x01" 172800 "7" "0xbb" "0xbb" exStoreOwners) "0xbb")
    ≠ 1%nat
  ∧ occurrences "7"
      (heldBy (@updateOwnership dayHost "0x01" 172800 "7" "0xbb" "0xaa" exStoreOwners) "0xbb")
    ≠ 1%nat.
Proof.
  split_and!.
  - vm_compute. apply list_elem_of_here.
  - by vm_compute.
  - by vm_compute.
  - by vm_compute.
Qed.

(** [0xaa] holds punk 5 only and transfers it to the new account [0xdd]: the
    owner count stays at three. *)
Lemma updateOwnership_owners_witness :
  wfStore exStoreOwners
  ∧ ∃ st', State_load (@updateOwnership dayHost "0x01" 172800 "5" "0xdd" "0xaa" exStoreOwners)
                      "2" = Some st'
      ∧ owners st' = 3.
Proof.
  split; [exact exStoreOwners_wf|].
  destruct (@updateOwnership_owners dayHost "0x01" 172800 "5" "0xdd" "0xaa" exStoreOwners
              exStoreOwners_wf) as (st' & Hload & Howners & _).
  exists st'. split; [exact Hload|]. rewrite Howners. reflexivity.
Defined.

(** C6, counterexample. [0xaa] holds punk 5 only; a transfer of punk 9 from
    [0xaa] to [0xcc] removes nothing from the list of [0xaa], which still
    holds punk 5 afterwards, and the owner count drops from three to two. *)
Lemma updateOwnership_decrements_without_emptying :
  owners <$> State_load exStoreOwners "2" = Some 3
  ∧ heldBy exStoreOwners "0xaa" = ["5"]
  ∧ removeId "9" (heldBy exStoreOwners "0xaa") ≠ []
  ∧ heldBy (@updateOwnership dayHost "0x01" 172800 "9" "0xcc" "0xaa" exStoreOwners) "0xaa"
    = ["5"]
  ∧ owners <$> State_load (@updateOwnership dayHost "0x01" 172800 "9" "0xcc" "0xaa"
                                            exStoreOwners) "2"
    = Some 2.
Proof. split_and!; by vm_compute. Qed.

(** The zero-buyer sale of punk 3, which has a bid of 50 by [0xbb]. *)
Lemma handlePunkBought_zero_buyer_witness :
  wfStore exStoreBid
  ∧ pb_toAddress exBoughtZeroBuyer = @ZERO_ADDRESS dayHost
  ∧ Bid_load exStoreBid "3" = Some (mkBid "3" "3" 50 None "0xbb" 1 1 "0x02")
  ∧ Bid_load (@handlePunkBought dayHost exBoughtZeroBuyer exStoreBid) "3" = None
  ∧ Listing_load (@handlePunkBought dayHost exBoughtZeroBuyer exStoreBid) "3" = None
  ∧ ∃ st', State_load (@handlePunkBought dayHost exBoughtZeroBuyer exStoreBid) "2" = Some st'
      ∧ sales st' = 3 ∧ volume st' = 80.
Proof.
  assert (Bid_load exStoreBid "3" = Some (mkBid "3" "3" 50 None "0xbb" 1 1 "0x02")) as Hbid
    by reflexivity.
  destruct (@handlePunkBought_zero_buyer dayHost exBoughtZeroBuyer exStoreBid _
              exStoreBid_wf eq_refl Hbid)
    as (_ & _ & Hnobid & Hnolisting & _ & st' & Hload & Hsales & Hvolume).
  split_and!; [exact exStoreBid_wf|reflexivity|exact Hbid|exact Hnobid|exact Hnolisting|].
  exists st'. split_and!; [exact Hload|rewrite Hsales; reflexivity|rewrite Hvolume; reflexivity].
Defined.

(** The zero-value purchase of punk 9, which has no bid. *)
Lemma handlePunkBought_zero_value_no_bid_witness :
  wfStore exStoreBid
  ∧ pb_value exBoughtZeroValue = 0
  ∧ Bid_load exStoreBid "9" = None
  ∧ eventStore (@handlePunkBought dayHost exBoughtZeroValue exStoreBid) = eventStore exStoreBid
  ∧ ∃ st', State_load (@handlePunkBought dayHost exBoughtZeroValue exStoreBid) "2" = Some st'
      ∧ sales st' = 2 ∧ volume st' = 30 ∧ topSale st' = None ∧ activeListings st' = ["3"]
      ∧ floor st' = 0.
Proof.
  destruct (@handlePunkBought_zero_value_no_bid dayHost exBoughtZeroValue exStoreBid
              exStoreBid_wf eq_refl eq_refl)
    as (Hevents & st' & Hload & _ & _ & _ & _ & _ & _ & Hsame).
  destruct (Hsame _ eq_refl) as (Hsales & Hvolume & Htop & Hactive & Hfloor).
  split_and!; [exact exStoreBid_wf|reflexivity|reflexivity|exact Hevents|].
  exists st'. split_and!; [exact Hload|..].
  - rewrite Hsales. reflexivity.
  - rewrite Hvolume. reflexivity.
  - rewrite Htop. reflexivity.
  - rewrite Hactive. reflexivity.
  - rewrite Hfloor. reflexivity.
Defined.

Lemma exStoreDay1_wf : wfStore exStoreDay1.
Proof. apply wfStore_replay, wfStore_empty. Qed.

(** The same purchase on a store where day 2 has no snapshot: the five
    listings of day 1 are carried over, [getOrCreateState] gives the bucket
    the floor 5 (the listing of punk 9) before the event, and the handler,
    which deletes that listing before the snapshot is created, stores the
    floor 60 while punk 9 stays among the active listings. *)
Lemma handlePunkBought_zero_value_moves_floor :
  wfStore exStoreDay1
  ∧ pb_value exBoughtZeroValue = 0
  ∧ Bid_load exStoreDay1 "9" = None
  ∧ State_load exStoreDay1 "2" = None
  ∧ floor (@getOrCreateState dayHost exStoreDay1 172800) = 5
  ∧ floor <$> State_load (@handlePunkBought dayHost exBoughtZeroValue exStoreDay1) "2"
    = Some 60
  ∧ activeListings <$> State_load (@handlePunkBought dayHost exBoughtZeroValue exStoreDay1) "2"
    = Some ["1"; "2"; "3"; "4"; "9"]
  ∧ eventStore (@handlePunkBought dayHost exBoughtZeroValue exStoreDay1)
    = eventStore exStoreDay1.
Proof. split_and!; [exact exStoreDay1_wf|by vm_compute..]. Qed.

(** The top bid and the top sale of day 2 are worth 100; a bid and a sale of
    exactly 100 leave both references where they are. *)
Lemma top_rank_update_witness :
  wfStore exStoreTop
  ∧ @resolvedValue dayHost (exSale 100) exStoreTop ≠ 0
  ∧ (∃ st', State_load (@handlePunkBidEntered dayHost (exBid 100) exStoreTop) "2" = Some st'
       ∧ topBid st' = Some "0x0a-0")
  ∧ (∃ st', State_load (@handlePunkBought dayHost (exSale 100) exStoreTop) "2" = Some st'
       ∧ topSale st' = Some "0x0b-0").
Proof.
  assert (@resolvedValue dayHost (exSale 100) exStoreTop ≠ 0) as Hrec by (by vm_compute).
  destruct (@top_rank_update dayHost (exBid 100) (exSale 100) exStoreTop exStoreTop_wf
              (or_intror Hrec))
    as ((stb & Hloadb & Htopb) & (sts & Hloads & Htops) & _).
  split_and!; [exact exStoreTop_wf|exact Hrec| |].
  - exists stb. split; [exact Hloadb|]. rewrite Htopb. reflexivity.
  - exists sts. split; [exact Hloads|]. rewrite Htops. reflexivity.
Defined.

(** A bid, and a sale, of 101 take the top; one of 99 does not; and on a
    snapshot without tops the first bid and the first sale take it. *)
Example top_rank_examples :
  topBid <$> State_load (@handlePunkBidEntered dayHost (exBid 101) exStoreTop) "2"
  = Some (Some "0x0c-2")
  ∧ topBid <$> State_load (@handlePunkBidEntered dayHost (exBid 99) exStoreTop) "2"
    = Some (Some "0x0a-0")
  ∧ topSale <$> State_load (@handlePunkBought dayHost (exSale 101) exStoreTop) "2"
    = Some (Some "0x0d-3")
  ∧ topSale <$> State_load (@handlePunkBought dayHost (exSale 99) exStoreTop) "2"
    = Some (Some "0x0b-0")
  ∧ topBid <$> State_load (@handlePunkBidEntered dayHost (exBid 1) exStoreFloor) "2"
    = Some (Some "0x0c-2")
  ∧ topSale <$> State_load (@handlePunkBought dayHost (exSale 1) exStoreFloor) "2"
    = Some (Some "0x0d-3").
Proof. split_and!; by vm_compute. Qed.


(** The same event after a raw Transfer in the same transaction logs nothing
    and counts no delisting; without the Transfer it logs OfferWithdrawn. *)
Example handlePunkNoLongerForSale_examples :
  eventStore (@handlePunkNoLongerForSale dayHost exNoLongerForSale
                (handleTransfer exTransfer exStoreListed)) = ∅
  ∧ delistings <$> State_load (@handlePunkNoLongerForSale dayHost exNoLongerForSale
                                 (handleTransfer exTransfer exStoreListed)) "2" = Some 0
  ∧ activeListings <$> State_load (@handlePunkNoLongerForSale dayHost exNoLongerForSale
                                     (handleTransfer exTransfer exStoreListed)) "2" = Some []
  ∧ event_type <$> Event_load (@handlePunkNoLongerForSale dayHost exNoLongerForSale
                                 exStoreListed) "0x0f-0" = Some "OfferWithdrawn"
  ∧ delistings <$> State_load (@handlePunkNoLongerForSale dayHost exNoLongerForSale
                                 exStoreListed) "2" = Some 1.
Proof. split_and!; by vm_compute. Qed.

(** Punk 7 is offered again while it is an active listing of day 2. *)
Lemma handlePunkOffered_duplicates_witness :
  wfStore exStoreListed
  ∧ "7" ∈ activeListings (@getOrCreateState dayHost exStoreListed 172800)
  ∧ ∃ st', State_load (@handlePunkOffered dayHost (exOffer 1) exStoreListed) "2" = Some st'
      ∧ activeListings st' = ["7"; "7"].
Proof.
  assert ("7" ∈ activeListings (@getOrCreateState dayHost exStoreListed 172800)) as Hin.
  { vm_compute. apply list_elem_of_here. }
  destruct (@handlePunkOffered_duplicates dayHost (exOffer 1) exStoreListed exStoreListed_wf Hin)
    as ((st' & Hload & Hactive & _) & _).
  split_and!; [exact exStoreListed_wf|exact Hin|].
  exists st'. split; [exact Hload|]. rewrite Hactive. reflexivity.
Defined.

(** Four more offers of punk 7 make five entries for one listed asset; the
    next recomputation (here after punk 9 is taken off sale) scans them and
    sets the floor to 100, where day 1 closed with floor 7. *)
Example floor_threshold_counts_duplicates :
  let s := foldr (λ i, @handlePunkOffered dayHost (exOffer i)) exStoreListed [1; 2; 3; 4] in
  activeListings <$> State_load s "2" = Some ["7"; "7"; "7"; "7"; "7"]
  ∧ floor <$> State_load s "2" = Some 7
  ∧ floor <$> State_load (@handlePunkNoLongerForSale dayHost
                            (mkPunkNoLongerForSaleEvent (exEvent "0x11" 0 172800) 9) s) "2"
    = Some 100.
Proof. split_and!; by vm_compute. Qed.

(** A transfer of punk 7 by [0xbb] to itself through [handlePunkTransfer]:
    the id is held twice afterwards, and the owner count has gone from three
    to two although [0xbb] still holds the punk. *)
Example handlePunkTransfer_to_self :
  heldBy (@handlePunkTransfer dayHost
            (mkPunkTransferEvent (exEvent "0x10" 0 172800) "0xbb" "0xbb" 7) exStoreOwners) "0xbb"
  = ["7"; "7"]
  ∧ owners <$> State_load (@handlePunkTransfer dayHost
                             (mkPunkTransferEvent (exEvent "0x10" 0 172800) "0xbb" "0xbb" 7)
                             exStoreOwners) "2"
    = Some 2.
Proof. split_and!; by vm_compute. Qed.

(** * Further properties of the helpers *)

(** ** [hexToDecimal] *)

Lemma indexOfChar_range (c : ascii) (s : string) (i : Z) :
  indexOfChar c s i = -1 ∨ i ≤ indexOfChar c s i < i + Z.of_nat (String.length s).
Proof.
  revert i. induction s as [|d r IH]; intros i; simpl; [by left|].
  case_bool_decide; [right; lia|].
  destruct (IH (i + 1)) as [->|Hr]; [by left|right; lia].
Qed.

Lemma chars_length (s : string) : length (chars s) = String.length s.
Proof. induction s as [|? ? IH]; simpl; [done|by rewrite IH]. Qed.

Lemma hexLoop_value (s : string) (decimal : Z) :
  hexLoop s decimal
  = decimal * 16 ^ Z.of_nat (String.length s)
    + hexValue ((λ c, indexOfChar c hexDigits 0) <$> chars s).
Proof.
  revert decimal. induction s as [|c r IH]; intros decimal; cbn [hexLoop].
  - simpl. lia.
  - rewrite IH. cbn [String.length chars fmap list_fmap hexValue].
    rewrite length_fmap, chars_length, Nat2Z.inj_succ, Z.pow_succ_r by lia. ring.
Qed.

Lemma toLowerCase_app (s1 s2 : string) :
  toLowerCase (s1 +:+ s2) = toLowerCase s1 +:+ toLowerCase s2.
Proof. induction s1 as [|c r IH]; simpl; [done|by rewrite IH]. Qed.

Lemma chars_toLowerCase (s : string) : chars (toLowerCase s) = lowerAscii <$> chars s.
Proof. induction s as [|c r IH]; simpl; [done|by rewrite IH]. Qed.

Lemma chars_app (s1 s2 : string) : chars (s1 +:+ s2) = chars s1 ++ chars s2.
Proof. induction s1 as [|c r IH]; simpl; [done|by rewrite IH]. Qed.

Lemma hexValue_snoc (ds : list Z) (d : Z) : hexValue (ds ++ [d]) = 16 * hexValue ds + d.
Proof.
  induction ds as [|x ds IH]; simpl; [lia|].
  rewrite IH, length_app. simpl length.
  replace (Z.of_nat (length ds + 1)) with (Z.succ (Z.of_nat (length ds))) by lia.
  rewrite Z.pow_succ_r by lia. lia.
Qed.

Lemma hexValue_bounds (ds : list Z) :
  Forall (λ d, 0 ≤ d < 16) ds → 0 ≤ hexValue ds < 16 ^ Z.of_nat (length ds).
Proof.
  induction 1 as [|d ds Hd _ IH]; simpl hexValue; simpl length; [simpl; lia|].
  rewrite Nat2Z.inj_succ, Z.pow_succ_r by lia.
  assert (0 < 16 ^ Z.of_nat (length ds)) by (apply Z.pow_pos_nonneg; lia). nia.
Qed.

(** What [hexToDecimal] reads after a [0x] or [0X] prefix. *)
Lemma hexToDecimal_prefixed (b : string) :
  hexToDecimal ("0x" +:+ b)
  = hexValue ((λ c, indexOfChar (lowerAscii c) hexDigits 0) <$> chars b)
  ∧ hexToDecimal ("0X" +:+ b) = hexToDecimal ("0x" +:+ b).
Proof.
  assert (∀ p, p = "0x" ∨ p = "0X" →
               toLowerCase (p +:+ b) = String "0" (String "x" (toLowerCase b))) as Hlow.
  { by intros p [->| ->]. }
  assert (∀ r, String.prefix "0x" (String "0" (String "x" r)) = true) as Hprefix.
  { by intros []. }
  unfold hexToDecimal. rewrite !Hlow, Hprefix by auto. split; [|done].
  cbn [dropChars]. rewrite hexLoop_value, chars_toLowerCase, <- list_fmap_compose.
  simpl. done.
Qed.

Lemma hexDigit_index_range (c : ascii) :
  isHexDigit c → 0 ≤ indexOfChar (lowerAscii c) hexDigits 0 < 16.
Proof.
  unfold isHexDigit. intros Hc.
  destruct (indexOfChar_range (lowerAscii c) hexDigits 0) as [Hm|Hr]; [lia|].
  change (Z.of_nat (String.length hexDigits)) with 16 in Hr. lia.
Qed.

Lemma indexOfChar_inj (c d : ascii) (s : string) (i : Z) :
  indexOfChar c s i = indexOfChar d s i → indexOfChar c s i ≠ -1 → c = d.
Proof.
  revert i. induction s as [|x r IH]; intros i; simpl; [done|].
  repeat case_bool_decide; subst; try done.
  - intros Heq Hne. destruct (indexOfChar_range d r (i + 1)); lia.
  - intros Heq Hne. destruct (indexOfChar_range c r (i + 1)); lia.
  - apply IH.
Qed.

Lemma hexValue_inj (ds1 ds2 : list Z) :
  length ds1 = length ds2 →
  Forall (λ d, 0 ≤ d < 16) ds1 → Forall (λ d, 0 ≤ d < 16) ds2 →
  hexValue ds1 = hexValue ds2 → ds1 = ds2.
Proof.
  revert ds2. induction ds1 as [|d1 ds1 IH]; intros [|d2 ds2] Hlen H1 H2 Hv; try done.
  apply Forall_cons in H1 as [Hd1 H1]. apply Forall_cons in H2 as [Hd2 H2].
  simpl in Hlen, Hv. injection Hlen as Hlen. rewrite Hlen in Hv.
  pose proof (hexValue_bounds ds1 H1) as Hb1. pose proof (hexValue_bounds ds2 H2) as Hb2.
  rewrite Hlen in Hb1.
  assert (d1 = d2) as -> by nia.
  f_equal. apply IH; [done|done|done|lia].
Qed.

Lemma chars_inj (s1 s2 : string) : chars s1 = chars s2 → s1 = s2.
Proof.
  revert s2. induction s1 as [|c r IH]; intros [|d r']; simpl; try done.
  intros [= -> Hr]. f_equal. by apply IH.
Qed.

Lemma hexDigits_of_string (b : string) :
  Forall isHexDigit (chars b) →
  Forall (λ d, 0 ≤ d < 16) ((λ c, indexOfChar (lowerAscii c) hexDigits 0) <$> chars b).
Proof.
  intros Hb. apply Forall_fmap. eapply Forall_impl; [exact Hb|].
  intros c Hc. by apply hexDigit_index_range.
Qed.

(** X1. [hexToDecimal] reads a string as a big-endian base-16 numeral: after
    a [0x] or [0X] prefix, or for a string without one, the result is the
    positional value of the characters' indices in [0123456789abcdef], the
    characters taken in lower case. *)
Theorem hexToDecimal_positional (b : string) :
  hexToDecimal ("0x" +:+ b)
  = hexValue ((λ c, indexOfChar (lowerAscii c) hexDigits 0) <$> chars b)
  ∧ hexToDecimal ("0X" +:+ b)
    = hexValue ((λ c, indexOfChar (lowerAscii c) hexDigits 0) <$> chars b)
  ∧ (String.prefix "0x" (toLowerCase b) = false →
     hexToDecimal b = hexValue ((λ c, indexOfChar (lowerAscii c) hexDigits 0) <$> chars b)).
Proof.
  destruct (hexToDecimal_prefixed b) as [Hx HX]. split_and!; [done|congruence|].
  intros Hno. unfold hexToDecimal. rewrite Hno. cbn [dropChars].
  rewrite hexLoop_value, chars_toLowerCase, <- list_fmap_compose. simpl. done.
Qed.

(** X2. On [0x] followed by hexadecimal digits only, in either case,
    [hexToDecimal] gives a number from 0 up to, and not including, 16 to the
    number of digits; the empty digit string gives 0. *)
Theorem hexToDecimal_bounds (b : string) :
  Forall isHexDigit (chars b) →
  0 ≤ hexToDecimal ("0x" +:+ b) < 16 ^ Z.of_nat (String.length b).
Proof.
  intros Hb. destruct (hexToDecimal_prefixed b) as [-> _].
  pose proof (hexValue_bounds _ (hexDigits_of_string b Hb)) as Hbound.
  by rewrite length_fmap, chars_length in Hbound.
Qed.

(** X3. [hexToDecimal] rejects nothing: one more character multiplies the
    value read so far by 16 and adds the character's index, and a character
    that is no hexadecimal digit has index -1, so malformed input gives a
    wrong, possibly negative, number instead of a failure. *)
Theorem hexToDecimal_next_character (b : string) (c : ascii) :
  hexToDecimal ("0x" +:+ b +:+ String c "")
  = 16 * hexToDecimal ("0x" +:+ b) + indexOfChar (lowerAscii c) hexDigits 0
  ∧ (¬ isHexDigit c →
     hexToDecimal ("0x" +:+ b +:+ String c "") = 16 * hexToDecimal ("0x" +:+ b) - 1).
Proof.
  assert (hexToDecimal ("0x" +:+ b +:+ String c "")
          = 16 * hexToDecimal ("0x" +:+ b) + indexOfChar (lowerAscii c) hexDigits 0) as Hsnoc.
  { destruct (hexToDecimal_prefixed (b +:+ String c "")) as [-> _].
    destruct (hexToDecimal_prefixed b) as [-> _].
    rewrite chars_app, fmap_app. cbn [chars fmap list_fmap]. by rewrite hexValue_snoc. }
  split; [done|]. intros Hc. rewrite Hsnoc. unfold isHexDigit in Hc.
  destruct (indexOfChar_range (lowerAscii c) hexDigits 0) as [->|?]; lia.
Qed.

(** X4. [hexToDecimal] tells numerals apart: two strings of hexadecimal
    digits of the same length, each after [0x], that give the same number
    are the same string up to the case of the letters. *)
Theorem hexToDecimal_injective (b1 b2 : string) :
  Forall isHexDigit (chars b1) → Forall isHexDigit (chars b2) →
  String.length b1 = String.length b2 →
  hexToDecimal ("0x" +:+ b1) = hexToDecimal ("0x" +:+ b2) →
  toLowerCase b1 = toLowerCase b2.
Proof.
  intros H1 H2 Hlen Hv.
  destruct (hexToDecimal_prefixed b1) as [Hv1 _].
  destruct (hexToDecimal_prefixed b2) as [Hv2 _].
  rewrite Hv1, Hv2 in Hv.
  apply hexValue_inj in Hv; [|by rewrite !length_fmap, !chars_length
                             |by apply hexDigits_of_string..].
  apply chars_inj. rewrite !chars_toLowerCase.
  revert Hv H1. clear. generalize (chars b1) (chars b2).
  induction l as [|c1 l1 IH]; intros [|c2 l2]; simpl; try done.
  intros [= Hc Hl] [Hc1 Hl1]%Forall_cons. f_equal; [|by apply IH].
  apply (indexOfChar_inj _ _ hexDigits 0 Hc). unfold isHexDigit in Hc1. lia.
Qed.

(** ** Event ids *)

Lemma string_app_inj_length (s1 s2 t1 t2 : string) :
  String.length s1 = String.length s2 → s1 +:+ t1 = s2 +:+ t2 → s1 = s2 ∧ t1 = t2.
Proof.
  revert s2. induction s1 as [|c r IH]; intros [|d r'] Hlen Heq; simpl in *; try done.
  injection Hlen as Hlen. injection Heq as -> Heq.
  destruct (IH r' Hlen Heq) as [-> ->]. done.
Qed.

(** X5. Event ids are unique: two events whose transaction hashes have the
    same length (as the hex strings of 32-byte hashes do) and whose global
    ids coincide have the same transaction hash and the same log index. *)
Theorem getGlobalId_injective (ev1 ev2 : EthEvent) :
  String.length (tx_hash ev1) = String.length (tx_hash ev2) →
  getGlobalId ev1 = getGlobalId ev2 →
  tx_hash ev1 = tx_hash ev2 ∧ logIndex ev1 = logIndex ev2.
Proof.
  unfold getGlobalId. intros Hlen Heq.
  apply string_app_inj_length in Heq as [Hhash Hrest]; [|done].
  split; [done|]. simpl in Hrest. injection Hrest as Hrest. by apply (inj pretty).
Qed.

(** * Further properties of the mappings *)

Create HintDb keeps.
Create HintDb owners.

Section Mappings.
Context `{Host}.

(** ** What is never deleted *)

Lemma keeps_refl (s : Store) : keeps s s.
Proof. by repeat split. Qed.

Lemma keeps_trans (s1 s2 s3 : Store) : keeps s1 s2 → keeps s2 s3 → keeps s1 s3.
Proof.
  intros (?&?&?&?&?) (?&?&?&?&?). repeat split; etrans; done.
Qed.

Lemma keeps_Account_save (a : Account) (s s' : Store) :
  keeps s s' → keeps s (Account_save a s').
Proof.
  intros Hk. apply (keeps_trans _ s'); [done|].
  repeat split; simpl; try done. apply dom_insert_subseteq.
Qed.

Lemma keeps_Punk_save (p : Punk) (s s' : Store) : keeps s s' → keeps s (Punk_save p s').
Proof.
  intros Hk. apply (keeps_trans _ s'); [done|].
  repeat split; simpl; try done. apply dom_insert_subseteq.
Qed.

Lemma keeps_Listing_save (l : Listing) (s s' : Store) :
  keeps s s' → keeps s (Listing_save l s').
Proof. intros Hk. apply (keeps_trans _ s'); [done|]. by repeat split. Qed.

Lemma keeps_Bid_save (b : Bid) (s s' : Store) : keeps s s' → keeps s (Bid_save b s').
Proof. intros Hk. apply (keeps_trans _ s'); [done|]. by repeat split. Qed.

Lemma keeps_Event_save (e : Event) (s s' : Store) : keeps s s' → keeps s (Event_save e s').
Proof.
  intros Hk. apply (keeps_trans _ s'); [done|].
  repeat split; simpl; try done. apply dom_insert_subseteq.
Qed.

Lemma keeps_State_save (st : State) (s s' : Store) : keeps s s' → keeps s (State_save st s').
Proof.
  intros Hk. apply (keeps_trans _ s'); [done|].
  repeat split; simpl; try done. apply dom_insert_subseteq.
Qed.

Lemma keeps_Transfer_save (t : Transfer) (s s' : Store) :
  keeps s s' → keeps s (Transfer_save t s').
Proof.
  intros Hk. apply (keeps_trans _ s'); [done|].
  repeat split; simpl; try done. apply dom_insert_subseteq.
Qed.

Lemma keeps_Listing_remove (id : string) (s s' : Store) :
  keeps s s' → keeps s (Listing_remove id s').
Proof. intros Hk. apply (keeps_trans _ s'); [done|]. by repeat split. Qed.

Lemma keeps_Bid_remove (id : string) (s s' : Store) : keeps s s' → keeps s (Bid_remove id s').
Proof. intros Hk. apply (keeps_trans _ s'); [done|]. by repeat split. Qed.

#[local] Hint Resolve keeps_refl keeps_Account_save keeps_Punk_save keeps_Listing_save
  keeps_Bid_save keeps_Event_save keeps_State_save keeps_Transfer_save keeps_Listing_remove
  keeps_Bid_remove : keeps.

Lemma keeps_getOrCreateAccount (id : string) (s s' : Store) :
  keeps s s' → keeps s (getOrCreateAccount id s').1.
Proof.
  intros Hk. unfold getOrCreateAccount. destruct (Account_load s' id); simpl; auto with keeps.
Qed.

Lemma keeps_getOrCreatePunk (id : string) (s s' : Store) :
  keeps s s' → keeps s (getOrCreatePunk id s').1.
Proof.
  intros Hk. unfold getOrCreatePunk. destruct (Punk_load s' id); simpl; auto with keeps.
Qed.

Lemma keeps_setPunkNoLongerForSale (punkId : string) (removeBid : bool) (s s' : Store) :
  keeps s s' → keeps s (setPunkNoLongerForSale punkId removeBid s').
Proof.
  intros Hk. unfold setPunkNoLongerForSale.
  destruct (Listing_load s' punkId), removeBid; try case_match; auto with keeps.
Qed.

Lemma keeps_updateOwnership (tx : string) (ts : Z) (punkId to from : string) (s s' : Store) :
  keeps s s' → keeps s (updateOwnership tx ts punkId to from s').
Proof.
  intros Hk. unfold updateOwnership.
  pose proof (keeps_getOrCreateAccount to s s' Hk) as Hk1.
  destruct (getOrCreateAccount to s') as [s1 a1]; simpl in Hk1.
  pose proof (keeps_getOrCreateAccount from s s1 Hk1) as Hk2.
  destruct (getOrCreateAccount from s1) as [s2 a2]; simpl in Hk2.
  match goal with
  | |- keeps s (let '(_, _) := getOrCreatePunk ?p ?sx in _) =>
      assert (keeps s sx) as Hk3 by auto with keeps;
      pose proof (keeps_getOrCreatePunk p s sx Hk3) as Hk4;
      destruct (getOrCreatePunk p sx) as [s4 p4]; simpl in Hk4
  end.
  auto with keeps.
Qed.

Lemma keeps_resolveBuyer (punkId : string) (a : Account) (v : Z) (bid : option Bid)
    (s s' : Store) :
  keeps s s' → keeps s (resolveBuyer punkId a v bid s').1.1.
Proof.
  intros Hk. unfold resolveBuyer. case_bool_decide.
  - destruct bid as [b|]; simpl.
    + pose proof (keeps_getOrCreateAccount (bid_fromAccount b) s s' Hk) as Hk1.
      destruct (getOrCreateAccount (bid_fromAccount b) s') as [s1 a1]; simpl in *.
      by apply keeps_setPunkNoLongerForSale.
    + by apply keeps_setPunkNoLongerForSale.
  - case_match; simpl; by apply keeps_setPunkNoLongerForSale.
Qed.

#[local] Hint Resolve keeps_setPunkNoLongerForSale keeps_updateOwnership : keeps.

Lemma keeps_dispatch (event : ContractEvent) (s s' : Store) :
  keeps s s' → keeps s (dispatch event s').
Proof.
  intros Hk. destruct event as [e|e|e|e|e|e|e|e]; simpl.
  - unfold handleAssign.
    pose proof (keeps_getOrCreateAccount ZERO_ADDRESS s s' Hk) as Hk1.
    destruct (getOrCreateAccount ZERO_ADDRESS s') as [s1 a1]; simpl in Hk1.
    pose proof (keeps_getOrCreateAccount (as_to e) s s1 Hk1) as Hk2.
    destruct (getOrCreateAccount (as_to e) s1) as [s2 a2]; simpl in Hk2.
    auto with keeps.
  - unfold handleTransfer. auto with keeps.
  - unfold handlePunkTransfer.
    pose proof (keeps_getOrCreateAccount (pt_from e) s s' Hk) as Hk1.
    destruct (getOrCreateAccount (pt_from e) s') as [s1 a1]; simpl in Hk1.
    pose proof (keeps_getOrCreateAccount (pt_to e) s s1 Hk1) as Hk2.
    destruct (getOrCreateAccount (pt_to e) s1) as [s2 a2]; simpl in Hk2.
    pose proof (keeps_getOrCreatePunk (pretty (pt_punkIndex e)) s s2 Hk2) as Hk3.
    destruct (getOrCreatePunk (pretty (pt_punkIndex e)) s2) as [s3 p]; simpl in Hk3.
    set (s4 := Punk_save _ s3). assert (keeps s s4) as Hk4 by (subst s4; auto with keeps).
    clearbody s4.
    destruct (Bid_load s4 (pretty (pt_punkIndex e))) as [b|].
    + pose proof (keeps_getOrCreateAccount (bid_fromAccount b) s s4 Hk4) as Hk5.
      destruct (getOrCreateAccount (bid_fromAccount b) s4) as [s5 a5]; simpl in Hk5.
      auto 10 with keeps.
    + auto 10 with keeps.
  - unfold handlePunkOffered.
    pose proof (keeps_getOrCreateAccount (tx_from (po_event e)) s s' Hk) as Hk1.
    destruct (getOrCreateAccount (tx_from (po_event e)) s') as [s1 a1]; simpl in Hk1.
    pose proof (keeps_getOrCreateAccount (po_toAddress e) s s1 Hk1) as Hk2.
    destruct (getOrCreateAccount (po_toAddress e) s1) as [s2 a2]; simpl in Hk2.
    auto with keeps.
  - unfold handlePunkBidEntered.
    pose proof (keeps_getOrCreateAccount (be_fromAddress e) s s' Hk) as Hk1.
    destruct (getOrCreateAccount (be_fromAddress e) s') as [s1 a1]; simpl in Hk1.
    auto with keeps.
  - unfold handlePunkBidWithdrawn.
    pose proof (keeps_getOrCreateAccount (bw_fromAddress e) s s' Hk) as Hk1.
    destruct (getOrCreateAccount (bw_fromAddress e) s') as [s1 a1]; simpl in Hk1.
    destruct (Bid_load s1 _); auto with keeps.
  - unfold handlePunkBought.
    pose proof (keeps_getOrCreateAccount (pb_fromAddress e) s s' Hk) as Hk1.
    destruct (getOrCreateAccount (pb_fromAddress e) s') as [s1 a1]; simpl in Hk1.
    pose proof (keeps_getOrCreateAccount (pb_toAddress e) s s1 Hk1) as Hk2.
    destruct (getOrCreateAccount (pb_toAddress e) s1) as [s2 a2]; simpl in Hk2.
    pose proof (keeps_resolveBuyer (pretty (pb_punkIndex e)) a2 (pb_value e)
                  (Bid_load s2 (pretty (pb_punkIndex e))) s s2 Hk2) as Hk3.
    destruct (resolveBuyer _ a2 _ _ s2) as [[s3 a3] v3]; simpl in Hk3.
    case_match; auto with keeps.
  - unfold handlePunkNoLongerForSale.
    destruct (negb _); auto with keeps.
Qed.

Lemma keeps_replay (events : list ContractEvent) (s s' : Store) :
  keeps s s' → keeps s (replay events s').
Proof.
  revert s'. induction events as [|event events IH]; intros s' Hk; [done|].
  simpl. apply IH. by apply keeps_dispatch.
Qed.

(** X6. The mappings delete listings and bids only: whatever events are
    replayed, every account, punk, logged event, snapshot and transfer of
    the store is still stored under its id afterwards. *)
Theorem replay_never_deletes (events : list ContractEvent) (s : Store) (k : string) :
  (is_Some (Account_load s k) → is_Some (Account_load (replay events s) k))
  ∧ (is_Some (Punk_load s k) → is_Some (Punk_load (replay events s) k))
  ∧ (is_Some (Event_load s k) → is_Some (Event_load (replay events s) k))
  ∧ (is_Some (State_load s k) → is_Some (State_load (replay events s) k))
  ∧ (is_Some (Transfer_load s k) → is_Some (Transfer_load (replay events s) k)).
Proof.
  destruct (keeps_replay events s s (keeps_refl s)) as (Ha & Hp & He & Hs & Ht).
  unfold Account_load, Punk_load, Event_load, State_load, Transfer_load.
  rewrite <- !elem_of_dom. split_and!; intros Hin; set_solver.
Qed.

(** ** The event log *)

(** [updateOwnership] writes accounts, the punk and the snapshot only. *)
Lemma updateOwnership_frame (tx : string) (ts : Z) (punkId to from : string) (s : Store) :
  listingStore (updateOwnership tx ts punkId to from s) = listingStore s
  ∧ bidStore (updateOwnership tx ts punkId to from s) = bidStore s
  ∧ eventStore (updateOwnership tx ts punkId to from s) = eventStore s
  ∧ transferStore (updateOwnership tx ts punkId to from s) = transferStore s.
Proof.
  unfold updateOwnership.
  destruct (getOrCreateAccount to s) as [s1 a1] eqn:H1.
  destruct (getOrCreateAccount from s1) as [s2 a2] eqn:H2.
  destruct (getOrCreateAccount_frame _ _ _ _ H1) as (_ & Hl1 & Hb1 & He1 & _ & Ht1).
  destruct (getOrCreateAccount_frame _ _ _ _ H2) as (_ & Hl2 & Hb2 & He2 & _ & Ht2).
  match goal with
  | |- context [getOrCreatePunk ?p ?sx] =>
      destruct (getOrCreatePunk p sx) as [s4 p4] eqn:H4;
      destruct (getOrCreatePunk_frame _ _ _ _ H4) as (_ & Hl4 & Hb4 & He4 & _ & Ht4)
  end.
  simpl in *. rewrite Hl4, Hb4, He4, Ht4, Hl2, Hb2, He2, Ht2. done.
Qed.

Lemma resolveBuyer_frame (punkId : string) (a : Account) (v : Z) (bid : option Bid)
    (s : Store) :
  eventStore (resolveBuyer punkId a v bid s).1.1 = eventStore s
  ∧ transferStore (resolveBuyer punkId a v bid s).1.1 = transferStore s
  ∧ stateStore (resolveBuyer punkId a v bid s).1.1 = stateStore s.
Proof.
  unfold resolveBuyer. case_bool_decide.
  - destruct bid as [b|]; simpl.
    + destruct (getOrCreateAccount (bid_fromAccount b) s) as [s1 a1] eqn:H1.
      destruct (getOrCreateAccount_frame _ _ _ _ H1) as (_ & _ & _ & He1 & Hs1 & Ht1).
      destruct (setPunkNoLongerForSale_stores punkId true s1) as (_ & _ & _ & He & Hs & Ht).
      simpl. rewrite He, Hs, Ht. done.
    + by destruct (setPunkNoLongerForSale_stores punkId true s) as (_ & _ & _ & He & Hs & Ht).
  - case_match; simpl.
    + by destruct (setPunkNoLongerForSale_stores punkId true s) as (_ & _ & _ & He & Hs & Ht).
    + by destruct (setPunkNoLongerForSale_stores punkId false s) as (_ & _ & _ & He & Hs & Ht).
Qed.

(** X8. A handler writes at most one entry of the event log, the one under
    the global id of the event it handles: every other logged event is left
    as it was, and a raw Transfer logs nothing at all. *)
Theorem dispatch_event_log (event : ContractEvent) (s : Store) :
  (∀ k, k ≠ getGlobalId (eventMeta event) →
        Event_load (dispatch event s) k = Event_load s k)
  ∧ (∀ e, eventStore (dispatch (RawTransfer e) s) = eventStore s).
Proof.
  split; [|done]. intros k Hk. unfold Event_load.
  destruct event as [e|e|e|e|e|e|e|e]; simpl in *.
  - unfold handleAssign.
    destruct (getOrCreateAccount ZERO_ADDRESS s) as [s1 a1] eqn:H1.
    destruct (getOrCreateAccount (as_to e) s1) as [s2 a2] eqn:H2.
    destruct (getOrCreateAccount_frame _ _ _ _ H1) as (_ & _ & _ & He1 & _).
    destruct (getOrCreateAccount_frame _ _ _ _ H2) as (_ & _ & _ & He2 & _).
    destruct (updateOwnership_frame (tx_hash (as_event e)) (block_timestamp (as_event e))
                (pretty (as_punkIndex e)) (account_id a2) (account_id a1)
                (Event_save (newEvent (as_event e) "Claimed" (as_punkIndex e) ZERO_ADDRESS
                                      (account_id a2) BIGINT_ZERO) s2))
      as (_ & _ & -> & _).
    simpl. rewrite lookup_insert_ne by done. congruence.
  - done.
  - unfold handlePunkTransfer.
    destruct (getOrCreateAccount (pt_from e) s) as [s1 a1] eqn:H1.
    destruct (getOrCreateAccount (pt_to e) s1) as [s2 a2] eqn:H2.
    destruct (getOrCreateAccount_frame _ _ _ _ H1) as (_ & _ & _ & He1 & _).
    destruct (getOrCreateAccount_frame _ _ _ _ H2) as (_ & _ & _ & He2 & _).
    destruct (getOrCreatePunk (pretty (pt_punkIndex e)) s2) as [s3 p] eqn:H3.
    destruct (getOrCreatePunk_frame _ _ _ _ H3) as (_ & _ & _ & He3 & _).
    set (s4 := Punk_save _ s3). assert (eventStore s4 = eventStore s) as He4.
    { subst s4. simpl. congruence. }
    clearbody s4.
    assert (∀ b sx, eventStore ((setPunkNoLongerForSale (pretty (pt_punkIndex e)) b sx))
                    = eventStore sx) as Hset.
    { intros b sx. by destruct (setPunkNoLongerForSale_stores (pretty (pt_punkIndex e)) b sx)
        as (_ & _ & _ & ? & _). }
    destruct (Bid_load s4 (pretty (pt_punkIndex e))) as [b|].
    + destruct (getOrCreateAccount (bid_fromAccount b) s4) as [s5 a5] eqn:H5.
      destruct (getOrCreateAccount_frame _ _ _ _ H5) as (_ & _ & _ & He5 & _).
      match goal with
      | |- eventStore (updateOwnership ?a ?b ?c ?d ?f ?sx) !! _ = _ =>
          destruct (updateOwnership_frame a b c d f sx) as (_ & _ & -> & _)
      end.
      simpl. rewrite lookup_insert_ne by done. rewrite Hset. congruence.
    + match goal with
      | |- eventStore (updateOwnership ?a ?b ?c ?d ?f ?sx) !! _ = _ =>
          destruct (updateOwnership_frame a b c d f sx) as (_ & _ & -> & _)
      end.
      simpl. rewrite lookup_insert_ne by done. rewrite Hset. congruence.
  - unfold handlePunkOffered.
    destruct (getOrCreateAccount (tx_from (po_event e)) s) as [s1 a1] eqn:H1.
    destruct (getOrCreateAccount (po_toAddress e) s1) as [s2 a2] eqn:H2.
    destruct (getOrCreateAccount_frame _ _ _ _ H1) as (_ & _ & _ & He1 & _).
    destruct (getOrCreateAccount_frame _ _ _ _ H2) as (_ & _ & _ & He2 & _).
    simpl. rewrite lookup_insert_ne by done. congruence.
  - unfold handlePunkBidEntered.
    destruct (getOrCreateAccount (be_fromAddress e) s) as [s1 a1] eqn:H1.
    destruct (getOrCreateAccount_frame _ _ _ _ H1) as (_ & _ & _ & He1 & _).
    simpl. rewrite lookup_insert_ne by done. congruence.
  - unfold handlePunkBidWithdrawn.
    destruct (getOrCreateAccount (bw_fromAddress e) s) as [s1 a1] eqn:H1.
    destruct (getOrCreateAccount_frame _ _ _ _ H1) as (_ & _ & _ & He1 & _).
    destruct (Bid_load s1 _); simpl; rewrite lookup_insert_ne by done; congruence.
  - unfold handlePunkBought.
    destruct (getOrCreateAccount (pb_fromAddress e) s) as [s1 a1] eqn:H1.
    destruct (getOrCreateAccount (pb_toAddress e) s1) as [s2 a2] eqn:H2.
    destruct (getOrCreateAccount_frame _ _ _ _ H1) as (_ & _ & _ & He1 & _).
    destruct (getOrCreateAccount_frame _ _ _ _ H2) as (_ & _ & _ & He2 & _).
    destruct (resolveBuyer_frame (pretty (pb_punkIndex e)) a2 (pb_value e)
                (Bid_load s2 (pretty (pb_punkIndex e))) s2) as (He3 & _).
    destruct (resolveBuyer _ a2 _ _ s2) as [[s3 a3] v3]; simpl in He3.
    destruct (updateOwnership_frame (tx_hash (pb_event e)) (block_timestamp (pb_event e))
                (pretty (pb_punkIndex e)) (account_id a3) (account_id a1) s3)
      as (_ & _ & He4 & _).
    case_match; simpl; rewrite ?lookup_insert_ne by done; congruence.
  - unfold handlePunkNoLongerForSale.
    destruct (setPunkNoLongerForSale_stores (pretty (nl_punkIndex e)) false s)
      as (_ & _ & _ & He & _).
    destruct (negb _); simpl; rewrite ?lookup_insert_ne by done; congruence.
Qed.

(** ** Get-or-create and close *)

(** X9. [getOrCreateAccount] never overwrites and is idempotent: an account
    that exists is returned with the store untouched, a missing one is
    created with no punks, the account is stored under the id afterwards,
    other accounts are not touched, and a second call changes nothing. *)
Theorem getOrCreateAccount_idempotent (id : string) (s : Store) :
  (∀ a, Account_load s id = Some a → getOrCreateAccount id s = (s, a))
  ∧ (Account_load s id = None → (getOrCreateAccount id s).2 = mkAccount id [])
  ∧ Account_load (getOrCreateAccount id s).1 id = Some (getOrCreateAccount id s).2
  ∧ (∀ k, k ≠ id → Account_load (getOrCreateAccount id s).1 k = Account_load s k)
  ∧ getOrCreateAccount id (getOrCreateAccount id s).1 = getOrCreateAccount id s.
Proof.
  destruct (getOrCreateAccount id s) as [s1 a1] eqn:H1.
  destruct (getOrCreateAccount_account _ _ _ _ H1) as (Hload & _ & _ & Hother).
  simpl. split_and!; try done.
  - intros a Ha. unfold getOrCreateAccount in H1. rewrite Ha in H1. by injection H1 as <- <-.
  - intros Ha. unfold getOrCreateAccount in H1. rewrite Ha in H1. by injection H1 as <- <-.
  - unfold getOrCreateAccount. by rewrite Hload.
Qed.

(** X10. A transaction has one Transfer entity. [handleTransfer] files the
    event's addresses under the transaction hash and a later raw Transfer of
    the same transaction replaces it (last one wins), while
    [getOrCreateTransfer] keeps a Transfer that is already there (first one
    wins) and creates it from the event only when there is none. *)
Theorem transfer_per_transaction (e1 e2 : TransferEvent) (s : Store) :
  Transfer_load (handleTransfer e1 s) (tx_hash (tr_event e1))
  = Some (mkTransfer (tx_hash (tr_event e1)) (tr_from e1) (tr_to e1)
                     (tx_hash (tr_event e1)) None)
  ∧ (tx_hash (tr_event e1) = tx_hash (tr_event e2) →
     handleTransfer e2 (handleTransfer e1 s) = handleTransfer e2 s)
  ∧ (tx_hash (tr_event e1) = tx_hash (tr_event e2) →
     getOrCreateTransfer e2 (handleTransfer e1 s)
     = (handleTransfer e1 s,
        mkTransfer (tx_hash (tr_event e1)) (tr_from e1) (tr_to e1)
                   (tx_hash (tr_event e1)) None))
  ∧ (Transfer_load s (tx_hash (tr_event e1)) = None →
     getOrCreateTransfer e1 s
     = (handleTransfer e1 s,
        mkTransfer (tx_hash (tr_event e1)) (tr_from e1) (tr_to e1)
                   (tx_hash (tr_event e1)) None))
  ∧ (∀ k, k ≠ tx_hash (tr_event e1) →
          Transfer_load (handleTransfer e1 s) k = Transfer_load s k).
Proof.
  unfold handleTransfer, getOrCreateTransfer, Transfer_load, Transfer_save. simpl.
  split_and!.
  - apply lookup_insert_eq.
  - intros ->. by rewrite insert_insert_eq.
  - intros <-. by rewrite lookup_insert_eq.
  - by intros ->.
  - intros k Hk. by rewrite lookup_insert_ne.
Qed.

Lemma setPunkNoLongerForSale_closed (punkId : string) (removeBid : bool) (s : Store) :
  Listing_load s punkId = None →
  (removeBid = true → Bid_load s punkId = None) →
  setPunkNoLongerForSale punkId removeBid s = s.
Proof.
  intros Hl Hb. unfold setPunkNoLongerForSale. rewrite Hl.
  destruct removeBid; [|done]. by rewrite Hb.
Qed.

(** X11. [setPunkNoLongerForSale] closes the listing of the punk, and its
    bid when asked to; it leaves every other listing and bid alone, does
    nothing when there is nothing to close, and closing twice is closing
    once. *)
Theorem setPunkNoLongerForSale_closes (punkId : string) (removeBid : bool) (s : Store) :
  Listing_load (setPunkNoLongerForSale punkId removeBid s) punkId = None
  ∧ Bid_load (setPunkNoLongerForSale punkId removeBid s) punkId
    = (if removeBid then None else Bid_load s punkId)
  ∧ (∀ k, k ≠ punkId →
          Listing_load (setPunkNoLongerForSale punkId removeBid s) k = Listing_load s k
          ∧ Bid_load (setPunkNoLongerForSale punkId removeBid s) k = Bid_load s k)
  ∧ setPunkNoLongerForSale punkId removeBid (setPunkNoLongerForSale punkId removeBid s)
    = setPunkNoLongerForSale punkId removeBid s.
Proof.
  destruct (setPunkNoLongerForSale_stores punkId removeBid s) as (_ & Hl & Hb & _).
  assert (Listing_load (setPunkNoLongerForSale punkId removeBid s) punkId = None) as Hnol.
  { unfold Listing_load. rewrite Hl. apply lookup_delete_eq. }
  assert (Bid_load (setPunkNoLongerForSale punkId removeBid s) punkId
          = (if removeBid then None else Bid_load s punkId)) as Hnob.
  { unfold Bid_load. rewrite Hb. destruct removeBid; [apply lookup_delete_eq|done]. }
  split_and!; try done.
  - intros k Hk. unfold Listing_load, Bid_load. rewrite Hl, Hb.
    rewrite lookup_delete_ne by done. destruct removeBid; [|done].
    by rewrite lookup_delete_ne.
  - apply setPunkNoLongerForSale_closed; [done|]. intros ->. exact Hnob.
Qed.

(** ** More on the floor *)

Lemma minimumOrZero_same_elements (vs1 vs2 : list Z) :
  (∀ v, v ∈ vs1 ↔ v ∈ vs2) → minimumOrZero vs1 = minimumOrZero vs2.
Proof.
  intros Hsame. destruct vs1 as [|a1 r1], vs2 as [|a2 r2]; [done| | |].
  - exfalso. eapply not_elem_of_nil. apply Hsame, list_elem_of_here.
  - exfalso. eapply not_elem_of_nil. apply Hsame, list_elem_of_here.
  - destruct (minimumOrZero_least (a1 :: r1)) as [Hin1 Hle1]; [done|].
    destruct (minimumOrZero_least (a2 :: r2)) as [Hin2 Hle2]; [done|].
    apply Hsame in Hin1 as Hin1'. apply Hsame in Hin2 as Hin2'.
    apply Hle2 in Hin1'. apply Hle1 in Hin2'. lia.
Qed.

Lemma minimumOrZero_cases (vs : list Z) :
  (vs = [] ∧ minimumOrZero vs = 0)
  ∨ (minimumOrZero vs ∈ vs ∧ ∀ v, v ∈ vs → minimumOrZero vs ≤ v).
Proof.
  destruct vs as [|a r]; [by left|]. right. by apply minimumOrZero_least.
Qed.

(** X12. Once a snapshot has five or more active-listing entries, the floor
    depends on which ids are listed, not on their order or on how often an
    id is repeated: two snapshots of the same time with the same ids get the
    same floor.  That floor is never negative, and it is zero exactly when
    no listed id has a listing with a positive value. *)
Theorem getFloorFromActiveListings_by_ids (s : Store) (st1 st2 : State) :
  (5 ≤ length (activeListings st1))%nat → (5 ≤ length (activeListings st2))%nat →
  (∀ id, id ∈ activeListings st1 ↔ id ∈ activeListings st2) →
  getFloorFromActiveListings s st1 = getFloorFromActiveListings s st2
  ∧ 0 ≤ getFloorFromActiveListings s st1
  ∧ (getFloorFromActiveListings s st1 = 0
     ↔ ∀ id l, id ∈ activeListings st1 → Listing_load s id = Some l → listing_value l ≤ 0).
Proof.
  intros Hlen1 Hlen2 Hsame. rewrite !getFloorFromActiveListings_recompute.
  unfold recomputeFloor. repeat case_decide; try lia.
  split_and!.
  - apply minimumOrZero_same_elements. intros v.
    rewrite !elem_of_positiveListingValues. by setoid_rewrite Hsame.
  - destruct (minimumOrZero_cases (positiveListingValues s (activeListings st1)))
      as [[_ ->]|[Hin _]]; [done|].
    apply elem_of_positiveListingValues in Hin as (?&?&?&?&?&?). lia.
  - split.
    + intros Hzero id l Hid Hl. destruct (decide (listing_value l ≤ 0)) as [|Hpos]; [done|].
      assert (listing_value l ∈ positiveListingValues s (activeListings st1)) as Hin.
      { apply elem_of_positiveListingValues. exists id, l. split_and!; try done. lia. }
      destruct (minimumOrZero_cases (positiveListingValues s (activeListings st1)))
        as [[Hnil _]|[Hmin _]].
      * rewrite Hnil in Hin. by apply elem_of_nil in Hin.
      * apply elem_of_positiveListingValues in Hmin as (?&?&?&?&?&?). lia.
    + intros Hall.
      destruct (minimumOrZero_cases (positiveListingValues s (activeListings st1)))
        as [[_ ->]|[Hmin _]]; [done|].
      apply elem_of_positiveListingValues in Hmin as (id & l & Hid & Hl & Hv & Hpos).
      specialize (Hall id l Hid Hl). lia.
Qed.

(** ** Who owns a punk *)

Lemma updateOwnership_punk (tx : string) (ts : Z) (punkId to from : string) (s : Store) :
  wfStore s →
  Punk_load (updateOwnership tx ts punkId to from s) punkId
  = Some (mkPunk punkId to
                 (match Punk_load s punkId with Some p => wrapped p | None => false end))
  ∧ ∀ k, k ≠ punkId → Punk_load (updateOwnership tx ts punkId to from s) k = Punk_load s k.
Proof.
  intros Hwf. unfold updateOwnership.
  destruct (getOrCreateAccount to s) as [s1 toAccount] eqn:Hto.
  destruct (getOrCreateAccount from s1) as [s2 fromAccount] eqn:Hfrom.
  destruct (getOrCreateAccount_frame _ _ _ _ Hto) as (Hp1 & _).
  destruct (getOrCreateAccount_frame _ _ _ _ Hfrom) as (Hp2 & _).
  destruct (getOrCreateAccount_wf _ _ _ _ Hwf Hto) as (Hwf1 & Hid1).
  destruct (getOrCreateAccount_wf _ _ _ _ Hwf1 Hfrom) as (Hwf2 & Hid2).
  rewrite Hid1, Hid2.
  remember (getOrCreateState s2 ts) as st eqn:Hst. clear Hst.
  set (sA := Account_save _ (Account_save _ (State_save _ s2))).
  assert (punkStore sA = punkStore s) as HpA by (subst sA; simpl; congruence).
  assert (wfStore sA) as HwfA by (subst sA; auto with wf).
  clearbody sA. unfold getOrCreatePunk, Punk_load. rewrite HpA.
  destruct (punkStore s !! punkId) as [p|] eqn:Hp; simpl.
  - destruct Hwf as (_ & Hpunks & _). rewrite (Hpunks _ _ Hp), HpA.
    rewrite lookup_insert_eq. split; [done|]. intros k Hk. by rewrite lookup_insert_ne.
  - rewrite HpA, lookup_insert_eq. split; [done|].
    intros k Hk. by rewrite !lookup_insert_ne.
Qed.

Lemma getPunkOwner_after_updateOwnership (tx : string) (ts : Z) (punkId to from : string)
    (s : Store) :
  wfStore s → to ≠ "" → getPunkOwner (updateOwnership tx ts punkId to from s) punkId = to.
Proof.
  intros Hwf Hto.
  destruct (updateOwnership_punk tx ts punkId to from s Hwf) as (Hpunk & _).
  destruct (updateOwnership_stores tx ts punkId to from s Hwf) as (_ & Hacc & _).
  unfold getPunkOwner. rewrite Hpunk. simpl. by rewrite Hacc.
Qed.

(** X13. After [updateOwnership] the punk belongs to the receiver:
    [getPunkOwner] answers the receiver's address, the punk's wrapped flag
    is as it was, and no other punk is touched.  For a punk the store does
    not know [getPunkOwner] answers the zero address. *)
Theorem updateOwnership_getPunkOwner (tx : string) (ts : Z) (punkId to from : string)
    (s : Store) :
  wfStore s → to ≠ "" →
  getPunkOwner (updateOwnership tx ts punkId to from s) punkId = to
  ∧ wrapped <$> Punk_load (updateOwnership tx ts punkId to from s) punkId
    = Some (match Punk_load s punkId with Some p => wrapped p | None => false end)
  ∧ (∀ k, k ≠ punkId → Punk_load (updateOwnership tx ts punkId to from s) k = Punk_load s k)
  ∧ (∀ k, Punk_load s k = None → getPunkOwner s k = ZERO_ADDRESS).
Proof.
  intros Hwf Hto.
  destruct (updateOwnership_punk tx ts punkId to from s Hwf) as (Hpunk & Hother).
  split_and!; try done.
  - by apply getPunkOwner_after_updateOwnership.
  - by rewrite Hpunk.
  - intros k Hk. unfold getPunkOwner. by rewrite Hk.
Qed.

Lemma getOrCreateAccount_heldBy (id : string) (s : Store) (k : string) :
  heldBy (getOrCreateAccount id s).1 k = heldBy s k.
Proof.
  destruct (getOrCreateAccount id s) as [s1 a1] eqn:H1.
  destruct (getOrCreateAccount_account _ _ _ _ H1) as (_ & _ & Hheld & Hother). simpl.
  destruct (decide (k = id)) as [->|Hne]; [done|]. unfold heldBy. by rewrite Hother.
Qed.

(** X14. A claim ([handleAssign]) hands the punk to the claimer: afterwards
    [getPunkOwner] answers the claimer's address, the claimer's held list is
    the old one followed by the punk id, a Claimed event of value zero from
    the zero address is logged, and no listing or bid is touched.  The
    snapshot's owner count goes up by one when the claimer held nothing,
    and, the zero address being the sender, down by one when the zero
    address's own held list has exactly one entry. *)
Theorem handleAssign_claims (event : AssignEvent) (s : Store) :
  wfStore s → as_to event ≠ "" →
  getPunkOwner (handleAssign event s) (pretty (as_punkIndex event)) = as_to event
  ∧ heldBy (handleAssign event s) (as_to event)
    = heldBy s (as_to event) ++ [pretty (as_punkIndex event)]
  ∧ Event_load (handleAssign event s) (getGlobalId (as_event event))
    = Some (mkEvent (getGlobalId (as_event event)) (tx_hash (as_event event))
                    "Claimed" (as_punkIndex event)
                    (Some ZERO_ADDRESS) (Some (as_to event)) 0
                    (Some (USDValue (block_timestamp (as_event event))
                                    (block_number (as_event event))))
                    (block_number (as_event event)) (block_timestamp (as_event event)))
  ∧ listingStore (handleAssign event s) = listingStore s
  ∧ bidStore (handleAssign event s) = bidStore s
  ∧ ∃ st', State_load (handleAssign event s)
                      (timestampToId (toI32 (block_timestamp (as_event event))) 0) = Some st'
      ∧ owners st'
        = owners (getOrCreateState s (block_timestamp (as_event event)))
          - (if decide (length (heldBy s ZERO_ADDRESS) = 1%nat) then 1 else 0)
          + (if decide (heldBy s (as_to event) = []) then 1 else 0).
Proof.
  intros Hwf Hto. unfold handleAssign.
  pose proof (getOrCreateAccount_heldBy ZERO_ADDRESS s) as Hheld1.
  destruct (getOrCreateAccount ZERO_ADDRESS s) as [s1 a1] eqn:H1.
  pose proof (getOrCreateAccount_heldBy (as_to event) s1) as Hheld2.
  destruct (getOrCreateAccount (as_to event) s1) as [s2 a2] eqn:H2.
  simpl in Hheld1, Hheld2.
  destruct (getOrCreateAccount_frame _ _ _ _ H1) as (_ & Hl1 & Hb1 & He1 & Hs1 & _).
  destruct (getOrCreateAccount_frame _ _ _ _ H2) as (_ & Hl2 & Hb2 & He2 & Hs2 & _).
  destruct (getOrCreateAccount_wf _ _ _ _ Hwf H1) as (Hwf1 & Hid1).
  destruct (getOrCreateAccount_wf _ _ _ _ Hwf1 H2) as (Hwf2 & Hid2).
  rewrite Hid1, Hid2.
  set (evnt := newEvent _ "Claimed" _ _ _ _).
  assert (wfStore (Event_save evnt s2)) as Hwf3 by auto with wf.
  assert (∀ k, heldBy (Event_save evnt s2) k = heldBy s k) as Hheld.
  { intros k. rewrite <- Hheld1, <- Hheld2. done. }
  assert (getOrCreateState (Event_save evnt s2) (block_timestamp (as_event event))
          = getOrCreateState s (block_timestamp (as_event event))) as Hstate.
  { apply getOrCreateState_ext; simpl; congruence. }
  pose proof (getPunkOwner_after_updateOwnership (tx_hash (as_event event))
                (block_timestamp (as_event event)) (pretty (as_punkIndex event))
                (as_to event) ZERO_ADDRESS (Event_save evnt s2) Hwf3 Hto) as Hown.
  destruct (updateOwnership_stores (tx_hash (as_event event))
              (block_timestamp (as_event event)) (pretty (as_punkIndex event))
              (as_to event) ZERO_ADDRESS (Event_save evnt s2) Hwf3) as (Hst & Hacc & _).
  destruct (updateOwnership_frame (tx_hash (as_event event))
              (block_timestamp (as_event event)) (pretty (as_punkIndex event))
              (as_to event) ZERO_ADDRESS (Event_save evnt s2)) as (Hl & Hb & He & _).
  rewrite !Hheld, Hstate in Hst. rewrite Hheld in Hacc.
  remember (getOrCreateState s (block_timestamp (as_event event))) as st0 eqn:Hst0.
  clear Hst0 Hstate.
  split_and!.
  - exact Hown.
  - unfold heldBy at 1. by rewrite Hacc.
  - unfold Event_load. rewrite He. simpl. apply lookup_insert_eq.
  - rewrite Hl. simpl. congruence.
  - rewrite Hb. simpl. congruence.
  - eexists. split; [unfold State_load; rewrite Hst; apply lookup_insert_eq|].
    simpl. repeat case_decide;
      destruct (heldBy s ZERO_ADDRESS) as [|? [|? ?]], (heldBy s (as_to event));
      simpl in *; try done; lia.
Qed.

(** ** Bids and listings *)

Lemma loaded_punk_id (s : Store) (k : string) :
  wfStore s → match Punk_load s k with Some p => punk_id p | None => k end = k.
Proof.
  intros (_ & Hpunks & _). destruct (Punk_load s k) as [p|] eqn:Hp; [|done].
  by apply (Hpunks _ _ Hp).
Qed.

(** X15. A bid-entered event files the bid under the punk's id with the
    event's value and bidder, replacing whatever bid the punk had (no
    comparison of values); bids of other punks and all listings stay as they
    are, a BidEntered event is logged, and the snapshot counts one more
    bid. *)
Theorem handlePunkBidEntered_bid (event : PunkBidEnteredEvent) (s : Store) :
  wfStore s →
  Bid_load (handlePunkBidEntered event s) (pretty (be_punkIndex event))
  = Some (mkBid (pretty (be_punkIndex event)) (pretty (be_punkIndex event)) (be_value event)
                (Some (USDValue (block_timestamp (be_event event))
                                (block_number (be_event event))))
                (be_fromAddress event) (block_number (be_event event))
                (block_timestamp (be_event event)) (tx_hash (be_event event)))
  ∧ (∀ k, k ≠ pretty (be_punkIndex event) →
          Bid_load (handlePunkBidEntered event s) k = Bid_load s k)
  ∧ listingStore (handlePunkBidEntered event s) = listingStore s
  ∧ Event_load (handlePunkBidEntered event s) (getGlobalId (be_event event))
    = Some (mkEvent (getGlobalId (be_event event)) (tx_hash (be_event event))
                    "BidEntered" (be_punkIndex event)
                    (Some (be_fromAddress event)) (Some ZERO_ADDRESS) (be_value event)
                    (Some (USDValue (block_timestamp (be_event event))
                                    (block_number (be_event event))))
                    (block_number (be_event event)) (block_timestamp (be_event event)))
  ∧ ∃ st', State_load (handlePunkBidEntered event s)
                      (timestampToId (toI32 (block_timestamp (be_event event))) 0) = Some st'
      ∧ bids st' = bids (getOrCreateState s (block_timestamp (be_event event))) + 1.
Proof.
  intros Hwf.
  destruct (handlePunkBidEntered_topBid event s Hwf) as (st' & Hload & _ & Hbids).
  split_and!; [| | | |by exists st'].
  all: unfold handlePunkBidEntered.
  all: destruct (getOrCreateAccount (be_fromAddress event) s) as [s1 a1] eqn:H1.
  all: destruct (getOrCreateAccount_frame _ _ _ _ H1) as (Hp1 & Hl1 & Hb1 & He1 & _).
  all: destruct (getOrCreateAccount_wf _ _ _ _ Hwf H1) as (Hwf1 & Hid1).
  all: rewrite (loaded_punk_id s1 _ Hwf1), Hid1.
  - unfold Bid_load. simpl. apply lookup_insert_eq.
  - intros k Hk. unfold Bid_load. simpl. rewrite lookup_insert_ne by done. by rewrite Hb1.
  - simpl. done.
  - unfold Event_load. simpl. apply lookup_insert_eq.
Qed.

(** X16. A bid-withdrawn event deletes the punk's bid (and does nothing to
    the bids when there is none), logs a BidWithdrawn event with the event's
    value, and writes no snapshot: the bids counter is not taken back.
    Entering a bid and withdrawing it leaves the punk without a bid and the
    snapshot with the bid still counted. *)
Theorem handlePunkBidWithdrawn_bid (event : PunkBidWithdrawnEvent)
    (entered : PunkBidEnteredEvent) (s : Store) :
  wfStore s →
  Bid_load (handlePunkBidWithdrawn event s) (pretty (bw_punkIndex event)) = None
  ∧ (∀ k, k ≠ pretty (bw_punkIndex event) →
          Bid_load (handlePunkBidWithdrawn event s) k = Bid_load s k)
  ∧ stateStore (handlePunkBidWithdrawn event s) = stateStore s
  ∧ listingStore (handlePunkBidWithdrawn event s) = listingStore s
  ∧ Event_load (handlePunkBidWithdrawn event s) (getGlobalId (bw_event event))
    = Some (mkEvent (getGlobalId (bw_event event)) (tx_hash (bw_event event))
                    "BidWithdrawn" (bw_punkIndex event)
                    (Some (bw_fromAddress event)) (Some ZERO_ADDRESS) (bw_value event)
                    (Some (USDValue (block_timestamp (bw_event event))
                                    (block_number (bw_event event))))
                    (block_number (bw_event event)) (block_timestamp (bw_event event)))
  ∧ (be_punkIndex entered = bw_punkIndex event →
     Bid_load (handlePunkBidWithdrawn event (handlePunkBidEntered entered s))
              (pretty (bw_punkIndex event)) = None
     ∧ ∃ st', State_load (handlePunkBidWithdrawn event (handlePunkBidEntered entered s))
                         (timestampToId (toI32 (block_timestamp (be_event entered))) 0)
              = Some st'
         ∧ bids st' = bids (getOrCreateState s (block_timestamp (be_event entered))) + 1).
Proof.
  intros Hwf.
  assert (∀ s0, wfStore s0 →
    Bid_load (handlePunkBidWithdrawn event s0) (pretty (bw_punkIndex event)) = None
    ∧ (∀ k, k ≠ pretty (bw_punkIndex event) →
            Bid_load (handlePunkBidWithdrawn event s0) k = Bid_load s0 k)
    ∧ stateStore (handlePunkBidWithdrawn event s0) = stateStore s0
    ∧ listingStore (handlePunkBidWithdrawn event s0) = listingStore s0
    ∧ Event_load (handlePunkBidWithdrawn event s0) (getGlobalId (bw_event event))
      = Some (mkEvent (getGlobalId (bw_event event)) (tx_hash (bw_event event))
                      "BidWithdrawn" (bw_punkIndex event)
                      (Some (bw_fromAddress event)) (Some ZERO_ADDRESS) (bw_value event)
                      (Some (USDValue (block_timestamp (bw_event event))
                                      (block_number (bw_event event))))
                      (block_number (bw_event event)) (block_timestamp (bw_event event)))) as Hgen.
  { intros s0 Hwf0. unfold handlePunkBidWithdrawn.
    destruct (getOrCreateAccount (bw_fromAddress event) s0) as [s1 a1] eqn:H1.
    destruct (getOrCreateAccount_frame _ _ _ _ H1) as (_ & Hl1 & Hb1 & He1 & Hs1 & _).
    destruct (getOrCreateAccount_wf _ _ _ _ Hwf0 H1) as (_ & Hid1). rewrite Hid1.
    unfold Bid_load, Event_load. rewrite Hb1.
    destruct (bidStore s0 !! pretty (bw_punkIndex event)) eqn:Hbid; simpl;
      rewrite ?Hb1, ?lookup_insert_eq; split_and!; try done;
      try apply lookup_delete_eq; intros k Hk; by rewrite ?lookup_delete_ne. }
  destruct (Hgen s Hwf) as (H1 & H2 & H3 & H4 & H5).
  split_and!; try done.
  intros Hsame.
  assert (wfStore (handlePunkBidEntered entered s)) as Hwf'.
  { apply (wfStore_dispatch (PunkBidEntered entered) s Hwf). }
  destruct (Hgen _ Hwf') as (H1' & _ & H3' & _).
  split; [done|].
  destruct (handlePunkBidEntered_topBid entered s Hwf) as (st' & Hload & _ & Hbids).
  exists st'. split; [|done]. unfold State_load in *. by rewrite H3'.
Qed.

(** X17. An offer files the listing under the punk's id with the offered
    value, the sender of the transaction as the seller and the event's
    address as the buyer; the listing is private exactly when that address
    is not the zero address, and it replaces any listing the punk had.
    Listings of other punks and all bids stay as they are, an Offered event
    is logged, and the snapshot counts one more listing. *)
Theorem handlePunkOffered_listing (event : PunkOfferedEvent) (s : Store) :
  wfStore s →
  Listing_load (handlePunkOffered event s) (pretty (po_punkIndex event))
  = Some (mkListing (pretty (po_punkIndex event)) (pretty (po_punkIndex event))
                    (po_minValue event)
                    (Some (USDValue (block_timestamp (po_event event))
                                    (block_number (po_event event))))
                    (tx_from (po_event event)) (po_toAddress event)
                    (negb (bool_decide (po_toAddress event = ZERO_ADDRESS)))
                    (block_number (po_event event)) (block_timestamp (po_event event))
                    (tx_hash (po_event event)))
  ∧ (∀ k, k ≠ pretty (po_punkIndex event) →
          Listing_load (handlePunkOffered event s) k = Listing_load s k)
  ∧ bidStore (handlePunkOffered event s) = bidStore s
  ∧ Event_load (handlePunkOffered event s) (getGlobalId (po_event event))
    = Some (mkEvent (getGlobalId (po_event event)) (tx_hash (po_event event))
                    "Offered" (po_punkIndex event)
                    (Some (tx_from (po_event event))) (Some (po_toAddress event))
                    (po_minValue event)
                    (Some (USDValue (block_timestamp (po_event event))
                                    (block_number (po_event event))))
                    (block_number (po_event event)) (block_timestamp (po_event event)))
  ∧ ∃ st', State_load (handlePunkOffered event s)
                      (timestampToId (toI32 (block_timestamp (po_event event))) 0) = Some st'
      ∧ listings st' = listings (getOrCreateState s (block_timestamp (po_event event))) + 1.
Proof.
  intros Hwf.
  destruct (handlePunkOffered_state event s Hwf)
    as (l & st' & _ & _ & _ & Hload & Hlistings & _).
  split_and!; [| | | |by exists st'].
  all: unfold handlePunkOffered.
  all: destruct (getOrCreateAccount (tx_from (po_event event)) s) as [s1 a1] eqn:H1.
  all: destruct (getOrCreateAccount (po_toAddress event) s1) as [s2 a2] eqn:H2.
  all: destruct (getOrCreateAccount_frame _ _ _ _ H1) as (Hp1 & Hl1 & Hb1 & He1 & _).
  all: destruct (getOrCreateAccount_frame _ _ _ _ H2) as (Hp2 & Hl2 & Hb2 & He2 & _).
  all: destruct (getOrCreateAccount_wf _ _ _ _ Hwf H1) as (Hwf1 & Hid1).
  all: destruct (getOrCreateAccount_wf _ _ _ _ Hwf1 H2) as (Hwf2 & Hid2).
  all: rewrite (loaded_punk_id s2 _ Hwf2), Hid1, Hid2.
  - unfold Listing_load. simpl. apply lookup_insert_eq.
  - intros k Hk. unfold Listing_load. simpl. rewrite lookup_insert_ne by done. congruence.
  - simpl. congruence.
  - unfold Event_load. simpl. apply lookup_insert_eq.
Qed.

(** ** Sales: the bid and the owner *)

Lemma resolveBuyer_bidStore (punkId : string) (a : Account) (v : Z) (bid : option Bid)
    (s : Store) :
  bidStore (resolveBuyer punkId a v bid s).1.1
  = (if bool_decide (account_id a = ZERO_ADDRESS)
        || match bid with
           | Some b => bool_decide (toLowerCase (bid_fromAccount b)
                                    = toLowerCase (account_id a))
           | None => false
           end
     then delete punkId (bidStore s) else bidStore s).
Proof.
  unfold resolveBuyer. case_bool_decide; simpl.
  - destruct bid as [b|]; simpl.
    + destruct (getOrCreateAccount (bid_fromAccount b) s) as [s1 a1] eqn:H1.
      destruct (getOrCreateAccount_frame _ _ _ _ H1) as (_ & _ & Hb1 & _).
      destruct (setPunkNoLongerForSale_stores punkId true s1) as (_ & _ & Hb & _).
      simpl. by rewrite Hb, Hb1.
    + by destruct (setPunkNoLongerForSale_stores punkId true s) as (_ & _ & Hb & _).
  - case_match; simpl.
    + by destruct (setPunkNoLongerForSale_stores punkId true s) as (_ & _ & Hb & _).
    + by destruct (setPunkNoLongerForSale_stores punkId false s) as (_ & _ & Hb & _).
Qed.

Lemma getPunkOwner_ext (s1 s2 : Store) (k : string) :
  punkStore s1 = punkStore s2 → accountStore s1 = accountStore s2 →
  getPunkOwner s1 k = getPunkOwner s2 k.
Proof. intros Hp Ha. unfold getPunkOwner, Punk_load, Account_load. by rewrite Hp, Ha. Qed.

(** The store [handlePunkBought] hands to [updateOwnership], and what is
    written after it. *)
Lemma handlePunkBought_stores (event : PunkBoughtEvent) (s : Store) :
  wfStore s →
  ∃ s3, wfStore s3
    ∧ listingStore s3 = delete (pretty (pb_punkIndex event)) (listingStore s)
    ∧ bidStore s3
      = (if bool_decide (pb_toAddress event = ZERO_ADDRESS)
            || match Bid_load s (pretty (pb_punkIndex event)) with
               | Some b => bool_decide (toLowerCase (bid_fromAccount b)
                                        = toLowerCase (pb_toAddress event))
               | None => false
               end
         then delete (pretty (pb_punkIndex event)) (bidStore s) else bidStore s)
    ∧ stateStore s3 = stateStore s
    ∧ punkStore (handlePunkBought event s)
      = punkStore (updateOwnership (tx_hash (pb_event event)) (block_timestamp (pb_event event))
                     (pretty (pb_punkIndex event)) (resolvedBuyer event s)
                     (pb_fromAddress event) s3)
    ∧ accountStore (handlePunkBought event s)
      = accountStore (updateOwnership (tx_hash (pb_event event))
                        (block_timestamp (pb_event event))
                        (pretty (pb_punkIndex event)) (resolvedBuyer event s)
                        (pb_fromAddress event) s3)
    ∧ listingStore (handlePunkBought event s) = listingStore s3
    ∧ bidStore (handlePunkBought event s) = bidStore s3
    ∧ (Bid_load s (pretty (pb_punkIndex event)) = None → resolvedValue event s = 0 →
       handlePunkBought event s
       = updateOwnership (tx_hash (pb_event event)) (block_timestamp (pb_event event))
                         (pretty (pb_punkIndex event)) (resolvedBuyer event s)
                         (pb_fromAddress event) s3).
Proof.
  intros Hwf. unfold handlePunkBought.
  destruct (getOrCreateAccount (pb_fromAddress event) s) as [s1 fromAccount] eqn:Hfrom.
  destruct (getOrCreateAccount (pb_toAddress event) s1) as [s2 toAccount] eqn:Hto.
  destruct (getOrCreateAccount_frame _ _ _ _ Hfrom) as (_ & Hl1 & Hb1 & He1 & Hs1 & Ht1).
  destruct (getOrCreateAccount_frame _ _ _ _ Hto) as (_ & Hl2 & Hb2 & He2 & Hs2 & Ht2).
  destruct (getOrCreateAccount_wf _ _ _ _ Hwf Hfrom) as (Hwf1 & Hidf).
  destruct (getOrCreateAccount_wf _ _ _ _ Hwf1 Hto) as (Hwf2 & Hidt).
  assert (Bid_load s2 (pretty (pb_punkIndex event)) = Bid_load s (pretty (pb_punkIndex event)))
    as Hbid by (unfold Bid_load; by rewrite Hb2, Hb1).
  rewrite Hbid.
  pose proof (resolveBuyer_bidStore (pretty (pb_punkIndex event)) toAccount (pb_value event)
                (Bid_load s (pretty (pb_punkIndex event))) s2) as Hbids.
  destruct (resolveBuyer (pretty (pb_punkIndex event)) toAccount (pb_value event)
              (Bid_load s (pretty (pb_punkIndex event))) s2)
    as [[s3 toAccount'] value'] eqn:Hres.
  destruct (resolveBuyer_spec _ _ _ _ _ _ _ _ Hwf2 Hres)
    as (Hwf3 & Hl3 & He3 & Hs3 & Ht3 & _ & Hbuyer & Hvalue).
  simpl in Hbids. rewrite Hidt in Hbids, Hbuyer, Hvalue.
  assert (account_id toAccount' = resolvedBuyer event s) as Hbuyer' by done.
  assert (value' = resolvedValue event s) as Hvalue' by done.
  rewrite Hbuyer', Hidf.
  destruct (updateOwnership_frame (tx_hash (pb_event event)) (block_timestamp (pb_event event))
              (pretty (pb_punkIndex event)) (resolvedBuyer event s) (pb_fromAddress event) s3)
    as (Hl4 & Hb4 & _).
  exists s3.
  destruct (negb (bool_decide (is_Some (Bid_load s (pretty (pb_punkIndex event)))))
            && (value' =? BIGINT_ZERO)) eqn:Hcond; simpl.
  - split_and!; try done; try congruence.
    rewrite Hbids. by rewrite Hb2, Hb1.
  - split_and!; try done; try congruence.
    + rewrite Hbids. by rewrite Hb2, Hb1.
    + intros Hnobid Hzero. rewrite Hnobid, Hvalue', Hzero in Hcond. done.
Qed.

(** X18. Every Bought event, recorded in the log or not, deletes the punk's
    listing and hands the punk to the resolved buyer.  The punk's bid is
    deleted when the event names the zero address as the buyer or names the
    bidder (addresses compared without regard to case); a sale to anyone
    else leaves the bid standing.  Listings and bids of other punks are not
    touched. *)
Theorem handlePunkBought_bid_and_owner (event : PunkBoughtEvent) (s : Store) :
  wfStore s →
  Listing_load (handlePunkBought event s) (pretty (pb_punkIndex event)) = None
  ∧ Bid_load (handlePunkBought event s) (pretty (pb_punkIndex event))
    = match Bid_load s (pretty (pb_punkIndex event)) with
      | Some b =>
          if decide (pb_toAddress event = ZERO_ADDRESS
                     ∨ toLowerCase (bid_fromAccount b) = toLowerCase (pb_toAddress event))
          then None else Some b
      | None => None
      end
  ∧ (∀ k, k ≠ pretty (pb_punkIndex event) →
          Listing_load (handlePunkBought event s) k = Listing_load s k
          ∧ Bid_load (handlePunkBought event s) k = Bid_load s k)
  ∧ (resolvedBuyer event s ≠ "" →
     getPunkOwner (handlePunkBought event s) (pretty (pb_punkIndex event))
     = resolvedBuyer event s).
Proof.
  intros Hwf.
  destruct (handlePunkBought_stores event s Hwf)
    as (s3 & Hwf3 & Hl3 & Hb3 & _ & Hp & Ha & Hl & Hb & _).
  unfold Listing_load, Bid_load in *. rewrite Hl, Hb, Hl3, Hb3.
  split_and!.
  - apply lookup_delete_eq.
  - destruct (bidStore s !! pretty (pb_punkIndex event)) as [b|] eqn:Hbid; cbn beta iota.
    + repeat case_bool_decide; simpl; case_decide as Hd; rewrite ?lookup_delete_eq;
        try done; try (exfalso; apply Hd; auto; fail); try (by destruct Hd).
    + case_match; [by rewrite lookup_delete_eq|done].
  - intros k Hk. rewrite lookup_delete_ne by done. split; [done|].
    case_match; [by rewrite lookup_delete_ne|done].
  - intros Hbuyer. rewrite (getPunkOwner_ext _ _ _ Hp Ha).
    by apply getPunkOwner_after_updateOwnership.
Qed.

(** X19. A Bought event with value zero for a punk without a bid is not
    recorded, yet the punk's listing is deleted and the punk changes hands,
    while the snapshot's active listings are left as they were: a punk that
    was among them still is, now without a listing behind the id. *)
Theorem handlePunkBought_unrecorded_keeps_id (event : PunkBoughtEvent) (s : Store) :
  wfStore s →
  pb_value event = 0 →
  Bid_load s (pretty (pb_punkIndex event)) = None →
  pretty (pb_punkIndex event)
  ∈ activeListings (getOrCreateState s (block_timestamp (pb_event event))) →
  Listing_load (handlePunkBought event s) (pretty (pb_punkIndex event)) = None
  ∧ (pb_toAddress event ≠ "" →
     getPunkOwner (handlePunkBought event s) (pretty (pb_punkIndex event))
     = pb_toAddress event)
  ∧ ∃ st', State_load (handlePunkBought event s)
                      (timestampToId (toI32 (block_timestamp (pb_event event))) 0) = Some st'
      ∧ pretty (pb_punkIndex event) ∈ activeListings st'.
Proof.
  intros Hwf Hzero Hnobid Hin.
  destruct (handlePunkBought_stores event s Hwf)
    as (s3 & Hwf3 & Hl3 & _ & Hs3 & Hp & Ha & Hl & _ & Heq).
  assert (resolvedValue event s = 0) as Hv.
  { unfold resolvedValue. rewrite Hnobid. by case_decide. }
  assert (resolvedBuyer event s = pb_toAddress event) as Hbuyer.
  { unfold resolvedBuyer. rewrite Hnobid. by case_decide. }
  specialize (Heq Hnobid Hv). rewrite Hbuyer in *.
  split_and!.
  - unfold Listing_load. rewrite Hl, Hl3. apply lookup_delete_eq.
  - intros Hto. rewrite (getPunkOwner_ext _ _ _ Hp Ha).
    by apply getPunkOwner_after_updateOwnership.
  - rewrite Heq.
    destruct (updateOwnership_stores (tx_hash (pb_event event))
                (block_timestamp (pb_event event)) (pretty (pb_punkIndex event))
                (pb_toAddress event) (pb_fromAddress event) s3 Hwf3) as (Hst & _).
    assert (set_floor 0 (getOrCreateState s3 (block_timestamp (pb_event event)))
            = set_floor 0 (getOrCreateState s (block_timestamp (pb_event event)))) as Hsame.
    { by apply getOrCreateState_ext_states. }
    apply (f_equal activeListings) in Hsame. simpl in Hsame.
    eexists. split; [unfold State_load; rewrite Hst; apply lookup_insert_eq|].
    simpl. by rewrite Hsame.
Qed.

(** ** Transfers of punks *)

Lemma getOrCreatePunk_loaded (id : string) (s s' : Store) (p : Punk) :
  wfStore s → getOrCreatePunk id s = (s', p) → punk_id p = id ∧ Punk_load s' id = Some p.
Proof.
  intros (_ & Hpunks & _). unfold getOrCreatePunk.
  destruct (Punk_load s id) as [p0|] eqn:Hp; intros [<- <-]%pair_equal_spec.
  - split; [by apply (Hpunks _ _ Hp)|done].
  - split; [done|]. unfold Punk_load. simpl. apply lookup_insert_eq.
Qed.

Lemma setPunkNoLongerForSale_punkStore (punkId : string) (removeBid : bool) (s : Store) :
  punkStore (setPunkNoLongerForSale punkId removeBid s) = punkStore s.
Proof.
  unfold setPunkNoLongerForSale.
  destruct (Listing_load s punkId), removeBid; try case_match; done.
Qed.

(** X20. A PunkTransfer hands the punk to the receiver and marks it wrapped
    exactly when the receiver is the wrapper contract.  The logged event is
    Wrapped when the receiver is the wrapper, otherwise Unwrapped when the
    sender is, otherwise Transferred.  The punk's listing is deleted and its
    id leaves the snapshot's active listings; its bid is deleted only when
    the receiver is the bidder (addresses compared without regard to
    case). *)
Theorem handlePunkTransfer_moves (event : PunkTransferEvent) (s : Store) :
  wfStore s → pt_to event ≠ "" →
  getPunkOwner (handlePunkTransfer event s) (pretty (pt_punkIndex event)) = pt_to event
  ∧ Punk_load (handlePunkTransfer event s) (pretty (pt_punkIndex event))
    = Some (mkPunk (pretty (pt_punkIndex event)) (pt_to event)
                   (bool_decide (pt_to event = WRAPPER_ADDRESS)))
  ∧ Event_load (handlePunkTransfer event s) (getGlobalId (pt_event event))
    = Some (mkEvent (getGlobalId (pt_event event)) (tx_hash (pt_event event))
                    (if bool_decide (pt_to event = WRAPPER_ADDRESS) then "Wrapped"
                     else if bool_decide (pt_from event = WRAPPER_ADDRESS) then "Unwrapped"
                     else "Transferred")
                    (pt_punkIndex event)
                    (Some (pt_from event)) (Some (pt_to event)) 0
                    (Some (USDValue (block_timestamp (pt_event event))
                                    (block_number (pt_event event))))
                    (block_number (pt_event event)) (block_timestamp (pt_event event)))
  ∧ Listing_load (handlePunkTransfer event s) (pretty (pt_punkIndex event)) = None
  ∧ Bid_load (handlePunkTransfer event s) (pretty (pt_punkIndex event))
    = match Bid_load s (pretty (pt_punkIndex event)) with
      | Some b =>
          if decide (toLowerCase (bid_fromAccount b) = toLowerCase (pt_to event))
          then None else Some b
      | None => None
      end
  ∧ ∃ st', State_load (handlePunkTransfer event s)
                      (timestampToId (toI32 (block_timestamp (pt_event event))) 0) = Some st'
      ∧ activeListings st'
        = removeId (pretty (pt_punkIndex event))
                   (activeListings (getOrCreateState s (block_timestamp (pt_event event)))).
Proof.
  intros Hwf Hto. unfold handlePunkTransfer.
  set (ev := pt_event event). set (punkId := pretty (pt_punkIndex event)).
  destruct (getOrCreateAccount (pt_from event) s) as [s1 a1] eqn:H1.
  destruct (getOrCreateAccount (pt_to event) s1) as [s2 a2] eqn:H2.
  destruct (getOrCreateAccount_frame _ _ _ _ H1) as (Hp1 & Hl1 & Hb1 & He1 & Hs1 & _).
  destruct (getOrCreateAccount_frame _ _ _ _ H2) as (Hp2 & Hl2 & Hb2 & He2 & Hs2 & _).
  destruct (getOrCreateAccount_wf _ _ _ _ Hwf H1) as (Hwf1 & Hid1).
  destruct (getOrCreateAccount_wf _ _ _ _ Hwf1 H2) as (Hwf2 & Hid2).
  destruct (getOrCreatePunk punkId s2) as [s3 p] eqn:H3.
  destruct (getOrCreatePunk_frame _ _ _ _ H3) as (_ & Hl3 & Hb3 & He3 & Hs3 & _).
  pose proof (getOrCreatePunk_wf _ _ _ _ Hwf2 H3) as Hwf3.
  destruct (getOrCreatePunk_loaded _ _ _ _ Hwf2 H3) as (Hpid & _).
  rewrite Hpid, Hid1, Hid2.
  set (isWrapped := bool_decide (pt_to event = WRAPPER_ADDRESS)).
  set (s4 := Punk_save (mkPunk punkId (owner p) isWrapped) s3).
  assert (wfStore s4) as Hwf4 by (subst s4; auto with wf).
  assert (Punk_load s4 punkId = Some (mkPunk punkId (owner p) isWrapped)) as Hpunk4.
  { subst s4. unfold Punk_load. simpl. apply lookup_insert_eq. }
  assert (listingStore s4 = listingStore s ∧ bidStore s4 = bidStore s
          ∧ eventStore s4 = eventStore s ∧ stateStore s4 = stateStore s)
    as (Hl4 & Hb4 & He4 & Hs4).
  { subst s4. simpl. split_and!; congruence. }
  clearbody s4.
  match goal with
  | |- context [let '(_, _) := ?X in _] => destruct X as [s5 flag] eqn:Hpair
  end.
  assert (wfStore s5 ∧ punkStore s5 = punkStore s4 ∧ listingStore s5 = listingStore s
          ∧ bidStore s5 = bidStore s ∧ eventStore s5 = eventStore s
          ∧ stateStore s5 = stateStore s
          ∧ (if flag then delete punkId (bidStore s) else bidStore s) !! punkId
            = match Bid_load s punkId with
              | Some b =>
                  if decide (toLowerCase (bid_fromAccount b) = toLowerCase (pt_to event))
                  then None else Some b
              | None => None
              end)
    as (Hwf5 & Hp5 & Hl5 & Hb5 & He5 & Hs5 & Hflag).
  { assert (Bid_load s4 punkId = Bid_load s punkId) as Hbid by (unfold Bid_load; congruence).
    rewrite Hbid in Hpair. unfold Bid_load in *.
    destruct (bidStore s !! punkId) as [b|] eqn:Hb.
    - destruct (getOrCreateAccount (bid_fromAccount b) s4) as [sx ax] eqn:Hx.
      destruct (getOrCreateAccount_frame _ _ _ _ Hx) as (Hpx & Hlx & Hbx & Hex & Hsx & _).
      destruct (getOrCreateAccount_wf _ _ _ _ Hwf4 Hx) as (Hwfx & Hidx).
      rewrite Hidx in Hpair. apply pair_equal_spec in Hpair as [<- <-].
      split_and!; try done; try congruence.
      case_bool_decide; case_decide; try done; by rewrite ?lookup_delete_eq.
    - apply pair_equal_spec in Hpair as [<- <-]. split_and!; try done. }
  clear Hpair.
  destruct (setPunkNoLongerForSale_stores punkId flag s5) as (_ & Hl6 & Hb6 & He6 & Hs6 & _).
  pose proof (setPunkNoLongerForSale_punkStore punkId flag s5) as Hp6.
  pose proof (wfStore_setPunkNoLongerForSale punkId flag s5 Hwf5) as Hwf6.
  set (s6 := setPunkNoLongerForSale punkId flag s5) in *.
  pose proof (getOrCreateState_id s6 (block_timestamp ev) Hwf6) as Hsid.
  assert (set_floor 0 (getOrCreateState s6 (block_timestamp ev))
          = set_floor 0 (getOrCreateState s (block_timestamp ev))) as Hsame.
  { apply getOrCreateState_ext_states. congruence. }
  apply (f_equal activeListings) in Hsame. simpl in Hsame.
  rewrite removeId_if_member.
  remember (getOrCreateState s6 (block_timestamp ev)) as st6 eqn:Hst6.
  remember (getOrCreateState s (block_timestamp ev)) as st0 eqn:Hst0.
  clear Hst6 Hst0.
  set (stF := set_usd _ (set_floor _ (set_activeListings _ st6))).
  assert (state_id stF = timestampToId (toI32 (block_timestamp ev)) 0) as HsidF by done.
  assert (activeListings stF = removeId punkId (activeListings st0)) as HactF.
  { subst stF. simpl. by rewrite Hsame. }
  clearbody stF.
  set (evnt := newEvent ev _ _ _ _ _).
  set (s8 := Event_save evnt (State_save stF s6)).
  assert (wfStore s8) as Hwf8 by (subst s8; auto with wf).
  assert (State_load s8 (timestampToId (toI32 (block_timestamp ev)) 0) = Some stF) as Hst8.
  { subst s8. unfold State_load. simpl. rewrite HsidF. apply lookup_insert_eq. }
  assert (Punk_load s8 punkId = Some (mkPunk punkId (owner p) isWrapped)) as Hpunk8.
  { subst s8. unfold Punk_load in *. simpl. by rewrite Hp6, Hp5. }
  assert (listingStore s8 = delete punkId (listingStore s)
          ∧ bidStore s8 = (if flag then delete punkId (bidStore s) else bidStore s)
          ∧ eventStore s8 !! getGlobalId ev = Some evnt) as (Hl8 & Hb8 & He8).
  { subst s8. simpl. split_and!; [congruence| |apply lookup_insert_eq].
    rewrite Hb6. destruct flag; congruence. }
  clearbody s8.
  pose proof (getPunkOwner_after_updateOwnership (tx_hash ev) (block_timestamp ev) punkId
                (pt_to event) (pt_from event) s8 Hwf8 Hto) as Hown.
  destruct (updateOwnership_punk (tx_hash ev) (block_timestamp ev) punkId
              (pt_to event) (pt_from event) s8 Hwf8) as (Hpunk & _).
  destruct (updateOwnership_stores (tx_hash ev) (block_timestamp ev) punkId
              (pt_to event) (pt_from event) s8 Hwf8) as (Hst & _).
  destruct (updateOwnership_frame (tx_hash ev) (block_timestamp ev) punkId
              (pt_to event) (pt_from event) s8) as (Hl & Hb & He & _).
  rewrite (getOrCreateState_existing s8 _ stF Hst8) in Hst.
  rewrite Hpunk8 in Hpunk. simpl in Hpunk.
  split_and!.
  - exact Hown.
  - exact Hpunk.
  - unfold Event_load. rewrite He, He8. done.
  - unfold Listing_load. rewrite Hl, Hl8. apply lookup_delete_eq.
  - unfold Bid_load at 1. rewrite Hb, Hb8. exact Hflag.
  - eexists. split; [unfold State_load; rewrite Hst; apply lookup_insert_eq|].
    simpl. exact HactF.
Qed.

(** ** Offer, then withdrawal *)

Lemma handlePunkOffered_counters (event : PunkOfferedEvent) (s : Store) :
  wfStore s →
  transferStore (handlePunkOffered event s) = transferStore s
  ∧ ∃ st', State_load (handlePunkOffered event s)
                      (timestampToId (toI32 (block_timestamp (po_event event))) 0) = Some st'
      ∧ listings st' = listings (getOrCreateState s (block_timestamp (po_event event))) + 1
      ∧ delistings st' = delistings (getOrCreateState s (block_timestamp (po_event event)))
      ∧ activeListings st'
        = activeListings (getOrCreateState s (block_timestamp (po_event event)))
          ++ [pretty (po_punkIndex event)].
Proof.
  intros Hwf. unfold handlePunkOffered.
  set (ev := po_event event). set (punkId := pretty (po_punkIndex event)).
  destruct (getOrCreateAccount (tx_from ev) s) as [s1 fromAccount] eqn:Hfrom.
  destruct (getOrCreateAccount (po_toAddress event) s1) as [s2 toAccount] eqn:Hto.
  destruct (getOrCreateAccount_frame _ _ _ _ Hfrom) as (_ & Hl1 & Hb1 & He1 & Hs1 & Ht1).
  destruct (getOrCreateAccount_frame _ _ _ _ Hto) as (_ & Hl2 & Hb2 & He2 & Hs2 & Ht2).
  destruct (getOrCreateAccount_wf _ _ _ _ Hwf Hfrom) as (Hwf1 & Hidf).
  destruct (getOrCreateAccount_wf _ _ _ _ Hwf1 Hto) as (Hwf2 & Hidt).
  set (listing := mkListing punkId _ _ _ _ _ _ _ _ _).
  set (evnt := newEvent ev "Offered" _ _ _ _).
  assert (wfStore (Event_save evnt (Listing_save listing s2))) as Hwf3 by auto with wf.
  pose proof (getOrCreateState_id _ (block_timestamp ev) Hwf3) as Hsid.
  assert (set_floor 0 (getOrCreateState (Event_save evnt (Listing_save listing s2))
                                        (block_timestamp ev))
          = set_floor 0 (getOrCreateState s (block_timestamp ev))) as Hsame.
  { apply getOrCreateState_ext_states. simpl. congruence. }
  remember (getOrCreateState (Event_save evnt (Listing_save listing s2)) (block_timestamp ev))
    as stM eqn:HstM.
  remember (getOrCreateState s (block_timestamp ev)) as st0 eqn:Hst0.
  clear HstM Hst0.
  apply (f_equal listings) in Hsame as Hlistings.
  apply (f_equal delistings) in Hsame as Hdelistings.
  apply (f_equal activeListings) in Hsame as Hactive.
  simpl in Hlistings, Hdelistings, Hactive.
  assert (∀ (c : bool) v (st : State), state_id (if c then set_floor v st else st) = state_id st)
    as Hif by (by intros []).
  split; [simpl; congruence|].
  eexists. split.
  { unfold State_load. simpl. rewrite Hif. simpl. rewrite Hsid. apply lookup_insert_eq. }
  simpl. unfold BIGINT_ONE. rewrite <- Hlistings, <- Hdelistings, <- Hactive.
  by case_match.
Qed.

Lemma handlePunkNoLongerForSale_state (event : PunkNoLongerForSaleEvent) (s : Store) :
  wfStore s →
  Listing_load (handlePunkNoLongerForSale event s) (pretty (nl_punkIndex event)) = None
  ∧ Event_load (handlePunkNoLongerForSale event s) (getGlobalId (nl_event event))
    = (if bool_decide (is_Some (Transfer_load s (tx_hash (nl_event event))))
       then Event_load s (getGlobalId (nl_event event))
       else Some (newEvent (nl_event event) "OfferWithdrawn" (nl_punkIndex event)
                           ZERO_ADDRESS ZERO_ADDRESS 0))
  ∧ ∃ st', State_load (handlePunkNoLongerForSale event s)
                      (timestampToId (toI32 (block_timestamp (nl_event event))) 0) = Some st'
      ∧ activeListings st'
        = removeId (pretty (nl_punkIndex event))
                   (activeListings (getOrCreateState s (block_timestamp (nl_event event))))
      ∧ listings st' = listings (getOrCreateState s (block_timestamp (nl_event event)))
      ∧ delistings st'
        = delistings (getOrCreateState s (block_timestamp (nl_event event)))
          + (if bool_decide (is_Some (Transfer_load s (tx_hash (nl_event event))))
             then 0 else 1).
Proof.
  intros Hwf. unfold handlePunkNoLongerForSale.
  set (ev := nl_event event). set (punkId := pretty (nl_punkIndex event)).
  destruct (setPunkNoLongerForSale_stores punkId false s) as (_ & Hl & _ & He & Hs & Ht).
  pose proof (wfStore_setPunkNoLongerForSale punkId false s Hwf) as Hwf1.
  set (s1 := setPunkNoLongerForSale punkId false s) in *.
  assert (Transfer_load s1 (tx_hash ev) = Transfer_load s (tx_hash ev)) as ->.
  { unfold Transfer_load. by rewrite Ht. }
  assert (set_floor 0 (getOrCreateState s1 (block_timestamp ev))
          = set_floor 0 (getOrCreateState s (block_timestamp ev))) as Hsame.
  { by apply getOrCreateState_ext_states. }
  pose proof (getOrCreateState_id s1 (block_timestamp ev) Hwf1) as Hsid.
  remember (getOrCreateState s1 (block_timestamp ev)) as st1 eqn:Hst1.
  remember (getOrCreateState s (block_timestamp ev)) as st0 eqn:Hst0.
  clear Hst1 Hst0.
  apply (f_equal delistings) in Hsame as Hdel.
  apply (f_equal listings) in Hsame as Hlist.
  apply (f_equal activeListings) in Hsame as Hactive.
  simpl in Hdel, Hlist, Hactive. rewrite <- Hdel, <- Hlist, <- Hactive.
  clear Hsame Hdel Hlist Hactive.
  destruct (bool_decide (is_Some (Transfer_load s (tx_hash ev)))); simpl.
  - split; [unfold Listing_load; simpl; rewrite Hl; apply lookup_delete_eq|].
    split; [unfold Event_load; simpl; by rewrite He|].
    eexists. split; [unfold State_load; simpl; rewrite Hsid; apply lookup_insert_eq|].
    simpl. rewrite removeId_if_member. split_and!; [done|done|lia].
  - split; [unfold Listing_load; simpl; rewrite Hl; apply lookup_delete_eq|].
    split; [unfold Event_load; simpl; apply lookup_insert_eq|].
    eexists. split; [unfold State_load; simpl; rewrite Hsid; apply lookup_insert_eq|].
    simpl. rewrite removeId_if_member. split_and!; done.
Qed.

Lemma removeId_app_self (x : string) (l : list string) : removeId x (l ++ [x]) = removeId x l.
Proof.
  unfold removeId. rewrite filter_app, filter_cons_False by (by intros ?).
  by rewrite filter_nil, app_nil_r.
Qed.

(** X21. An offer followed, in the same bucket and without a raw Transfer in
    the withdrawing transaction, by a no-longer-for-sale event for the same
    punk leaves the punk without a listing and its id out of the snapshot's
    active listings, with one listing and one delisting counted and an
    OfferWithdrawn event logged. *)
Theorem offer_then_withdrawal (offer : PunkOfferedEvent) (delist : PunkNoLongerForSaleEvent)
    (s : Store) :
  wfStore s →
  po_punkIndex offer = nl_punkIndex delist →
  timestampToId (toI32 (block_timestamp (po_event offer))) 0
  = timestampToId (toI32 (block_timestamp (nl_event delist))) 0 →
  Transfer_load s (tx_hash (nl_event delist)) = None →
  Listing_load (handlePunkNoLongerForSale delist (handlePunkOffered offer s))
               (pretty (nl_punkIndex delist)) = None
  ∧ Event_load (handlePunkNoLongerForSale delist (handlePunkOffered offer s))
               (getGlobalId (nl_event delist))
    = Some (mkEvent (getGlobalId (nl_event delist)) (tx_hash (nl_event delist))
                    "OfferWithdrawn" (nl_punkIndex delist)
                    (Some ZERO_ADDRESS) (Some ZERO_ADDRESS) 0
                    (Some (USDValue (block_timestamp (nl_event delist))
                                    (block_number (nl_event delist))))
                    (block_number (nl_event delist)) (block_timestamp (nl_event delist)))
  ∧ ∃ st', State_load (handlePunkNoLongerForSale delist (handlePunkOffered offer s))
                      (timestampToId (toI32 (block_timestamp (po_event offer))) 0) = Some st'
      ∧ activeListings st'
        = removeId (pretty (nl_punkIndex delist))
                   (activeListings (getOrCreateState s (block_timestamp (po_event offer))))
      ∧ listings st' = listings (getOrCreateState s (block_timestamp (po_event offer))) + 1
      ∧ delistings st'
        = delistings (getOrCreateState s (block_timestamp (po_event offer))) + 1.
Proof.
  intros Hwf Hpunk Hbucket Hnotransfer.
  destruct (handlePunkOffered_counters offer s Hwf)
    as (Ht & st1 & Hload1 & Hlist1 & Hdel1 & Hact1).
  assert (wfStore (handlePunkOffered offer s)) as Hwf1.
  { apply (wfStore_dispatch (PunkOffered offer) s Hwf). }
  destruct (handlePunkNoLongerForSale_state delist _ Hwf1)
    as (Hlisting & Hevent & st2 & Hload2 & Hact2 & Hlist2 & Hdel2).
  assert (Transfer_load (handlePunkOffered offer s) (tx_hash (nl_event delist)) = None) as Hnt.
  { unfold Transfer_load. by rewrite Ht. }
  rewrite Hnt in Hevent, Hdel2. rewrite bool_decide_eq_false_2 in Hevent, Hdel2
    by (by intros [? ?]).
  rewrite Hbucket in Hload1.
  rewrite (getOrCreateState_existing _ _ st1 Hload1) in Hact2, Hlist2, Hdel2.
  split_and!; [done|done|].
  exists st2. rewrite Hbucket. split_and!; [done| | |].
  - rewrite Hact2, Hact1, Hpunk. apply removeId_app_self.
  - by rewrite Hlist2, Hlist1.
  - by rewrite Hdel2, Hdel1.
Qed.

(** ** One bucket per event *)

Lemma updateOwnership_onlyBucket (tx : string) (ts : Z) (punkId to from : string) (s : Store) :
  wfStore s → onlyBucket (timestampToId (toI32 ts) 0) s (updateOwnership tx ts punkId to from s).
Proof.
  intros Hwf k Hk.
  destruct (updateOwnership_stores tx ts punkId to from s Hwf) as (Hst & _).
  unfold State_load. rewrite Hst. by rewrite lookup_insert_ne.
Qed.

Lemma State_save_onlyBucket (id : string) (st : State) (s s' : Store) :
  state_id st = id → stateStore s' = stateStore s → onlyBucket id s (State_save st s').
Proof.
  intros Hid Hs k Hk. unfold State_load. simpl. rewrite Hid, lookup_insert_ne by done.
  by rewrite Hs.
Qed.

Lemma onlyBucket_trans (id : string) (s1 s2 s3 : Store) :
  onlyBucket id s1 s2 → onlyBucket id s2 s3 → onlyBucket id s1 s3.
Proof. intros H12 H23 k Hk. rewrite H23, H12; done. Qed.

Lemma onlyBucket_same (id : string) (s s' : Store) :
  stateStore s' = stateStore s → onlyBucket id s s'.
Proof. intros Hs k _. unfold State_load. by rewrite Hs. Qed.

(** X22. An event touches the snapshot of its own bucket only: whatever the
    event, the snapshot of every other bucket is afterwards what it was. *)
Theorem dispatch_other_buckets (event : ContractEvent) (s : Store) (k : string) :
  wfStore s →
  k ≠ timestampToId (toI32 (block_timestamp (eventMeta event))) 0 →
  State_load (dispatch event s) k = State_load s k.
Proof.
  intros Hwf Hk. revert k Hk.
  change (onlyBucket (timestampToId (toI32 (block_timestamp (eventMeta event))) 0) s
                     (dispatch event s)).
  destruct event as [e|e|e|e|e|e|e|e]; simpl.
  - unfold handleAssign.
    destruct (getOrCreateAccount ZERO_ADDRESS s) as [s1 a1] eqn:H1.
    destruct (getOrCreateAccount (as_to e) s1) as [s2 a2] eqn:H2.
    destruct (getOrCreateAccount_frame _ _ _ _ H1) as (_ & _ & _ & _ & Hs1 & _).
    destruct (getOrCreateAccount_frame _ _ _ _ H2) as (_ & _ & _ & _ & Hs2 & _).
    destruct (getOrCreateAccount_wf _ _ _ _ Hwf H1) as (Hwf1 & _).
    destruct (getOrCreateAccount_wf _ _ _ _ Hwf1 H2) as (Hwf2 & _).
    eapply onlyBucket_trans; [|apply updateOwnership_onlyBucket; auto with wf].
    apply onlyBucket_same. simpl. congruence.
  - by apply onlyBucket_same.
  - unfold handlePunkTransfer.
    destruct (getOrCreateAccount (pt_from e) s) as [s1 a1] eqn:H1.
    destruct (getOrCreateAccount (pt_to e) s1) as [s2 a2] eqn:H2.
    destruct (getOrCreateAccount_frame _ _ _ _ H1) as (_ & _ & _ & _ & Hs1 & _).
    destruct (getOrCreateAccount_frame _ _ _ _ H2) as (_ & _ & _ & _ & Hs2 & _).
    destruct (getOrCreateAccount_wf _ _ _ _ Hwf H1) as (Hwf1 & _).
    destruct (getOrCreateAccount_wf _ _ _ _ Hwf1 H2) as (Hwf2 & _).
    destruct (getOrCreatePunk (pretty (pt_punkIndex e)) s2) as [s3 p] eqn:H3.
    destruct (getOrCreatePunk_frame _ _ _ _ H3) as (_ & _ & _ & _ & Hs3 & _).
    pose proof (getOrCreatePunk_wf _ _ _ _ Hwf2 H3) as Hwf3.
    set (s4 := Punk_save _ s3).
    assert (wfStore s4 ∧ stateStore s4 = stateStore s) as (Hwf4 & Hs4).
    { subst s4. split; [auto with wf|simpl; congruence]. }
    clearbody s4.
    match goal with
    | |- context [let '(_, _) := ?X in _] => destruct X as [s5 flag] eqn:Hpair
    end.
    assert (wfStore s5 ∧ stateStore s5 = stateStore s) as (Hwf5 & Hs5).
    { destruct (Bid_load s4 (pretty (pt_punkIndex e))) as [b|].
      - destruct (getOrCreateAccount (bid_fromAccount b) s4) as [sx ax] eqn:Hx.
        destruct (getOrCreateAccount_frame _ _ _ _ Hx) as (_ & _ & _ & _ & Hsx & _).
        destruct (getOrCreateAccount_wf _ _ _ _ Hwf4 Hx) as (Hwfx & _).
        apply pair_equal_spec in Hpair as [<- _]. split; [done|congruence].
      - apply pair_equal_spec in Hpair as [<- _]. done. }
    clear Hpair.
    destruct (setPunkNoLongerForSale_stores (pretty (pt_punkIndex e)) flag s5)
      as (_ & _ & _ & _ & Hs6 & _).
    pose proof (wfStore_setPunkNoLongerForSale (pretty (pt_punkIndex e)) flag s5 Hwf5) as Hwf6.
    set (s6 := setPunkNoLongerForSale (pretty (pt_punkIndex e)) flag s5) in *.
    pose proof (getOrCreateState_id s6 (block_timestamp (pt_event e)) Hwf6) as Hsid.
    remember (getOrCreateState s6 (block_timestamp (pt_event e))) as st6 eqn:Hst6.
    clear Hst6.
    eapply onlyBucket_trans; [|apply updateOwnership_onlyBucket; auto with wf].
    intros k Hk. unfold State_load. simpl. rewrite Hsid, lookup_insert_ne by done.
    congruence.
  - unfold handlePunkOffered.
    destruct (getOrCreateAccount (tx_from (po_event e)) s) as [s1 a1] eqn:H1.
    destruct (getOrCreateAccount (po_toAddress e) s1) as [s2 a2] eqn:H2.
    destruct (getOrCreateAccount_frame _ _ _ _ H1) as (_ & _ & _ & _ & Hs1 & _).
    destruct (getOrCreateAccount_frame _ _ _ _ H2) as (_ & _ & _ & _ & Hs2 & _).
    destruct (getOrCreateAccount_wf _ _ _ _ Hwf H1) as (Hwf1 & _).
    destruct (getOrCreateAccount_wf _ _ _ _ Hwf1 H2) as (Hwf2 & _).
    match goal with
    | |- context [getOrCreateState ?sx ?ts] =>
        assert (wfStore sx) as Hwfx by auto with wf;
        pose proof (getOrCreateState_id sx ts Hwfx) as Hsid;
        remember (getOrCreateState sx ts) as stx eqn:Hstx; clear Hstx
    end.
    apply State_save_onlyBucket; [|simpl; congruence].
    simpl. by destruct (negb _ && _ && _).
  - unfold handlePunkBidEntered.
    destruct (getOrCreateAccount (be_fromAddress e) s) as [s1 a1] eqn:H1.
    destruct (getOrCreateAccount_frame _ _ _ _ H1) as (_ & _ & _ & _ & Hs1 & _).
    destruct (getOrCreateAccount_wf _ _ _ _ Hwf H1) as (Hwf1 & _).
    rewrite topBid_update by done.
    match goal with
    | |- context [getOrCreateState ?sx ?ts] =>
        assert (wfStore sx) as Hwfx by auto with wf;
        pose proof (getOrCreateState_id sx ts Hwfx) as Hsid;
        remember (getOrCreateState sx ts) as stx eqn:Hstx; clear Hstx
    end.
    apply State_save_onlyBucket; [done|simpl; congruence].
  - unfold handlePunkBidWithdrawn.
    destruct (getOrCreateAccount (bw_fromAddress e) s) as [s1 a1] eqn:H1.
    destruct (getOrCreateAccount_frame _ _ _ _ H1) as (_ & _ & _ & _ & Hs1 & _).
    apply onlyBucket_same. by destruct (Bid_load s1 _).
  - unfold handlePunkBought.
    destruct (getOrCreateAccount (pb_fromAddress e) s) as [s1 a1] eqn:H1.
    destruct (getOrCreateAccount (pb_toAddress e) s1) as [s2 a2] eqn:H2.
    destruct (getOrCreateAccount_frame _ _ _ _ H1) as (_ & _ & _ & _ & Hs1 & _).
    destruct (getOrCreateAccount_frame _ _ _ _ H2) as (_ & _ & _ & _ & Hs2 & _).
    destruct (getOrCreateAccount_wf _ _ _ _ Hwf H1) as (Hwf1 & _).
    destruct (getOrCreateAccount_wf _ _ _ _ Hwf1 H2) as (Hwf2 & _).
    destruct (resolveBuyer_frame (pretty (pb_punkIndex e)) a2 (pb_value e)
                (Bid_load s2 (pretty (pb_punkIndex e))) s2) as (_ & _ & Hs3).
    pose proof (wfStore_resolveBuyer (pretty (pb_punkIndex e)) a2 (pb_value e)
                  (Bid_load s2 (pretty (pb_punkIndex e))) s2 Hwf2) as Hwf3.
    destruct (resolveBuyer _ a2 _ _ s2) as [[s3 a3] v3]; simpl in Hs3, Hwf3.
    pose proof (updateOwnership_onlyBucket (tx_hash (pb_event e))
                  (block_timestamp (pb_event e)) (pretty (pb_punkIndex e))
                  (account_id a3) (account_id a1) s3 Hwf3) as Hob.
    pose proof (wfStore_updateOwnership (tx_hash (pb_event e))
                  (block_timestamp (pb_event e)) (pretty (pb_punkIndex e))
                  (account_id a3) (account_id a1) s3 Hwf3) as Hwf4.
    set (s4 := updateOwnership _ _ _ _ _ s3) in *. clearbody s4.
    assert (onlyBucket (timestampToId (toI32 (block_timestamp (pb_event e))) 0) s s4) as Hob'.
    { eapply onlyBucket_trans; [|exact Hob]. apply onlyBucket_same. congruence. }
    destruct (negb _ && _); [done|].
    rewrite topSale_update by done.
    match goal with
    | |- context [getOrCreateState ?sx ?ts] =>
        assert (wfStore sx) as Hwfx by auto with wf;
        pose proof (getOrCreateState_id sx ts Hwfx) as Hsid;
        remember (getOrCreateState sx ts) as stx eqn:Hstx; clear Hstx
    end.
    eapply onlyBucket_trans; [exact Hob'|].
    by apply State_save_onlyBucket.
  - unfold handlePunkNoLongerForSale.
    destruct (setPunkNoLongerForSale_stores (pretty (nl_punkIndex e)) false s)
      as (_ & _ & _ & _ & Hs1 & _).
    pose proof (wfStore_setPunkNoLongerForSale (pretty (nl_punkIndex e)) false s Hwf) as Hwf1.
    set (s1 := setPunkNoLongerForSale (pretty (nl_punkIndex e)) false s) in *.
    pose proof (getOrCreateState_id s1 (block_timestamp (nl_event e)) Hwf1) as Hsid.
    remember (getOrCreateState s1 (block_timestamp (nl_event e))) as st1 eqn:Hst1.
    clear Hst1. clearbody s1.
    destruct (negb _); simpl; by apply State_save_onlyBucket.
Qed.

(** ** The floor of a new snapshot, recorded sales, third parties *)

Lemma recomputeFloor_ext (s : Store) (st1 st2 : State) :
  timestamp st1 = timestamp st2 → activeListings st1 = activeListings st2 →
  recomputeFloor s st1 = recomputeFloor s st2.
Proof. intros Hts Hal. unfold recomputeFloor, predecessorFloor. by rewrite Hts, Hal. Qed.

(** X23. The floor of a snapshot created by [getOrCreateState] is the
    recomputed floor of the listings it carries forward, and zero when it
    carries none, whatever the floor of the bucket before was.  With one to
    four carried listings it is the floor of the bucket immediately before
    (zero when that bucket has no snapshot, even if the listings were
    carried from an older one). *)
Theorem getOrCreateState_floor (s : Store) (ts : Z) :
  State_load s (timestampToId (toI32 ts) 0) = None →
  timestamp (getOrCreateState s ts) = ts
  ∧ topBid (getOrCreateState s ts) = None
  ∧ topSale (getOrCreateState s ts) = None
  ∧ (activeListings (getOrCreateState s ts) = [] → floor (getOrCreateState s ts) = 0)
  ∧ (activeListings (getOrCreateState s ts) ≠ [] →
     floor (getOrCreateState s ts) = recomputeFloor s (getOrCreateState s ts))
  ∧ ((0 < length (activeListings (getOrCreateState s ts)) < 5)%nat →
     floor (getOrCreateState s ts)
     = match State_load s (timestampToId (toI32 ts) 1) with
       | Some p => floor p
       | None => 0
       end).
Proof.
  intros Hnone. unfold getOrCreateState. rewrite Hnone.
  remember (prevStateLoop s (toI32 ts) 30 1) as prev eqn:Hprev. clear Hprev.
  set (carried := match prev with Some p => activeListings p | None => [] end).
  set (st := mkState _ ts _ _ _ _ _ _ _ carried _ _ _).
  assert (getFloorFromActiveListings s st = recomputeFloor s (set_floor
            (getFloorFromActiveListings s st) st)) as Hfloor.
  { rewrite getFloorFromActiveListings_recompute. by apply recomputeFloor_ext. }
  destruct carried as [|x rest] eqn:Hcarried; simpl.
  - split_and!; try done. simpl. lia.
  - split_and!; try done.
    intros Hlen. rewrite Hfloor. unfold recomputeFloor, predecessorFloor. simpl in *.
    case_decide; [done|lia].
Qed.

(** X24. A recorded sale to a named buyer: when the event's buyer is not the
    zero address and the sale has a nonzero value or the punk has a bid, a
    Sale event with the event's buyer and value is logged, the snapshot
    counts one more sale and adds the value to its volume, and the punk's
    id leaves the active listings. *)
Theorem handlePunkBought_sale (event : PunkBoughtEvent) (s : Store) :
  wfStore s →
  pb_toAddress event ≠ ZERO_ADDRESS →
  is_Some (Bid_load s (pretty (pb_punkIndex event))) ∨ pb_value event ≠ 0 →
  Event_load (handlePunkBought event s) (getGlobalId (pb_event event))
  = Some (mkEvent (getGlobalId (pb_event event)) (tx_hash (pb_event event))
                  "Sale" (pb_punkIndex event)
                  (Some (pb_fromAddress event)) (Some (pb_toAddress event)) (pb_value event)
                  (Some (USDValue (block_timestamp (pb_event event))
                                  (block_number (pb_event event))))
                  (block_number (pb_event event)) (block_timestamp (pb_event event)))
  ∧ ∃ st', State_load (handlePunkBought event s)
                      (timestampToId (toI32 (block_timestamp (pb_event event))) 0) = Some st'
      ∧ sales st' = sales (getOrCreateState s (block_timestamp (pb_event event))) + 1
      ∧ volume st'
        = volume (getOrCreateState s (block_timestamp (pb_event event))) + pb_value event
      ∧ activeListings st'
        = removeId (pretty (pb_punkIndex event))
                   (activeListings (getOrCreateState s (block_timestamp (pb_event event))))
      ∧ (pretty (pb_punkIndex event) ∉ activeListings st').
Proof.
  intros Hwf Hto Hrec.
  assert (resolvedBuyer event s = pb_toAddress event) as Hbuyer.
  { unfold resolvedBuyer. by case_decide. }
  assert (resolvedValue event s = pb_value event) as Hvalue.
  { unfold resolvedValue. by case_decide. }
  destruct (handlePunkBought_recorded event s Hwf) as (Hstate & Hevent & _).
  { by rewrite Hvalue. }
  rewrite Hbuyer, Hvalue in Hevent. split; [done|].
  destruct Hstate as (st' & Hload & _ & Hsales & Hvolume & Hactive).
  exists st'. rewrite Hvalue in Hvolume. split_and!; try done.
  rewrite Hactive. apply not_elem_of_removeId.
Qed.

Lemma updateOwnership_others (tx : string) (ts : Z) (punkId to from : string) (s : Store)
    (k : string) :
  wfStore s → k ≠ to → k ≠ from →
  Account_load (updateOwnership tx ts punkId to from s) k = Account_load s k.
Proof.
  intros Hwf Hkto Hkfrom. unfold updateOwnership.
  destruct (getOrCreateAccount to s) as [s1 toAccount] eqn:Hto.
  destruct (getOrCreateAccount from s1) as [s2 fromAccount] eqn:Hfrom.
  destruct (getOrCreateAccount_account _ _ _ _ Hto) as (_ & _ & _ & Hother1).
  destruct (getOrCreateAccount_account _ _ _ _ Hfrom) as (_ & _ & _ & Hother2).
  destruct (getOrCreateAccount_wf _ _ _ _ Hwf Hto) as (Hwf1 & Hid1).
  destruct (getOrCreateAccount_wf _ _ _ _ Hwf1 Hfrom) as (Hwf2 & Hid2).
  rewrite Hid1, Hid2.
  remember (getOrCreateState s2 ts) as st eqn:Hst. clear Hst.
  match goal with
  | |- context [getOrCreatePunk ?p ?sx] =>
      destruct (getOrCreatePunk p sx) as [s4 p4] eqn:H4;
      destruct (getOrCreatePunk_frame _ _ _ _ H4) as (Ha4 & _)
  end.
  unfold Account_load in *. simpl. rewrite Ha4. simpl.
  rewrite !lookup_insert_ne by done. rewrite Hother2, Hother1; done.
Qed.

(** X25. A transfer between two different accounts takes every occurrence
    of the punk's id out of the sender's held list, keeps the sender's other
    ids in their order, and leaves the held lists of all third parties as
    they were. *)
Theorem updateOwnership_sender_and_others (tx : string) (ts : Z) (punkId to from : string)
    (s : Store) :
  wfStore s → from ≠ to →
  heldBy (updateOwnership tx ts punkId to from s) from = removeId punkId (heldBy s from)
  ∧ (punkId ∉ heldBy (updateOwnership tx ts punkId to from s) from)
  ∧ (∀ x, x ≠ punkId →
          (x ∈ heldBy (updateOwnership tx ts punkId to from s) from ↔ x ∈ heldBy s from))
  ∧ (∀ k, k ≠ to → k ≠ from →
          heldBy (updateOwnership tx ts punkId to from s) k = heldBy s k).
Proof.
  intros Hwf Hne.
  destruct (updateOwnership_stores tx ts punkId to from s Hwf) as (_ & _ & Hfrom & _).
  assert (heldBy (updateOwnership tx ts punkId to from s) from
          = removeId punkId (heldBy s from)) as Heq.
  { unfold heldBy at 1. by rewrite (Hfrom Hne). }
  rewrite Heq. split_and!; [done|apply not_elem_of_removeId| |].
  - intros x Hx. unfold removeId. rewrite list_elem_of_filter. split; [by intros [_ ?]|done].
  - intros k Hkto Hkfrom. unfold heldBy.
    by rewrite (updateOwnership_others tx ts punkId to from s k Hwf Hkto Hkfrom).
Qed.

(** ** Punks and their owners *)

Lemma ownersHoldExcept_ext (moving : option string) (s s' : Store) :
  wfStore s' → accountStore s' = accountStore s → punkStore s' = punkStore s →
  ownersHoldExcept moving s → ownersHoldExcept moving s'.
Proof.
  intros Hwf Ha Hp [_ Ho]. split; [done|]. intros id p Hid Hload.
  unfold Punk_load in Hload. rewrite Hp in Hload.
  destruct (Ho id p Hid Hload) as (a & Hacc & Hin).
  exists a. split; [|done]. unfold Account_load in *. by rewrite Ha.
Qed.

Lemma ownersHoldExcept_moving (x : string) (s : Store) :
  ownersHold s → ownersHoldExcept (Some x) s.
Proof. intros [Hwf Ho]. split; [done|]. intros id p _ Hload. by apply Ho. Qed.

Lemma ownersHoldExcept_getOrCreateAccount (moving : option string) (id : string) (s : Store) :
  ownersHoldExcept moving s → ownersHoldExcept moving (getOrCreateAccount id s).1.
Proof.
  intros [Hwf Ho]. unfold getOrCreateAccount.
  destruct (Account_load s id) as [a0|] eqn:Hacc; simpl; [done|].
  split; [auto with wf|]. intros k p Hk Hload.
  destruct (Ho k p Hk Hload) as (a & Ha & Hin). exists a. split; [|done].
  unfold Account_load in *. simpl. rewrite lookup_insert_ne; [done|]. congruence.
Qed.

Lemma ownersHoldExcept_Punk_save (x : string) (p : Punk) (s : Store) :
  punk_id p = x → ownersHoldExcept (Some x) s → ownersHoldExcept (Some x) (Punk_save p s).
Proof.
  intros Hid [Hwf Ho]. split; [auto with wf|]. intros k q Hk Hload.
  unfold Punk_load in Hload. simpl in Hload.
  rewrite lookup_insert_ne in Hload by congruence. by apply Ho.
Qed.

Lemma ownersHoldExcept_getOrCreatePunk (x : string) (s : Store) :
  ownersHoldExcept (Some x) s → ownersHoldExcept (Some x) (getOrCreatePunk x s).1.
Proof.
  intros Ho. unfold getOrCreatePunk. destruct (Punk_load s x); simpl; [done|].
  by apply ownersHoldExcept_Punk_save.
Qed.

Lemma ownersHoldExcept_setPunkNoLongerForSale (moving : option string) (punkId : string)
    (removeBid : bool) (s : Store) :
  ownersHoldExcept moving s →
  ownersHoldExcept moving (setPunkNoLongerForSale punkId removeBid s).
Proof.
  intros Ho. destruct (setPunkNoLongerForSale_stores punkId removeBid s) as (Ha & _).
  apply (ownersHoldExcept_ext moving s); try done.
  - apply wfStore_setPunkNoLongerForSale, Ho.
  - apply setPunkNoLongerForSale_punkStore.
Qed.

Lemma ownersHoldExcept_resolveBuyer (moving : option string) (punkId : string) (a : Account)
    (v : Z) (bid : option Bid) (s : Store) :
  ownersHoldExcept moving s → ownersHoldExcept moving (resolveBuyer punkId a v bid s).1.1.
Proof.
  intros Ho. unfold resolveBuyer. case_bool_decide.
  - destruct bid as [b|]; simpl.
    + pose proof (ownersHoldExcept_getOrCreateAccount moving (bid_fromAccount b) s Ho) as Ho1.
      destruct (getOrCreateAccount (bid_fromAccount b) s) as [s1 a1]; simpl in *.
      by apply ownersHoldExcept_setPunkNoLongerForSale.
    + by apply ownersHoldExcept_setPunkNoLongerForSale.
  - case_match; simpl; by apply ownersHoldExcept_setPunkNoLongerForSale.
Qed.

(** [updateOwnership] saves the sender before the receiver and takes only
    the moved id out of the sender's list, so it re-establishes the
    invariant for the moved punk and keeps it for all others. *)
Lemma ownersHold_updateOwnership (tx : string) (ts : Z) (punkId to from : string)
    (s : Store) :
  ownersHoldExcept (Some punkId) s →
  ownersHoldExcept None (updateOwnership tx ts punkId to from s).
Proof.
  intros [Hwf Ho].
  destruct (updateOwnership_stores tx ts punkId to from s Hwf)
    as (_ & Hto & Hfrom & _ & _ & _ & _ & Hwf').
  destruct (updateOwnership_punk tx ts punkId to from s Hwf) as (Hpunk & Hother).
  split; [done|]. intros id p _ Hload.
  destruct (decide (id = punkId)) as [->|Hne].
  - rewrite Hpunk in Hload. injection Hload as <-.
    eexists. split; [exact Hto|]. simpl. set_solver.
  - rewrite (Hother _ Hne) in Hload.
    destruct (Ho id p) as (a & Ha & Hin); [congruence|done|].
    destruct (decide (owner p = to)) as [Heq|Hnto].
    + eexists. split; [rewrite Heq; exact Hto|]. simpl.
      unfold heldBy. rewrite <- Heq, Ha. set_solver.
    + destruct (decide (owner p = from)) as [Heqf|Hnf].
      * eexists. split; [rewrite Heqf; apply Hfrom; congruence|]. simpl.
        unfold heldBy. rewrite <- Heqf, Ha. unfold removeId.
        apply list_elem_of_filter. done.
      * exists a. split; [|done]. by rewrite updateOwnership_others.
Qed.

Lemma ownersHoldExcept_Listing_save (moving : option string) (l : Listing) (s : Store) :
  ownersHoldExcept moving s → ownersHoldExcept moving (Listing_save l s).
Proof. intros Ho. apply (ownersHoldExcept_ext moving s); try done. destruct Ho. auto with wf. Qed.

Lemma ownersHoldExcept_Bid_save (moving : option string) (b : Bid) (s : Store) :
  ownersHoldExcept moving s → ownersHoldExcept moving (Bid_save b s).
Proof. intros Ho. apply (ownersHoldExcept_ext moving s); try done. destruct Ho. auto with wf. Qed.

Lemma ownersHoldExcept_Bid_remove (moving : option string) (id : string) (s : Store) :
  ownersHoldExcept moving s → ownersHoldExcept moving (Bid_remove id s).
Proof. intros Ho. apply (ownersHoldExcept_ext moving s); try done. destruct Ho. auto with wf. Qed.

Lemma ownersHoldExcept_Event_save (moving : option string) (e : Event) (s : Store) :
  ownersHoldExcept moving s → ownersHoldExcept moving (Event_save e s).
Proof. intros Ho. apply (ownersHoldExcept_ext moving s); try done. destruct Ho. auto with wf. Qed.

Lemma ownersHoldExcept_State_save (moving : option string) (st : State) (s : Store) :
  ownersHoldExcept moving s → ownersHoldExcept moving (State_save st s).
Proof. intros Ho. apply (ownersHoldExcept_ext moving s); try done. destruct Ho. auto with wf. Qed.

Lemma ownersHoldExcept_Transfer_save (moving : option string) (t : Transfer) (s : Store) :
  ownersHoldExcept moving s → ownersHoldExcept moving (Transfer_save t s).
Proof. intros Ho. apply (ownersHoldExcept_ext moving s); try done. destruct Ho. auto with wf. Qed.

#[local] Hint Resolve ownersHoldExcept_Listing_save ownersHoldExcept_Bid_save
  ownersHoldExcept_Bid_remove ownersHoldExcept_Event_save ownersHoldExcept_State_save
  ownersHoldExcept_Transfer_save ownersHoldExcept_setPunkNoLongerForSale
  ownersHold_updateOwnership : owners.

Lemma ownersHold_dispatch (event : ContractEvent) (s : Store) :
  ownersHold s → ownersHold (dispatch event s).
Proof.
  intros Ho. unfold ownersHold in *. destruct event as [e|e|e|e|e|e|e|e]; simpl.
  - unfold handleAssign.
    apply (ownersHoldExcept_moving (pretty (as_punkIndex e))) in Ho.
    pose proof (ownersHoldExcept_getOrCreateAccount _ ZERO_ADDRESS s Ho) as Ho1.
    destruct (getOrCreateAccount ZERO_ADDRESS s) as [s1 a1]; simpl in Ho1.
    pose proof (ownersHoldExcept_getOrCreateAccount _ (as_to e) s1 Ho1) as Ho2.
    destruct (getOrCreateAccount (as_to e) s1) as [s2 a2]; simpl in Ho2.
    auto with owners.
  - unfold handleTransfer. auto with owners.
  - unfold handlePunkTransfer.
    apply (ownersHoldExcept_moving (pretty (pt_punkIndex e))) in Ho.
    pose proof (ownersHoldExcept_getOrCreateAccount _ (pt_from e) s Ho) as Ho1.
    destruct (getOrCreateAccount (pt_from e) s) as [s1 a1]; simpl in Ho1.
    pose proof (ownersHoldExcept_getOrCreateAccount _ (pt_to e) s1 Ho1) as Ho2.
    destruct (getOrCreateAccount (pt_to e) s1) as [s2 a2]; simpl in Ho2.
    pose proof (ownersHoldExcept_getOrCreatePunk (pretty (pt_punkIndex e)) s2 Ho2) as Ho3.
    destruct (getOrCreatePunk (pretty (pt_punkIndex e)) s2) as [s3 p] eqn:Hp; simpl in Ho3.
    destruct (getOrCreatePunk_loaded _ _ _ _ (proj1 Ho2) Hp) as (Hid & _).
    set (s4 := Punk_save _ s3).
    assert (ownersHoldExcept (Some (pretty (pt_punkIndex e))) s4) as Ho4.
    { subst s4. by apply ownersHoldExcept_Punk_save. }
    clearbody s4.
    destruct (Bid_load s4 (pretty (pt_punkIndex e))) as [b|].
    + pose proof (ownersHoldExcept_getOrCreateAccount _ (bid_fromAccount b) s4 Ho4) as Ho5.
      destruct (getOrCreateAccount (bid_fromAccount b) s4) as [s5 a5]; simpl in Ho5.
      auto 10 with owners.
    + auto 10 with owners.
  - unfold handlePunkOffered.
    pose proof (ownersHoldExcept_getOrCreateAccount _ (tx_from (po_event e)) s Ho) as Ho1.
    destruct (getOrCreateAccount (tx_from (po_event e)) s) as [s1 a1]; simpl in Ho1.
    pose proof (ownersHoldExcept_getOrCreateAccount _ (po_toAddress e) s1 Ho1) as Ho2.
    destruct (getOrCreateAccount (po_toAddress e) s1) as [s2 a2]; simpl in Ho2.
    auto with owners.
  - unfold handlePunkBidEntered.
    pose proof (ownersHoldExcept_getOrCreateAccount _ (be_fromAddress e) s Ho) as Ho1.
    destruct (getOrCreateAccount (be_fromAddress e) s) as [s1 a1]; simpl in Ho1.
    auto with owners.
  - unfold handlePunkBidWithdrawn.
    pose proof (ownersHoldExcept_getOrCreateAccount _ (bw_fromAddress e) s Ho) as Ho1.
    destruct (getOrCreateAccount (bw_fromAddress e) s) as [s1 a1]; simpl in Ho1.
    destruct (Bid_load s1 _); auto with owners.
  - unfold handlePunkBought.
    apply (ownersHoldExcept_moving (pretty (pb_punkIndex e))) in Ho.
    pose proof (ownersHoldExcept_getOrCreateAccount _ (pb_fromAddress e) s Ho) as Ho1.
    destruct (getOrCreateAccount (pb_fromAddress e) s) as [s1 a1]; simpl in Ho1.
    pose proof (ownersHoldExcept_getOrCreateAccount _ (pb_toAddress e) s1 Ho1) as Ho2.
    destruct (getOrCreateAccount (pb_toAddress e) s1) as [s2 a2]; simpl in Ho2.
    pose proof (ownersHoldExcept_resolveBuyer _ (pretty (pb_punkIndex e)) a2 (pb_value e)
                  (Bid_load s2 (pretty (pb_punkIndex e))) s2 Ho2) as Ho3.
    destruct (resolveBuyer _ a2 _ _ s2) as [[s3 a3] v3]; simpl in Ho3.
    case_match; auto with owners.
  - unfold handlePunkNoLongerForSale.
    destruct (negb _); auto with owners.
Qed.

Lemma ownersHold_replay (events : list ContractEvent) (s : Store) :
  ownersHold s → ownersHold (replay events s).
Proof.
  revert s. induction events as [|event events IH]; intros s Ho; [done|].
  simpl. apply IH. by apply ownersHold_dispatch.
Qed.

(** X7. In every store reached from the empty store each recorded punk is
    held by its owner: the owner is an account of the store, the account's
    held list contains the punk's id, and [getPunkOwner] answers the owner
    the punk records, never the zero address in place of a missing
    account. *)
Theorem replay_owners_hold (events : list ContractEvent) (id : string) (p : Punk) :
  Punk_load (replay events emptyStore) id = Some p →
  is_Some (Account_load (replay events emptyStore) (owner p))
  ∧ id ∈ heldBy (replay events emptyStore) (owner p)
  ∧ getPunkOwner (replay events emptyStore) id = owner p.
Proof.
  intros Hload.
  assert (ownersHold emptyStore) as Hempty.
  { split; [apply wfStore_empty|]. intros k q _ Hq. unfold Punk_load in Hq. simpl in Hq.
    by rewrite lookup_empty in Hq. }
  destruct (ownersHold_replay events emptyStore Hempty) as [Hwf Ho].
  destruct (Ho id p) as (a & Ha & Hin); [done|done|].
  split_and!.
  - by rewrite Ha.
  - unfold heldBy. by rewrite Ha.
  - unfold getPunkOwner. rewrite Hload, Ha.
    destruct Hwf as (Hacc & _). apply (Hacc _ _ Ha).
Qed.

End Mappings.


(** * The further properties at work on concrete inputs *)

(** After the claim and the transfer to itself, punk 42 is still held by
    [0xdd], its owner. *)
Lemma replay_owners_hold_witness :
  Punk_load (@replay dayHost exClaimThenSelfTransfer emptyStore) "42"
  = Some (mkPunk "42" "0xdd" false)
  ∧ "42" ∈ heldBy (@replay dayHost exClaimThenSelfTransfer emptyStore) "0xdd"
  ∧ @getPunkOwner dayHost (@replay dayHost exClaimThenSelfTransfer emptyStore) "42" = "0xdd".
Proof.
  assert (Punk_load (@replay dayHost exClaimThenSelfTransfer emptyStore) "42"
          = Some (mkPunk "42" "0xdd" false)) as Hload by (by vm_compute).
  destruct (@replay_owners_hold dayHost exClaimThenSelfTransfer "42" _ Hload)
    as (_ & Hin & Hown).
  split_and!; [exact Hload|exact Hin|exact Hown].
Defined.

Lemma exStoreStale_wf : wfStore exStoreStale.
Proof. unfold exStoreStale. auto 10 with wf. Qed.

Lemma hexToDecimal_bounds_witness :
  Forall isHexDigit (chars "1F") ∧ 0 ≤ hexToDecimal "0x1F" < 256.
Proof.
  assert (Forall isHexDigit (chars "1F")) as Hdigits.
  { repeat constructor; unfold isHexDigit; vm_compute; discriminate. }
  split; [exact Hdigits|]. exact (hexToDecimal_bounds "1F" Hdigits).
Defined.

Lemma hexToDecimal_injective_witness :
  Forall isHexDigit (chars "aB") ∧ Forall isHexDigit (chars "Ab")
  ∧ hexToDecimal "0xaB" = hexToDecimal "0xAb"
  ∧ toLowerCase "aB" = toLowerCase "Ab".
Proof.
  assert (Forall isHexDigit (chars "aB")) as H1.
  { repeat constructor; unfold isHexDigit; vm_compute; discriminate. }
  assert (Forall isHexDigit (chars "Ab")) as H2.
  { repeat constructor; unfold isHexDigit; vm_compute; discriminate. }
  assert (hexToDecimal "0xaB" = hexToDecimal "0xAb") as Hv by reflexivity.
  split_and!; [exact H1|exact H2|exact Hv|].
  exact (hexToDecimal_injective "aB" "Ab" H1 H2 eq_refl Hv).
Defined.

Lemma getGlobalId_injective_witness :
  getGlobalId (exEvent "0x0f" 0 172800) = getGlobalId (mkEthEvent "0x0f" "0xbb" 0 5 9)
  ∧ tx_hash (exEvent "0x0f" 0 172800) = tx_hash (mkEthEvent "0x0f" "0xbb" 0 5 9)
  ∧ logIndex (exEvent "0x0f" 0 172800) = logIndex (mkEthEvent "0x0f" "0xbb" 0 5 9).
Proof.
  split; [reflexivity|].
  exact (getGlobalId_injective (exEvent "0x0f" 0 172800) (mkEthEvent "0x0f" "0xbb" 0 5 9)
           eq_refl eq_refl).
Defined.

Lemma getFloorFromActiveListings_by_ids_witness :
  (∀ id, id ∈ activeListings exState5 ↔ id ∈ activeListings exState5Shuffled)
  ∧ @getFloorFromActiveListings dayHost exStore5 exState5Shuffled = 50.
Proof.
  assert (∀ id, id ∈ activeListings exState5 ↔ id ∈ activeListings exState5Shuffled) as Hsame.
  { intros id. simpl. rewrite !elem_of_cons, !elem_of_nil. tauto. }
  split; [exact Hsame|].
  destruct (@getFloorFromActiveListings_by_ids dayHost exStore5 exState5 exState5Shuffled)
    as (Heq & _); [simpl; lia|simpl; lia|exact Hsame|].
  rewrite <- Heq. reflexivity.
Defined.

Lemma updateOwnership_getPunkOwner_witness :
  wfStore exStoreOwners
  ∧ @getPunkOwner dayHost (@updateOwnership dayHost "0x01" 172800 "5" "0xcc" "0xaa"
                             exStoreOwners) "5" = "0xcc".
Proof.
  split; [exact exStoreOwners_wf|].
  destruct (@updateOwnership_getPunkOwner dayHost "0x01" 172800 "5" "0xcc" "0xaa"
              exStoreOwners exStoreOwners_wf) as (Hown & _); [done|exact Hown].
Defined.

Lemma handleAssign_claims_witness :
  wfStore exStoreOwners
  ∧ @getPunkOwner dayHost (@handleAssign dayHost exAssign exStoreOwners) "42" = "0xdd"
  ∧ heldBy (@handleAssign dayHost exAssign exStoreOwners) "0xdd" = ["42"].
Proof.
  destruct (@handleAssign_claims dayHost exAssign exStoreOwners exStoreOwners_wf)
    as (Hown & Hheld & _); [done|].
  split_and!; [exact exStoreOwners_wf|exact Hown|]. etrans; [exact Hheld|reflexivity].
Defined.

Lemma handlePunkBidEntered_bid_witness :
  wfStore exStoreTop
  ∧ bid_value <$> Bid_load (@handlePunkBidEntered dayHost (exBid 100) exStoreTop) "5"
    = Some 100
  ∧ ∃ st', State_load (@handlePunkBidEntered dayHost (exBid 100) exStoreTop) "2" = Some st'
      ∧ bids st' = 2.
Proof.
  destruct (@handlePunkBidEntered_bid dayHost (exBid 100) exStoreTop exStoreTop_wf)
    as (Hbid & _ & _ & _ & st' & Hload & Hbids).
  split_and!; [exact exStoreTop_wf| |].
  - etrans; [exact (f_equal (fmap bid_value) Hbid)|reflexivity].
  - exists st'. split; [exact Hload|]. etrans; [exact Hbids|reflexivity].
Defined.

Lemma handlePunkBidWithdrawn_bid_witness :
  wfStore exStoreTop
  ∧ Bid_load (@handlePunkBidWithdrawn dayHost exWithdraw
                (@handlePunkBidEntered dayHost (exBid 100) exStoreTop)) "5" = None
  ∧ ∃ st', State_load (@handlePunkBidWithdrawn dayHost exWithdraw
                         (@handlePunkBidEntered dayHost (exBid 100) exStoreTop)) "2"
           = Some st'
      ∧ bids st' = 2.
Proof.
  destruct (@handlePunkBidWithdrawn_bid dayHost exWithdraw (exBid 100) exStoreTop
              exStoreTop_wf) as (_ & _ & _ & _ & _ & Hcomp).
  destruct (Hcomp eq_refl) as (Hnobid & st' & Hload & Hbids).
  split_and!; [exact exStoreTop_wf|exact Hnobid|].
  exists st'. split; [exact Hload|]. etrans; [exact Hbids|reflexivity].
Defined.

Lemma handlePunkOffered_listing_witness :
  wfStore exStoreListed
  ∧ listing_fromAccount <$> Listing_load (@handlePunkOffered dayHost (exOffer 1)
                                            exStoreListed) "7" = Some "0xaa"
  ∧ isPrivate <$> Listing_load (@handlePunkOffered dayHost (exOffer 1) exStoreListed) "7"
    = Some false.
Proof.
  destruct (@handlePunkOffered_listing dayHost (exOffer 1) exStoreListed exStoreListed_wf)
    as (Hlisting & _).
  split_and!; [exact exStoreListed_wf| |].
  - etrans; [exact (f_equal (fmap listing_fromAccount) Hlisting)|reflexivity].
  - etrans; [exact (f_equal (fmap isPrivate) Hlisting)|reflexivity].
Defined.

Lemma handlePunkBought_bid_and_owner_witness :
  wfStore exStoreBid
  ∧ Listing_load (@handlePunkBought dayHost exBoughtZeroBuyer exStoreBid) "3" = None
  ∧ @getPunkOwner dayHost (@handlePunkBought dayHost exBoughtZeroBuyer exStoreBid) "3"
    = "0xbb".
Proof.
  destruct (@handlePunkBought_bid_and_owner dayHost exBoughtZeroBuyer exStoreBid exStoreBid_wf)
    as (Hlisting & _ & _ & Hown).
  split_and!; [exact exStoreBid_wf|exact Hlisting|].
  etrans; [apply Hown; by vm_compute|reflexivity].
Defined.

Lemma handlePunkBought_unrecorded_keeps_id_witness :
  wfStore exStoreStale
  ∧ pb_value exBoughtZeroValue = 0
  ∧ Bid_load exStoreStale "9" = None
  ∧ "9" ∈ activeListings (@getOrCreateState dayHost exStoreStale 172800)
  ∧ Listing_load (@handlePunkBought dayHost exBoughtZeroValue exStoreStale) "9" = None
  ∧ ∃ st', State_load (@handlePunkBought dayHost exBoughtZeroValue exStoreStale) "2" = Some st'
      ∧ "9" ∈ activeListings st'.
Proof.
  assert ("9" ∈ activeListings (@getOrCreateState dayHost exStoreStale 172800)) as Hin.
  { vm_compute. apply list_elem_of_here. }
  destruct (@handlePunkBought_unrecorded_keeps_id dayHost exBoughtZeroValue exStoreStale
              exStoreStale_wf eq_refl eq_refl Hin) as (Hlisting & _ & st' & Hload & Hin').
  split_and!; [exact exStoreStale_wf|reflexivity|reflexivity|exact Hin|exact Hlisting|].
  exists st'. split; [exact Hload|exact Hin'].
Defined.

Lemma handlePunkTransfer_moves_witness :
  wfStore exStoreOwners
  ∧ @getPunkOwner dayHost (@handlePunkTransfer dayHost exPunkTransfer exStoreOwners) "7"
    = "0xcc"
  ∧ event_type <$> Event_load (@handlePunkTransfer dayHost exPunkTransfer exStoreOwners)
                              "0x10-0" = Some "Transferred".
Proof.
  destruct (@handlePunkTransfer_moves dayHost exPunkTransfer exStoreOwners exStoreOwners_wf)
    as (Hown & _ & Hevent & _); [done|].
  split_and!; [exact exStoreOwners_wf|exact Hown|].
  etrans; [exact (f_equal (fmap event_type) Hevent)|reflexivity].
Defined.

Lemma offer_then_withdrawal_witness :
  wfStore exStoreListed
  ∧ Transfer_load exStoreListed (tx_hash (nl_event exNoLongerForSale)) = None
  ∧ ∃ st', State_load (@handlePunkNoLongerForSale dayHost exNoLongerForSale
                         (@handlePunkOffered dayHost (exOffer 1) exStoreListed)) "2" = Some st'
      ∧ activeListings st' = [] ∧ listings st' = 1 ∧ delistings st' = 1.
Proof.
  destruct (@offer_then_withdrawal dayHost (exOffer 1) exNoLongerForSale exStoreListed
              exStoreListed_wf eq_refl eq_refl eq_refl)
    as (_ & _ & st' & Hload & Hactive & Hlistings & Hdelistings).
  split_and!; [exact exStoreListed_wf|reflexivity|].
  exists st'. split_and!; [exact Hload|..].
  - etrans; [exact Hactive|reflexivity].
  - etrans; [exact Hlistings|reflexivity].
  - etrans; [exact Hdelistings|reflexivity].
Defined.

Lemma dispatch_other_buckets_witness :
  wfStore exStoreListed
  ∧ State_load (@dispatch dayHost (PunkOffered (exOffer 1)) exStoreListed) "1"
    = Some (exState "1" 86400 7 []).
Proof.
  split; [exact exStoreListed_wf|].
  etrans; [apply (@dispatch_other_buckets dayHost (PunkOffered (exOffer 1)) exStoreListed "1"
                    exStoreListed_wf); by vm_compute|reflexivity].
Defined.

Lemma getOrCreateState_floor_witness :
  State_load exStore5 "2" = None
  ∧ floor <$> State_load exStore5 "1" = Some 7
  ∧ floor (@getOrCreateState dayHost exStore5 172800) = 0.
Proof.
  destruct (@getOrCreateState_floor dayHost exStore5 172800 eq_refl)
    as (_ & _ & _ & Hempty & _).
  split_and!; [reflexivity|reflexivity|]. apply Hempty. reflexivity.
Defined.

Lemma handlePunkBought_sale_witness :
  wfStore exStoreTop
  ∧ pb_toAddress (exSale 101) ≠ @ZERO_ADDRESS dayHost
  ∧ ∃ st', State_load (@handlePunkBought dayHost (exSale 101) exStoreTop) "2" = Some st'
      ∧ sales st' = 2 ∧ volume st' = 201.
Proof.
  assert (pb_toAddress (exSale 101) ≠ @ZERO_ADDRESS dayHost) as Hto by (by vm_compute).
  destruct (@handlePunkBought_sale dayHost (exSale 101) exStoreTop exStoreTop_wf Hto)
    as (_ & st' & Hload & Hsales & Hvolume & _); [right; by vm_compute|].
  split_and!; [exact exStoreTop_wf|exact Hto|].
  exists st'. split_and!; [exact Hload|..].
  - etrans; [exact Hsales|reflexivity].
  - etrans; [exact Hvolume|reflexivity].
Defined.

Lemma updateOwnership_sender_and_others_witness :
  wfStore exStoreOwners
  ∧ heldBy (@updateOwnership dayHost "0x01" 172800 "1" "0xaa" "0xcc" exStoreOwners) "0xcc"
    = ["2"]
  ∧ heldBy (@updateOwnership dayHost "0x01" 172800 "1" "0xaa" "0xcc" exStoreOwners) "0xbb"
    = ["7"].
Proof.
  destruct (@updateOwnership_sender_and_others dayHost "0x01" 172800 "1" "0xaa" "0xcc"
              exStoreOwners exStoreOwners_wf) as (Hsender & _ & _ & Hothers); [done|].
  split_and!; [exact exStoreOwners_wf| |].
  - etrans; [exact Hsender|reflexivity].
  - etrans; [apply Hothers; done|reflexivity].
Defined.
